(** * RSS feed enrichment pipeline: a shallow embedding of [src/api]

    The development follows the layout of the Python sources:
    - [PyStr]      Python [str] values and the string built-ins the code calls;
    - [Utils]      [api/core/utils.py] ([clean_html], [clean_tag], ...);
    - [Cache]      [api/core/cache.py], the feed cache kept in [cache/flux];
    - [Fetchers]   [api/core/fetchers/], the three strategies and their cascade;
    - [Extractors] [api/core/extractors.py];
    - [Processor]  [api/core/processor.py], [process_entry];
    - [Routes]     the [/api/filter] handler of [api/routes.py];
    - [Playwright] the global lock of [api/core/fetchers/playwright.py].

    Library calls whose code is not part of the repository (Unicode case
    mapping, [urljoin], the digests, the HTML parser, the Markdown
    converter) are the fields of [PyLib]; what comes from the network is
    in [Net] and [Web].  The definitions are parametric in them, and
    [Sample] fixes one of each to run the model. *)

From Stdlib Require Import ZArith NArith List Ascii String Lia Bool.
From stdpp Require Import base decidable option list gmap sorting.

Set Warnings "-register-all".
Open Scope Z_scope.

(* ===================================================================== *)
(** * Python strings *)
(* ===================================================================== *)

Module PyStr.

(** A Python [str] is a sequence of Unicode code points. *)
Definition char := N.
Definition str := list char.

(** ASCII literals. *)
Definition py (s : string) : str :=
  List.map N_of_ascii (list_ascii_of_string s).

(** Truth value of a string: [if s:] holds for every non-empty string. *)
Definition truthy (s : str) : bool :=
  match s with [] => false | _ :: _ => true end.

(** [len(s)] *)
Definition len (s : str) : Z := Z.of_nat (length s).

Definition char_eqb (a b : char) : bool := N.eqb a b.

Fixpoint str_eqb (a b : str) : bool :=
  match a, b with
  | [], [] => true
  | x :: a', y :: b' => char_eqb x y && str_eqb a' b'
  | _, _ => false
  end.

(** [Py_UNICODE_ISSPACE]: the characters [str.strip()] removes and the
    class [\s] of a Unicode pattern matches. *)
Definition is_space (c : char) : bool :=
  (((9 <=? c) && (c <=? 13)) || ((28 <=? c) && (c <=? 32))
   || (c =? 133) || (c =? 160) || (c =? 5760)
   || ((8192 <=? c) && (c <=? 8202))
   || (c =? 8232) || (c =? 8233) || (c =? 8239) || (c =? 8287)
   || (c =? 12288))%N.

Fixpoint lstrip (s : str) : str :=
  match s with
  | c :: s' => if is_space c then lstrip s' else s
  | [] => []
  end.

Definition rstrip (s : str) : str := rev (lstrip (rev s)).

(** [s.strip()] *)
Definition strip (s : str) : str := rstrip (lstrip s).

Fixpoint startswith (p s : str) : bool :=
  match p, s with
  | [], _ => true
  | x :: p', y :: s' => char_eqb x y && startswith p' s'
  | _ :: _, [] => false
  end.

(** [sub in s] *)
Fixpoint contains (sub s : str) : bool :=
  startswith sub s ||
  match s with
  | [] => false
  | _ :: s' => contains sub s'
  end.

(** [s.split(sep)] for a one-character separator. *)
Fixpoint split_on (sep : char) (s : str) : list str :=
  match s with
  | [] => [[]]
  | c :: s' =>
      if char_eqb c sep then [] :: split_on sep s'
      else match split_on sep s' with
           | [] => [[c]]
           | w :: ws => (c :: w) :: ws
           end
  end.

Definition LF : char := 10%N.

(** [s.replace(c, by)] for a one-character [c]. *)
Definition replace_char (c : char) (by_ : str) (s : str) : str :=
  List.concat (List.map (fun x => if char_eqb x c then by_ else [x]) s).

(** [s.split("\n\n")]; [cur] holds the piece being read, reversed. *)
Fixpoint split_blank_lines (cur : str) (s : str) : list str :=
  match s with
  | [] => [rev cur]
  | a :: s' =>
      match s' with
      | b :: rest =>
          if char_eqb a LF && char_eqb b LF then rev cur :: split_blank_lines [] rest
          else split_blank_lines (a :: cur) s'
      | [] => [rev (a :: cur)]
      end
  end.

(** [l[:n]] for an integer [n]: a negative bound counts from the end. *)
Definition slice_to {A} (n : Z) (l : list A) : list A :=
  if 0 <=? n then firstn (Z.to_nat n) l
  else firstn (length l - Z.to_nat (- n)) l.

(** Lexicographic order on code points, the order of [<] on [str]. *)
Fixpoint str_ltb (a b : str) : bool :=
  match a, b with
  | _, [] => false
  | [], _ :: _ => true
  | x :: a', y :: b' => (x <? y)%N || ((x =? y)%N && str_ltb a' b')
  end.

Definition str_lt (a b : str) : Prop := str_ltb a b = true.
Definition str_le (a b : str) : Prop := str_ltb b a = false.

#[global] Instance str_le_dec (a b : str) : Decision (str_le a b) :=
  decide (str_ltb b a = false).

(** [str.lower()] restricted to the ASCII letters; it agrees with CPython
    on every string of code points below 128. *)
Definition ascii_lower_char (c : char) : char :=
  if ((65 <=? c) && (c <=? 90))%N then (c + 32)%N else c.
Definition ascii_lower (s : str) : str := List.map ascii_lower_char s.

End PyStr.
Import PyStr.

(* ===================================================================== *)
(** * The parsed document and the library interface *)
(* ===================================================================== *)

(** The tree [BeautifulSoup(html, "html.parser")] builds: text nodes and
    tags with their attribute dictionary and children, in document order. *)
Inductive node :=
  | Text (s : str)
  | Tag (name : str) (attrs : list (str * str)) (children : list node).

(** What the code calls from the Python library and from third-party
    packages.  [None] stands for a raised exception. *)
Record PyLib := {
  (** [s.lower()] *)
  lower : str -> str;
  (** membership in the class [\w] of a Unicode pattern *)
  re_word : char -> bool;
  (** [re.compile(p1|...|pn, re.I).search(s)] finds a match *)
  re_search_i : list str -> str -> bool;
  (** [urllib.parse.urljoin(base, url)] *)
  urljoin : str -> str -> option str;
  (** [(urlparse(u).scheme, urlparse(u).netloc)] *)
  urlparse : str -> option (str * str);
  (** [hashlib.sha1(s.encode()).hexdigest()] *)
  sha1_hexdigest : str -> str;
  (** [hashlib.sha256(s.encode()).hexdigest()] *)
  sha256_hexdigest : str -> option str;
  (** [markdown.markdown(text, extensions=[...], output_format="html")] *)
  markdown : str -> option str;
  (** [BeautifulSoup(html, "html.parser")] *)
  BeautifulSoup : str -> option node;
  (** [str(element)] *)
  to_html : node -> str
}.

Module Soup.

(** Descendants of a node in document order, the order [find] and
    [find_all] search in. *)
Fixpoint descendants (n : node) : list node :=
  match n with
  | Text _ => []
  | Tag _ _ cs =>
      (fix over (l : list node) : list node :=
         match l with
         | [] => []
         | c :: l' => c :: descendants c ++ over l'
         end) cs
  end.

Definition is_tag (nm : str) (n : node) : bool :=
  match n with Text _ => false | Tag nm' _ _ => str_eqb nm nm' end.

Fixpoint assoc (k : str) (d : list (str * str)) : option str :=
  match d with
  | [] => None
  | (k', v) :: d' => if str_eqb k k' then Some v else assoc k d'
  end.

(** [tag.get(k)] *)
Definition get (k : str) (n : node) : option str :=
  match n with Text _ => None | Tag _ a _ => assoc k a end.

(** [tag.get(k)] used as a condition: present and non-empty. *)
Definition get_truthy (k : str) (n : node) : option str :=
  match get k n with
  | Some v => if truthy v then Some v else None
  | None => None
  end.

(** [find_all] with the tag name and attribute tests folded in [p]. *)
Definition find_all (p : node -> bool) (root : node) : list node :=
  List.filter p (descendants root).

(** [find]: the first match in document order, if any. *)
Definition find (p : node -> bool) (root : node) : option node :=
  List.find p (descendants root).

(** Tokens of a multi-valued attribute ([class], [rel]): the maximal runs
    of non-space characters. *)
Fixpoint tokens_aux (cur : str) (s : str) : list str :=
  match s with
  | [] => match cur with [] => [] | _ => [rev cur] end
  | c :: s' =>
      if is_space c
      then match cur with [] => tokens_aux [] s' | _ => rev cur :: tokens_aux [] s' end
      else tokens_aux (c :: cur) s'
  end.
Definition tokens (s : str) : list str := tokens_aux [] s.

Fixpoint join (sep : str) (l : list str) : str :=
  match l with
  | [] => []
  | [x] => x
  | x :: l' => x ++ sep ++ join sep l'
  end.

(** How a test is matched against a multi-valued attribute: on each
    token, then on the tokens joined by a space. *)
Definition multi_matches (p : str -> bool) (v : str) : bool :=
  existsb p (tokens v) || p (join (py " ") (tokens v)).

Definition attr_eq (k v : str) (n : node) : bool :=
  match get k n with Some v' => str_eqb v v' | None => false end.

Definition has_attr (k : str) (n : node) : bool :=
  match get k n with Some _ => true | None => false end.

Definition attr_test (k : str) (p : str -> bool) (n : node) : bool :=
  match get k n with Some v => p v | None => false end.

Definition multi_attr_test (k : str) (p : str -> bool) (n : node) : bool :=
  match get k n with Some v => multi_matches p v | None => false end.

(** [tag.get_text(strip=True)]: the stripped, non-empty text pieces. *)
Definition text_of (n : node) : option str :=
  match n with Text s => Some s | Tag _ _ _ => None end.

Definition get_text_strip (n : node) : str :=
  List.concat
    (List.filter truthy
       (List.map strip (omap text_of (descendants n)))).

End Soup.

(* ===================================================================== *)
(** * [config.py] *)
(* ===================================================================== *)

(** The fields of [Config] the pipeline reads, each parsed from the process
    environment, and the import-time availability flags of the modules. *)
Record Config := {
  JINA_BASE_URL : str;
  USE_JINA : bool;
  USE_CLOUDSCRAPER : bool;
  USE_PLAYWRIGHT : bool;
  MIN_CONTENT_LENGTH : Z;
  MAX_TAGS_PER_ARTICLE : Z;
  PLAYWRIGHT_AVAILABLE : bool;
  CLOUDSCRAPER_AVAILABLE : bool;
  BS4_AVAILABLE : bool
}.

(** The defaults of [config.py], every optional package installed. *)
Definition default_config : Config :=
  {| JINA_BASE_URL := py "https://r.jina.ai";
     USE_JINA := true; USE_CLOUDSCRAPER := true; USE_PLAYWRIGHT := true;
     MIN_CONTENT_LENGTH := 50; MAX_TAGS_PER_ARTICLE := 10;
     PLAYWRIGHT_AVAILABLE := true; CLOUDSCRAPER_AVAILABLE := true;
     BS4_AVAILABLE := true |}.

(* ===================================================================== *)
(** * [api/core/utils.py] *)
(* ===================================================================== *)

Module Utils.

Definition PLACEHOLDER : str := py "<p>Contenu non disponible</p>".

(** The class [[\x00-\x08\x0B\x0C\x0E-\x1F\x7F]] of [clean_html]. *)
Definition in_control_class (c : char) : bool :=
  ((c <=? 8) || (c =? 11) || (c =? 12) || ((14 <=? c) && (c <=? 31))
   || (c =? 127))%N.

(** [clean_html]: the placeholder for an empty input; otherwise NUL is
    replaced by nothing, then every character of the class is. *)
Definition clean_html (html : str) : str :=
  if negb (truthy html) then PLACEHOLDER
  else
    let html := List.filter (fun c => negb (c =? 0)%N) html in
    List.filter (fun c => negb (in_control_class c)) html.

Definition LT : char := 60%N.
Definition GT : char := 62%N.

(** A match of [<[^>]+>] starts at a ['<'] followed by a character other
    than ['>'] and, later, by a ['>']. *)
Definition opens_tag (rest : str) : bool :=
  match rest with
  | d :: rest' => negb (char_eqb d GT) && existsb (char_eqb GT) rest'
  | [] => false
  end.

(** [re.sub(r"<[^>]+>", "", s)]: [inside] holds while a match is being
    skipped up to its closing ['>']. *)
Fixpoint strip_tags_from (inside : bool) (s : str) : str :=
  match s with
  | [] => []
  | c :: rest =>
      if inside then strip_tags_from (negb (char_eqb c GT)) rest
      else if char_eqb c LT && opens_tag rest then strip_tags_from true rest
      else c :: strip_tags_from false rest
  end.
Definition strip_tags (s : str) : str := strip_tags_from false s.

(** [is_content_complete(content, min_length)] *)
Definition is_content_complete (content : str) (min_length : Z) : bool :=
  if negb (truthy content) then false
  else min_length <=? len (strip (strip_tags content)).

Section WithLib.
Context (L : PyLib).

(** [make_absolute_url(url, base_url)] *)
Definition make_absolute_url (url base_url : str) : option str :=
  if negb (truthy url) then Some [] else urljoin L base_url url.

(** The [except] branch of [markdown_to_html]: one paragraph per block
    separated by an empty line, line breaks as [<br>]. *)
Definition paragraphs_html (markdown_text : str) : str :=
  List.concat
    (List.map (fun p => py "<p>" ++ replace_char LF (py "<br>") p ++ py "</p>")
       (List.filter (fun p => truthy (strip p)) (split_blank_lines [] markdown_text))).

(** [markdown_to_html(markdown_text)]; the [lru_cache] does not change
    what it returns. *)
Definition markdown_to_html (markdown_text : str) : str :=
  if negb (truthy markdown_text) then py "<p>Contenu vide</p>"
  else
    match markdown L markdown_text with
    | Some html => html
    | None => paragraphs_html markdown_text
    end.

(** The letters listed after [\w\s\-] in the pattern of [clean_tag]. *)
Definition accented : list char :=
  [233; 232; 234; 224; 226; 249; 251; 244; 238; 231]%N.

Definition HYPHEN : char := 45%N.

(** The characters the substitution of [clean_tag] keeps. *)
Definition tag_char_kept (c : char) : bool :=
  re_word L c || is_space c || char_eqb c HYPHEN || existsb (char_eqb c) accented.

(** [clean_tag(tag)]; [None] is Python's [None]. *)
Definition clean_tag (tag : str) : option str :=
  if negb (truthy tag) then None
  else
    let tag := strip tag in
    if (len tag <? 3) || (50 <? len tag) then None
    else
      let tag := List.filter tag_char_kept tag in
      if truthy (strip tag) then Some (strip tag) else None.

End WithLib.

End Utils.

(* ===================================================================== *)
(** * [api/core/cache.py] *)
(* ===================================================================== *)

Module Cache.

Definition bytes := list Byte.byte.

(** A file of [cache/flux]: its modification time and its content.  Times
    are wall-clock instants in microseconds, the resolution of
    [datetime]. *)
Record file := { st_mtime : Z; content : bytes }.

(** The directory [CACHE_DIR], by file name. *)
Abbreviation dir := (gmap str file).

(** [CACHE_TTL = timedelta(hours=2)] *)
Definition CACHE_TTL : Z := 2 * 3600 * 1000000.

Section WithLib.
Context (L : PyLib).

(** [cache_key_from_url(url, extra="")] *)
Definition cache_key_from_url (url extra : str) : str :=
  sha1_hexdigest L (url ++ py "|" ++ extra) ++ py ".xml".

(** [get_cached_feed(url)], read at the instant [now]. *)
Definition get_cached_feed (d : dir) (now : Z) (url : str) : option bytes :=
  let cache_file := cache_key_from_url url [] in
  match d !! cache_file with
  | None => None
  | Some f =>
      if CACHE_TTL <? now - st_mtime f then None
      else Some (content f)
  end.

(** [save_cached_feed(url, content)], written at the instant [now]. *)
Definition save_cached_feed (d : dir) (now : Z) (url : str) (c : bytes) : dir :=
  let cache_file := cache_key_from_url url [] in
  <[cache_file := {| st_mtime := now; content := c |}]> d.

(** A run of later writes, oldest first. *)
Fixpoint save_all (d : dir) (ws : list (Z * str * bytes)) : dir :=
  match ws with
  | [] => d
  | (t, u, c) :: ws' => save_all (save_cached_feed d t u c) ws'
  end.

End WithLib.

End Cache.

(* ===================================================================== *)
(** * [api/core/fetchers/] *)
(* ===================================================================== *)

(** What the three strategies get from the network; [None] stands for
    any exception raised on the way (transport error, timeout, status
    that is not a success). *)
Record Net := {
  (** [page.content()] once the browser has loaded the URL *)
  playwright_content : str -> option str;
  (** [response.text] of the GET the reader service answers *)
  jina_get : str -> option str;
  (** [response.text] of the GET made with cloudscraper *)
  cloudscraper_get : str -> option str
}.

Module Fetchers.
Import Utils.

(** [fetchers/jina.py]: [fetch_with_jina(url)]; [None] when it raises. *)
Definition fetch_with_jina (L : PyLib) (cfg : Config) (net : Net) (url : str)
  : option str :=
  match jina_get net (JINA_BASE_URL cfg ++ py "/" ++ url) with
  | None => None
  | Some markdown_content =>
      if len markdown_content <? 100 then None
      else
        let html := markdown_to_html L markdown_content in
        if is_content_complete html (MIN_CONTENT_LENGTH cfg) then Some html
        else None
  end.

(** [fetchers/cloudscraper.py]: [fetch_with_cloudscraper(url)] *)
Definition fetch_with_cloudscraper (L : PyLib) (cfg : Config) (net : Net)
    (url : str) : option str :=
  match cloudscraper_get net url with
  | None => None
  | Some html => if is_content_complete html 200 then Some html else None
  end.

(** [fetchers/playwright.py]: what [fetch_with_playwright(url)] returns
    to its caller; its lock is the subject of [Playwright] below. *)
Definition fetch_with_playwright (L : PyLib) (cfg : Config) (net : Net)
    (url : str) : option str :=
  match playwright_content net url with
  | None => None
  | Some content => if is_content_complete content 200 then Some content else None
  end.

(** An entry of [FETCH_METHODS]. *)
Record fetch_method := {
  label : str;
  func : PyLib -> Config -> Net -> str -> option str;
  enabled : Config -> bool
}.

(** [FETCH_METHODS]: a [dict] keeps its keys in insertion order, the order
    of the literal. *)
Definition FETCH_METHODS : list (str * fetch_method) :=
  [ (py "playwright",
     {| label := py "Playwright";
        func := fetch_with_playwright;
        enabled := fun c => USE_PLAYWRIGHT c && PLAYWRIGHT_AVAILABLE c |});
    (py "jina",
     {| label := py "Jina";
        func := fetch_with_jina;
        enabled := fun c => USE_JINA c |});
    (py "cloudscraper",
     {| label := py "cloudscraper";
        func := fetch_with_cloudscraper;
        enabled := fun c => USE_CLOUDSCRAPER c && CLOUDSCRAPER_AVAILABLE c |}) ].

(** [d.get(key)] *)
Fixpoint dict_get {V} (key : str) (d : list (str * V)) : option V :=
  match d with
  | [] => None
  | (k, v) :: d' => if str_eqb key k then Some v else dict_get key d'
  end.

(** [d.values()] *)
Definition dict_values {V} (d : list (str * V)) : list V := List.map snd d.

(** What a call of [fetch_content_cascade] ends in. *)
Inductive outcome :=
  | RuntimeError
  | Returned (html : option str).

Section WithLib.
Context (L : PyLib) (cfg : Config) (net : Net).

(** The loop over [methods]: the labels of the strategies called, in call
    order, and the value returned. *)
Fixpoint try_methods (url : str) (methods : list fetch_method)
  : list str * option str :=
  match methods with
  | [] => ([], None)
  | m :: rest =>
      match func m L cfg net url with
      | Some html => ([label m], Some html)
      | None =>
          let '(called, r) := try_methods url rest in
          (label m :: called, r)
      end
  end.

(** The list [methods] built before the loop. *)
Definition selected_methods (preferred_method : option str) : list fetch_method :=
  match preferred_method with
  | Some pm =>
      if truthy pm then
        match dict_get (lower L pm) FETCH_METHODS with
        | Some m => [m]
        | None => []
        end
      else List.filter (fun m => enabled m cfg) (dict_values FETCH_METHODS)
  | None => List.filter (fun m => enabled m cfg) (dict_values FETCH_METHODS)
  end.

(** [fetch_content_cascade(url, preferred_method)], with the labels of the
    strategies it called. *)
Definition fetch_content_cascade (url : str) (preferred_method : option str)
  : list str * outcome :=
  match selected_methods preferred_method with
  | [] => ([], RuntimeError)
  | methods =>
      let '(called, r) := try_methods url methods in
      (called, Returned r)
  end.

End WithLib.

End Fetchers.

(* ===================================================================== *)
(** * [api/core/extractors.py] *)
(* ===================================================================== *)

Module Extractors.
Import Soup Utils.

(** The dictionary [extract_images] returns. *)
Record images := {
  article_image : option str;
  site_logo : option str;
  favicon : option str
}.

Definition no_images : images :=
  {| article_image := None; site_logo := None; favicon := None |}.

Definition set_article_image (u : str) (r : images) : images :=
  {| article_image := Some u; site_logo := site_logo r; favicon := favicon r |}.
Definition set_site_logo (u : str) (r : images) : images :=
  {| article_image := article_image r; site_logo := Some u; favicon := favicon r |}.
Definition set_favicon (u : str) (r : images) : images :=
  {| article_image := article_image r; site_logo := site_logo r; favicon := Some u |}.

(** [not result[k]]: [None] and the empty string are both false. *)
Definition unset (o : option str) : bool :=
  match o with Some s => negb (truthy s) | None => true end.

(** The statements of the [try] block, each a function of the dictionary
    built so far; [None] is an exception raised before the statement
    assigns.  An exception ends the block with the dictionary as it is. *)
Definition stmt := images -> option images.

Fixpoint run_block (block : list stmt) (r : images) : images :=
  match block with
  | [] => r
  | s :: rest =>
      match s r with
      | Some r' => run_block rest r'
      | None => r
      end
  end.

Section WithLib.
Context (L : PyLib) (cfg : Config).

(** The class test of the second strategy of [extract_article_content]. *)
Definition content_class (x : str) : bool :=
  truthy x &&
  existsb (fun c => contains c (lower L x))
    [py "content"; py "article"; py "post"; py "entry";
     py "main-content"; py "article-content"].

(** The candidates of [extract_article_content], in order. *)
Definition strategies (soup : node) : list (option node) :=
  [ find (is_tag (py "article")) soup;
    find (fun n => is_tag (py "div") n && multi_attr_test (py "class") content_class n) soup;
    find (is_tag (py "main")) soup ].

Fixpoint first_complete (cands : list (option node)) : option str :=
  match cands with
  | [] => None
  | Some element :: rest =>
      if is_content_complete (to_html L element) (MIN_CONTENT_LENGTH cfg)
      then Some (to_html L element)
      else first_complete rest
  | None :: rest => first_complete rest
  end.

(** [extract_article_content(html)] *)
Definition extract_article_content (html : str) : str :=
  if negb (truthy html) || negb (BS4_AVAILABLE cfg) then
    (if truthy html then html else PLACEHOLDER)
  else
    match BeautifulSoup L html with
    | None => html
    | Some soup =>
        match first_complete (strategies soup) with
        | Some s => s
        | None =>
            match find (is_tag (py "body")) soup with
            | Some body => to_html L body
            | None => html
            end
        end
    end.

Definition is_meta_property (v : str) (n : node) : bool :=
  is_tag (py "meta") n && attr_eq (py "property") v n.
Definition is_meta_name (v : str) (n : node) : bool :=
  is_tag (py "meta") n && attr_eq (py "name") v n.
Definition is_img_with_src (n : node) : bool :=
  is_tag (py "img") n && has_attr (py "src") n.

(** An assignment [result[k] = make_absolute_url(v, base_url)]. *)
Definition assign (set : str -> images -> images) (v base_url : str) : stmt :=
  fun r =>
    match make_absolute_url L v base_url with
    | Some u => Some (set u r)
    | None => None
    end.

(** The same assignment guarded by [if tag and tag.get(k):]. *)
Definition assign_from (set : str -> images -> images)
    (tag : option node) (k base_url : str) : stmt :=
  fun r =>
    match tag with
    | Some t =>
        match get_truthy k t with
        | Some v => assign set v base_url r
        | None => Some r
        end
    | None => Some r
    end.

Definition unwanted_src (src : str) : bool :=
  existsb (fun x => contains x (lower L src))
    [py "icon"; py "logo"; py "avatar"; py "emoji"].

(** [soup.find("article") or soup.find("main")] *)
Definition article_container (soup : node) : option node :=
  match find (is_tag (py "article")) soup with
  | Some a => Some a
  | None => find (is_tag (py "main")) soup
  end.

Definition og_image_stmt (soup : node) (base_url : str) : stmt :=
  assign_from set_article_image
    (find (is_meta_property (py "og:image")) soup) (py "content") base_url.

Definition twitter_image_stmt (soup : node) (base_url : str) : stmt :=
  fun r =>
    if unset (article_image r) then
      assign_from set_article_image
        (find (is_meta_name (py "twitter:image")) soup) (py "content") base_url r
    else Some r.

Definition first_img_stmt (soup : node) (base_url : str) : stmt :=
  fun r =>
    if unset (article_image r) then
      match article_container soup with
      | Some article_tag =>
          match find is_img_with_src article_tag with
          | Some img =>
              match get_truthy (py "src") img with
              | Some src =>
                  if negb (unwanted_src src)
                  then assign set_article_image src base_url r
                  else Some r
              | None => Some r
              end
          | None => Some r
          end
      | None => Some r
      end
    else Some r.

Definition og_logo_stmt (soup : node) (base_url : str) : stmt :=
  assign_from set_site_logo
    (find (is_meta_property (py "og:logo")) soup) (py "content") base_url.

Definition header_logo_stmt (soup : node) (base_url : str) : stmt :=
  fun r =>
    if unset (site_logo r) then
      match find (is_tag (py "header")) soup with
      | Some header =>
          match find (fun n => is_img_with_src n
                               && attr_test (py "alt") (re_search_i L [py "logo"]) n)
                     header with
          | Some logo_img =>
              match get (py "src") logo_img with
              | Some v => assign set_site_logo v base_url r
              | None => None
              end
          | None => Some r
          end
      | None => Some r
      end
    else Some r.

Definition is_link_rel (pat : str) (n : node) : bool :=
  is_tag (py "link") n && multi_attr_test (py "rel") (re_search_i L [pat]) n.

Definition apple_icon_stmt (soup : node) (base_url : str) : stmt :=
  assign_from set_favicon
    (find (is_link_rel (py "apple-touch-icon")) soup) (py "href") base_url.

Definition icon_stmt (soup : node) (base_url : str) : stmt :=
  fun r =>
    if unset (favicon r) then
      assign_from set_favicon
        (find (is_link_rel (py "icon")) soup) (py "href") base_url r
    else Some r.

Definition default_favicon (base_domain : str) : str :=
  base_domain ++ py "/favicon.ico".

Definition default_favicon_stmt (base_domain : str) : stmt :=
  fun r =>
    if unset (favicon r) then Some (set_favicon (default_favicon base_domain) r)
    else Some r.

Definition logo_fallback_stmt : stmt :=
  fun r =>
    if unset (site_logo r) && negb (unset (favicon r)) then
      match favicon r with
      | Some f => Some (set_site_logo f r)
      | None => Some r
      end
    else Some r.

(** The body of the [try] block once the document is parsed and
    [base_domain] is computed. *)
Definition images_block (soup : node) (base_url base_domain : str) : list stmt :=
  [ og_image_stmt soup base_url;
    twitter_image_stmt soup base_url;
    first_img_stmt soup base_url;
    og_logo_stmt soup base_url;
    header_logo_stmt soup base_url;
    apple_icon_stmt soup base_url;
    icon_stmt soup base_url;
    default_favicon_stmt base_domain;
    logo_fallback_stmt ].

Definition images_of_soup (soup : node) (base_url : str) : images :=
  match urlparse L base_url with
  | None => no_images
  | Some (scheme, netloc) =>
      run_block (images_block soup base_url (scheme ++ py "://" ++ netloc)) no_images
  end.

(** [extract_images(html, base_url)] *)
Definition extract_images (html base_url : str) : images :=
  if negb (BS4_AVAILABLE cfg) || negb (truthy html) then no_images
  else
    match BeautifulSoup L html with
    | None => no_images
    | Some soup => images_of_soup soup base_url
    end.

(** [sorted(xs)] on strings. *)
Definition sorted (xs : list str) : list str := merge_sort str_le xs.

Definition COMMA : char := 44%N.

Definition is_tag_link (n : node) : bool :=
  is_tag (py "a") n
  && multi_attr_test (py "class")
       (re_search_i L [py "tag"; py "category"; py "label"; py "topic"]) n.

(** The three sources read from the document, as the strings added to
    the set [tags]. *)
Definition keyword_tags (soup : node) : list str :=
  match find (is_meta_name (py "keywords")) soup with
  | Some keywords_meta =>
      match get_truthy (py "content") keywords_meta with
      | Some c => List.map strip (split_on COMMA c)
      | None => []
      end
  | None => []
  end.

Definition og_article_tags (soup : node) : list str :=
  List.map strip
    (omap (get_truthy (py "content"))
       (find_all (is_meta_property (py "article:tag")) soup)).

Definition link_tags (soup : node) : list str :=
  List.filter (fun text => truthy text && (len text <? 30))
    (List.map get_text_strip (firstn 10 (find_all is_tag_link soup))).

(** [extract_tags(html, rss_categories)].  [tags] is a Python [set];
    [elements] lists it in the order the set happens to iterate in. *)
Definition extract_tags (html : str) (rss_categories : list str) : list str :=
  let tags : gset str := list_to_set rss_categories in
  if negb (BS4_AVAILABLE cfg) || negb (truthy html) then elements tags
  else
    match BeautifulSoup L html with
    | None => elements tags
    | Some soup =>
        let tags := tags ∪ list_to_set (keyword_tags soup) in
        let tags := tags ∪ list_to_set (og_article_tags soup) in
        let tags := tags ∪ list_to_set (link_tags soup) in
        let cleaned_tags := omap (clean_tag L) (elements tags) in
        slice_to (MAX_TAGS_PER_ARTICLE cfg)
          (sorted (elements (list_to_set cleaned_tags : gset str)))
    end.

End WithLib.

End Extractors.

(* ===================================================================== *)
(** * [api/core/processor.py] *)
(* ===================================================================== *)

Module Processor.
Import Utils Fetchers Extractors.

(** A naive [datetime] built from six integers (microsecond 0). *)
Record datetime := {
  year : N; month : N; day : N; hour : N; minute : N; second : N
}.

(** [datetime.min] *)
Definition datetime_min : datetime :=
  {| year := 1; month := 1; day := 1; hour := 0; minute := 0; second := 0 |}.

Definition is_leap (y : Z) : bool :=
  (y mod 4 =? 0) && (negb (y mod 100 =? 0) || (y mod 400 =? 0)).

Definition days_in_month (y m : Z) : Z :=
  if m =? 2 then (if is_leap y then 29 else 28)
  else if (m =? 4) || (m =? 6) || (m =? 9) || (m =? 11) then 30
  else 31.

(** What a call [datetime(...)] ends in: the value built; a [TypeError]
    or a [ValueError], which the [except (TypeError, ValueError)] around
    the call catches; or the [OverflowError] of an argument that does not
    fit a C [int], which that handler lets through. *)
Inductive datetime_call :=
  | Built (d : datetime)
  | Caught
  | OverflowError.

(** The arguments are converted to C [int]s one after the other before
    any range is tested. *)
Definition fits_c_int (z : Z) : bool :=
  (-2147483648 <=? z) && (z <=? 2147483647).

(** [datetime(y, m, d, h, mi, s)] *)
Definition datetime_of_fields (y m d h mi s : Z) : datetime_call :=
  if negb (forallb fits_c_int [y; m; d; h; mi; s]) then OverflowError
  else if (1 <=? y) && (y <=? 9999) && (1 <=? m) && (m <=? 12)
     && (1 <=? d) && (d <=? days_in_month y m)
     && (0 <=? h) && (h <=? 23) && (0 <=? mi) && (mi <=? 59)
     && (0 <=? s) && (s <=? 59)
  then Built {| year := Z.to_N y; month := Z.to_N m; day := Z.to_N d;
                hour := Z.to_N h; minute := Z.to_N mi; second := Z.to_N s |}
  else Caught.

(** [datetime( *t[:6])]: with fewer than three fields the arguments given
    are converted first, then the missing one is a [TypeError]. *)
Definition datetime_of_tuple (t : list Z) : datetime_call :=
  match firstn 6 t with
  | [y; m; d] => datetime_of_fields y m d 0 0 0
  | [y; m; d; h] => datetime_of_fields y m d h 0 0
  | [y; m; d; h; mi] => datetime_of_fields y m d h mi 0
  | [y; m; d; h; mi; s] => datetime_of_fields y m d h mi s
  | given => if forallb fits_c_int given then Caught else OverflowError
  end.

(** A parsed feed entry: the keys and attributes [process_entry] reads,
    each absent ([None]) or present. *)
Record FeedEntry := {
  e_title : option str;
  e_link : option str;
  (** [entry.tags], each tag with its [term] when it has one *)
  e_tags : option (list (option str));
  e_summary : option str;
  e_description : option str;
  e_published_parsed : option (list Z)
}.

Inductive method_used := cascade | rss_summary | unavailable.

(** The dictionary [process_entry] returns. *)
Record EnrichedEntry := {
  id : str;
  title : str;
  link : str;
  content : str;
  pub_date : option datetime;
  images : Extractors.images;
  tags : list str;
  method : method_used
}.

Definition LT_SIGN : str := py "<".

(** [entry.get("summary", entry.get("description", ""))] *)
Definition raw_summary_of (entry : FeedEntry) : str :=
  match e_summary entry with
  | Some s => s
  | None => match e_description entry with Some s => s | None => [] end
  end.

(** The [except] branch: content and method chosen from the feed's own
    summary. *)
Definition fallback_content (raw_summary : str) : str * method_used :=
  if truthy raw_summary && (50 <? len raw_summary) then
    (if contains LT_SIGN raw_summary then raw_summary
     else py "<p>" ++ raw_summary ++ py "</p>",
     rss_summary)
  else (py "<p>Contenu non disponible</p>", unavailable).

(** [rss_categories] *)
Definition rss_categories_of (entry : FeedEntry) : list str :=
  match e_tags entry with
  | Some ts => omap (fun t => t) ts
  | None => []
  end.

(** The statements that set [pub_date]: the value they leave in it, or
    [None] when the exception raised by [datetime] is not one the handler
    around the call catches. *)
Definition pub_date_of (entry : FeedEntry) : option (option datetime) :=
  match e_published_parsed entry with
  | Some ((_ :: _) as t) =>
      match datetime_of_tuple t with
      | Built d => Some (Some d)
      | Caught => Some None
      | OverflowError => None
      end
  | _ => Some None
  end.

Section WithLib.
Context (L : PyLib) (cfg : Config) (net : Net).

(** The inner [try]/[except]: content, images, tags and method. *)
Definition fetch_and_extract (entry : FeedEntry) (link : str)
    (preferred_method : option str)
  : str * Extractors.images * list str * method_used :=
  let rss_categories := rss_categories_of entry in
  let fallback :=
    let '(c, m) := fallback_content (raw_summary_of entry) in
    (c, no_images, rss_categories, m) in
  match snd (fetch_content_cascade L cfg net link preferred_method) with
  | Returned (Some raw_html) =>
      if truthy raw_html then
        (extract_article_content L cfg raw_html,
         extract_images L cfg raw_html link,
         extract_tags L cfg raw_html rss_categories,
         cascade)
      else fallback
  | Returned None => fallback
  | RuntimeError => fallback
  end.

(** [process_entry(entry, entry_num, total, preferred_method)]; the two
    counters only appear in log lines.  [None] is Python's [None]. *)
Definition process_entry (entry : FeedEntry) (preferred_method : option str)
  : option EnrichedEntry :=
  let title := match e_title entry with Some t => t | None => py "Sans titre" end in
  let link := match e_link entry with Some l => l | None => [] end in
  if negb (truthy link) then None
  else
    let '(content, images, article_tags, method_used) :=
      fetch_and_extract entry link preferred_method in
    let content := clean_html content in
    match pub_date_of entry with
    | None => None
    | Some pub_date =>
        match sha256_hexdigest L link with
        | None => None
        | Some entry_id =>
            Some {| id := entry_id; title := title; link := link;
                    content := content; pub_date := pub_date; images := images;
                    tags := article_tags; method := method_used |}
        end
    end.

End WithLib.

End Processor.

(* ===================================================================== *)
(** * [api/routes.py]: the [/api/filter] handler *)
(* ===================================================================== *)

Module Routes.
Import Cache Processor.

(** What [feedparser.parse] returns, as far as the handler reads it. *)
Record ParsedFeed := {
  entries : list FeedEntry;
  feed_title : option str;
  feed_description : option str;
  feed_language : option str
}.

(** The outcome of downloading and parsing the source feed. *)
Inductive feed_result :=
  | Parsed (feed : ParsedFeed)
  | HTTPError (status_code : Z)
  | OtherError.

(** The source feed's server and the [feedgen] serializer. *)
Record Web := {
  fetch_feed : str -> feed_result;
  (** [fg.rss_str(pretty=True)] after the entries are added; [None] when
      it raises *)
  rss_str : str -> ParsedFeed -> list EnrichedEntry -> option bytes
}.

(** The query parameters of a request. *)
Record request := {
  url : str;
  method_extraction : option str;
  max_entries : option Z;
  workers : Z
}.

Inductive response :=
  | Response (body : bytes)
  | HTTPException (status : Z).

(** Naive datetimes compare field by field. *)
Definition dt_tuple (d : datetime) : list N :=
  [year d; month d; day d; hour d; minute d; second d].
Definition dt_ltb (a b : datetime) : bool := str_ltb (dt_tuple a) (dt_tuple b).

(** The sort key: [x["pub_date"] if x["pub_date"] else datetime.min]. *)
Definition sort_key (x : EnrichedEntry) : datetime :=
  match pub_date x with Some d => d | None => datetime_min end.

(** [list.sort(key=sort_key, reverse=True)].  The sort is stable: entries
    with equal keys keep the order they had in the list. *)
Fixpoint insert_desc (x : EnrichedEntry) (l : list EnrichedEntry) : list EnrichedEntry :=
  match l with
  | [] => [x]
  | y :: l' =>
      if dt_ltb (sort_key x) (sort_key y) then y :: insert_desc x l'
      else x :: l
  end.
Definition sort_desc (l : list EnrichedEntry) : list EnrichedEntry :=
  List.fold_right insert_desc [] l.

(** The results collected by the loop over [as_completed(futures)]:
    [schedule] lists the positions of the futures in the order they
    complete; an entry whose result is [None] is only counted. *)
Definition collect (results : list (option EnrichedEntry)) (schedule : list nat)
  : list EnrichedEntry :=
  omap (fun i => mjoin (results !! i)) schedule.

Section WithLib.
Context (L : PyLib) (cfg : Config) (net : Net) (web : Web).

(** Step 2: [feed.entries[:max_entries] if max_entries else feed.entries] *)
Definition capped_entries (req : request) (feed : ParsedFeed) : list FeedEntry :=
  match max_entries req with
  | Some n => if n =? 0 then entries feed else slice_to n (entries feed)
  | None => entries feed
  end.

(** Step 4: the result of each submitted call, by position in the feed. *)
Definition results (req : request) (feed : ParsedFeed) : list (option EnrichedEntry) :=
  List.map (fun e => process_entry L cfg net e (method_extraction req))
    (capped_entries req feed).

(** Steps 2, 4 and 5: cap, process, collect in completion order, sort. *)
Definition pipeline (req : request) (feed : ParsedFeed) (schedule : list nat)
  : list EnrichedEntry :=
  sort_desc (collect (results req feed) schedule).

(** The part of the handler run on a cache miss, finishing at [t_end]. *)
Definition generate (d : dir) (t_end : Z) (req : request) (schedule : list nat)
  : dir * response :=
  match fetch_feed web (url req) with
  | HTTPError status_code => (d, HTTPException status_code)
  | OtherError => (d, HTTPException 400)
  | Parsed feed =>
      match entries feed with
      | [] => (d, HTTPException 404)
      | _ :: _ =>
          match rss_str web (url req) feed (pipeline req feed schedule) with
          | None => (d, HTTPException 500)
          | Some rss =>
              (save_cached_feed L d t_end (url req) rss, Response rss)
          end
      end
  end.

(** [filter(url, method_extraction, max_entries, workers)], started at
    [t_start] on the cache directory [d]; returns the directory as the
    handler leaves it and the response. *)
Definition filter (d : dir) (t_start t_end : Z) (req : request)
    (schedule : list nat) : dir * response :=
  match get_cached_feed L d t_start (url req) with
  | Some ((_ :: _) as cached) => (d, Response cached)
  | _ => generate d t_end req schedule
  end.

End WithLib.

End Routes.

(* ===================================================================== *)
(** * [api/core/fetchers/playwright.py]: the global lock *)
(* ===================================================================== *)

Module Playwright.

(** The statements of the body of [with sync_playwright() as p:]. *)
Inductive render_step :=
  | Launch | NewContext | Route | NewPage | Goto
  | WaitForSelector | PageContent | BrowserClose | CheckComplete.

(** Where a thread running [fetch_with_playwright] stands. *)
Inductive pc :=
  | BeforeLock                      (* up to [with _playwright_lock:] *)
  | Rendering (s : render_step)     (* inside the [with], lock held *)
  | Finished (html : option str).   (* returned, or raised ([None]) *)

(** The process: the one module-level [_playwright_lock] and the threads
    that called [fetch_with_playwright]. *)
Record state := {
  locked : bool;
  threads : list pc
}.

Definition next_step (s : render_step) : option render_step :=
  match s with
  | Launch => Some NewContext
  | NewContext => Some Route
  | Route => Some NewPage
  | NewPage => Some Goto
  | Goto => Some WaitForSelector
  | WaitForSelector => Some PageContent
  | PageContent => Some BrowserClose
  | BrowserClose => Some CheckComplete
  | CheckComplete => None
  end.

(** One statement of one thread.  [Lock.acquire] only proceeds when the
    lock is free; leaving the [with] block, by [return] or by an
    exception, releases it. *)
Inductive thread_step : bool -> pc -> bool -> pc -> Prop :=
  | step_acquire :
      thread_step false BeforeLock true (Rendering Launch)
  | step_advance lk s s' :
      next_step s = Some s' ->
      thread_step lk (Rendering s) lk (Rendering s')
  | step_timeout_ignored lk :
      (* the bare [except:] around [wait_for_selector] *)
      thread_step lk (Rendering WaitForSelector) lk (Rendering PageContent)
  | step_return lk html :
      thread_step lk (Rendering CheckComplete) false (Finished (Some html))
  | step_raise lk s :
      s <> WaitForSelector ->
      thread_step lk (Rendering s) false (Finished None).

(** An interleaving step: some thread [i] runs one statement. *)
Inductive step : state -> state -> Prop :=
  | step_thread st i p lk' p' :
      threads st !! i = Some p ->
      thread_step (locked st) p lk' p' ->
      step st {| locked := lk'; threads := <[i := p']> (threads st) |}.

(** [n] calls about to start. *)
Definition initial (n : nat) : state :=
  {| locked := false; threads := replicate n BeforeLock |}.

Definition is_rendering (p : pc) : bool :=
  match p with Rendering _ => true | _ => false end.

(** The number of threads inside the render call. *)
Definition rendering_count (st : state) : nat :=
  length (List.filter is_rendering (threads st)).

Definition b2n (b : bool) : nat := if b then 1%nat else 0%nat.

(** The lock is held exactly when one thread is inside the render call,
    and free exactly when none is. *)
Definition lock_agrees (st : state) : Prop :=
  rendering_count st = b2n (locked st).

End Playwright.

(* ===================================================================== *)
(** * A concrete environment for running the model *)
(* ===================================================================== *)

(** The theorems below hold for every [PyLib], [Net] and [Web].  To run
    the definitions on sample inputs this module fixes one of each.  The
    library answers as CPython does on the inputs the examples use: ASCII
    strings, [http(s)://host/path] URLs and references that are absolute or
    start with a single [/], and the sample pages listed in [pages].  The
    two digests are replaced by the identity, and the Markdown converter
    by one that raises, which sends [markdown_to_html] to its own
    paragraph builder; no example reads a digest. *)
Module Sample.
Import Soup.

Definition is_ascii_word (c : char) : bool :=
  (((48 <=? c) && (c <=? 57)) || ((65 <=? c) && (c <=? 90))
   || ((97 <=? c) && (c <=? 122)) || (c =? 95))%N.

Definition search_i (alts : list str) (s : str) : bool :=
  existsb (fun p => contains (ascii_lower p) (ascii_lower s)) alts.

Definition SLASH : char := 47%N.

(** The authority of [scheme://authority/...]. *)
Fixpoint until_slash (s : str) : str :=
  match s with
  | [] => []
  | c :: s' => if char_eqb c SLASH then [] else c :: until_slash s'
  end.

Definition parse_url (u : str) : option (str * str) :=
  if startswith (py "https://") u then Some (py "https", until_slash (skipn 8 u))
  else if startswith (py "http://") u then Some (py "http", until_slash (skipn 7 u))
  else Some ([], []).

Definition join_url (base u : str) : option str :=
  if startswith (py "https://") u || startswith (py "http://") u then Some u
  else if startswith (py "/") u && negb (startswith (py "//") u) then
    match parse_url base with
    | Some ((_ :: _) as scheme, netloc) => Some (scheme ++ py "://" ++ netloc ++ u)
    | _ => Some u
    end
  else None.

(** The sample pages, already parsed. *)
Definition document (children : list node) : node :=
  Tag (py "[document]") [] children.

Definition page_two_imgs : str :=
  py "<article><img src='/static/logo.png'><img src='/media/photo.jpg'></article>".
Definition soup_two_imgs : node :=
  document
    [ Tag (py "article") []
        [ Tag (py "img") [(py "src", py "/static/logo.png")] [];
          Tag (py "img") [(py "src", py "/media/photo.jpg")] [] ] ].

Definition page_og : str :=
  py "<head><meta property='og:image' content='/og.png'><meta name='twitter:image' content='/tw.png'></head>".
Definition soup_og : node :=
  document
    [ Tag (py "head") []
        [ Tag (py "meta") [(py "property", py "og:image"); (py "content", py "/og.png")] [];
          Tag (py "meta") [(py "name", py "twitter:image"); (py "content", py "/tw.png")] [] ] ].

(** More than two hundred characters of text. *)
Definition long_text : str :=
  List.concat (repeat (py "The quick brown fox jumps over the lazy dog. ") 5).

Definition page_tags : str :=
  py "<head><meta name='keywords' content='a!!, rust ,go,  Python'></head><body><p>"
  ++ long_text ++ py "</p></body>".
Definition soup_tags : node :=
  document
    [ Tag (py "head") []
        [ Tag (py "meta")
            [(py "name", py "keywords"); (py "content", py "a!!, rust ,go,  Python")] [] ];
      Tag (py "body") [] [ Tag (py "p") [] [ Text long_text ] ] ].

Definition pages : list (str * node) :=
  [ (page_two_imgs, soup_two_imgs); (page_og, soup_og); (page_tags, soup_tags) ].

(** A page outside the table that holds no ['<'] and no ['&'] is read as
    one text node, as the parser reads text without markup; any other
    page is outside this sample and the parser is made to raise. *)
Definition parse (html : str) : option node :=
  match Fetchers.dict_get html pages with
  | Some soup => Some soup
  | None =>
      if contains (py "<") html || contains (py "&") html then None
      else Some (document [Text html])
  end.

Definition QUOTE : char := 34%N.

Fixpoint render_attrs (a : list (str * str)) : str :=
  match a with
  | [] => []
  | (k, v) :: a' => py " " ++ k ++ py "=" ++ [QUOTE] ++ v ++ [QUOTE] ++ render_attrs a'
  end.

Definition is_void (nm : str) : bool :=
  existsb (str_eqb nm) [py "img"; py "meta"; py "link"; py "br"; py "hr"; py "input"].

Fixpoint render (n : node) : str :=
  match n with
  | Text s => s
  | Tag nm a cs =>
      let inner := (fix over (l : list node) : str :=
                      match l with [] => [] | c :: l' => render c ++ over l' end) cs in
      if str_eqb nm (py "[document]") then inner
      else if is_void nm then py "<" ++ nm ++ render_attrs a ++ py "/>"
      else py "<" ++ nm ++ render_attrs a ++ py ">" ++ inner ++ py "</" ++ nm ++ py ">"
  end.

Definition lib : PyLib :=
  {| lower := ascii_lower;
     re_word := is_ascii_word;
     re_search_i := search_i;
     urljoin := join_url;
     urlparse := parse_url;
     markdown := fun _ => None;
     sha1_hexdigest := fun s => s;
     sha256_hexdigest := fun s => Some s;
     BeautifulSoup := parse;
     to_html := render |}.

(** No strategy reaches its server. *)
Definition offline : Net :=
  {| playwright_content := fun _ => None;
     jina_get := fun _ => None;
     cloudscraper_get := fun _ => None |}.

(** Every strategy gets a page of its own, each long enough. *)
Definition online : Net :=
  {| playwright_content := fun _ =>
       Some (py "<html><body><main>" ++ long_text ++ py "</main></body></html>");
     jina_get := fun _ => Some long_text;
     cloudscraper_get := fun _ =>
       Some (py "<html><body><p>" ++ long_text ++ py "</p></body></html>") |}.

(** The browser and the reader service fail; the plain GET gets [html]. *)
Definition serving (html : str) : Net :=
  {| playwright_content := fun _ => None;
     jina_get := fun _ => None;
     cloudscraper_get := fun _ => Some html |}.

(** The cloudscraper strategy switched off in the configuration. *)
Definition cloudscraper_disabled : Config :=
  {| JINA_BASE_URL := py "https://r.jina.ai";
     USE_JINA := true; USE_CLOUDSCRAPER := false; USE_PLAYWRIGHT := true;
     MIN_CONTENT_LENGTH := 50; MAX_TAGS_PER_ARTICLE := 10;
     PLAYWRIGHT_AVAILABLE := true; CLOUDSCRAPER_AVAILABLE := true;
     BS4_AVAILABLE := true |}.

(** Sample entries. *)
Definition entry_with_summary (s : str) : Processor.FeedEntry :=
  {| Processor.e_title := Some (py "A title");
     Processor.e_link := Some (py "https://example.org/post/1");
     Processor.e_tags := None;
     Processor.e_summary := Some s;
     Processor.e_description := None;
     Processor.e_published_parsed := None |}.

Definition two_line_summary : str :=
  py "The first line of a summary that is longer than fifty characters"
  ++ [10%N] ++ py "and its second line.".

Definition blank_summary : str := repeat 32%N 60.

(** The record built for the sample entry when every strategy fails. *)
Definition two_line_record : Processor.EnrichedEntry :=
  {| Processor.id := py "https://example.org/post/1";
     Processor.title := py "A title";
     Processor.link := py "https://example.org/post/1";
     Processor.content := py "<p>" ++ two_line_summary ++ py "</p>";
     Processor.pub_date := None;
     Processor.images := Extractors.no_images;
     Processor.tags := [];
     Processor.method := Processor.rss_summary |}.

(** The record built for the blank summary when every strategy fails. *)
Definition blank_record : Processor.EnrichedEntry :=
  {| Processor.id := py "https://example.org/post/1";
     Processor.title := py "A title";
     Processor.link := py "https://example.org/post/1";
     Processor.content := py "<p>" ++ blank_summary ++ py "</p>";
     Processor.pub_date := None;
     Processor.images := Extractors.no_images;
     Processor.tags := [];
     Processor.method := Processor.rss_summary |}.

(** An entry that carries the same category twice and no summary. *)
Definition entry_with_categories : Processor.FeedEntry :=
  {| Processor.e_title := Some (py "A title");
     Processor.e_link := Some (py "https://example.org/post/1");
     Processor.e_tags := Some [Some (py "zz"); Some (py "zz"); Some (py "World News")];
     Processor.e_summary := None;
     Processor.e_description := None;
     Processor.e_published_parsed := None |}.

(** A feed of three entries: undated, dated 2024-03-01, undated. *)
Definition entry_titled (t : str) (published : option (list Z)) : Processor.FeedEntry :=
  {| Processor.e_title := Some t;
     Processor.e_link := Some (py "https://example.org/" ++ t);
     Processor.e_tags := None;
     Processor.e_summary := None;
     Processor.e_description := None;
     Processor.e_published_parsed := published |}.

Definition sample_feed : Routes.ParsedFeed :=
  {| Routes.entries :=
       [ entry_titled (py "first") None;
         entry_titled (py "dated") (Some [2024; 3; 1; 12; 0; 0; 4; 61; 0]);
         entry_titled (py "third") None ];
     Routes.feed_title := Some (py "Sample feed");
     Routes.feed_description := None;
     Routes.feed_language := None |}.

Definition request_for (u : str) (method_extraction : option str)
    (max_entries : option Z) (workers : Z) : Routes.request :=
  {| Routes.url := u; Routes.method_extraction := method_extraction;
     Routes.max_entries := max_entries; Routes.workers := workers |}.

Definition feed_url : str := py "https://example.org/feed.xml".

(** The source feed's server answers with [sample_feed]; the serializer
    is stood for by the list of the titles, one byte per entry. *)
Definition web : Routes.Web :=
  {| Routes.fetch_feed := fun _ => Routes.Parsed sample_feed;
     Routes.rss_str := fun _ _ es =>
       Some (Byte.x3c :: List.map (fun x => match Processor.title x with
                                            | c :: _ => match Byte.of_N c with
                                                        | Some b => b
                                                        | None => Byte.x00
                                                        end
                                            | [] => Byte.x00
                                            end) es) |}.

(** A page of two hundred U+0001 characters: no markup, and long enough
    for the length check of the strategies. *)
Definition page_control : str := repeat 1%N 200.

(** A summary longer than fifty characters that holds a U+0001. *)
Definition summary_with_control : str :=
  py "A summary of more than fifty characters, with one " ++ [1%N]
  ++ py " control character.".

(** A feed of two entries: undated, then dated 0001-01-01 00:00:00. *)
Definition ancient_feed : Routes.ParsedFeed :=
  {| Routes.entries :=
       [ entry_titled (py "first") None;
         entry_titled (py "ancient") (Some [1; 1; 1; 0; 0; 0; 0; 1; 0]) ];
     Routes.feed_title := Some (py "Sample feed");
     Routes.feed_description := None;
     Routes.feed_language := None |}.

End Sample.

(* ===================================================================== *)
(** * Terms of the specification *)
(* ===================================================================== *)

(** The notions the properties below are stated with: the words of the
    specification, and the values the code reads from a page. *)
Module Spec.
Import Soup Extractors Fetchers Processor Routes.

(** A control character: Unicode category Cc, U+0000 to U+001F and U+007F
    to U+009F. *)
Definition is_control_char (c : char) : bool :=
  ((c <=? 31) || ((127 <=? c) && (c <=? 159)))%N.

(** The summary once stripped is longer than 50 characters. *)
Definition usable_summary_stripped (s : str) : bool :=
  truthy s && (50 <? len (strip s)).

(** The first [<img>] inside the primary article/main container whose
    [src] does not contain any of icon, logo, avatar, emoji. *)
Definition first_img_without_unwanted (L : PyLib) (soup : node) : option str :=
  match article_container soup with
  | Some container =>
      List.find (fun src => negb (unwanted_src L src))
        (omap (get_truthy (py "src")) (find_all is_img_with_src container))
  | None => None
  end.

(** The fetch stage failed: the cascade raised, or returned nothing. *)
Definition fetch_failed (L : PyLib) (cfg : Config) (net : Net)
    (link : str) (preferred_method : option str) : Prop :=
  match snd (fetch_content_cascade L cfg net link preferred_method) with
  | Returned (Some raw_html) => truthy raw_html = false
  | Returned None => True
  | RuntimeError => True
  end.


(** [a] may stand before [b] in the output: its key is not earlier. *)
Definition not_earlier (a b : EnrichedEntry) : Prop :=
  dt_ltb (sort_key a) (sort_key b) = false.

(** A record without a publish date. *)
Definition undated (x : EnrichedEntry) : bool :=
  match pub_date x with None => true | Some _ => false end.

(** A record whose sort key is [k]. *)
Definition has_key (k : datetime) (x : EnrichedEntry) : bool :=
  str_eqb (dt_tuple (sort_key x)) (dt_tuple k).

(** The three sources of [article_image], each the attribute value the
    code reads when the source applies. *)
Definition og_image_value (soup : node) : option str :=
  match find (is_meta_property (py "og:image")) soup with
  | Some tag => get_truthy (py "content") tag
  | None => None
  end.

Definition twitter_image_value (soup : node) : option str :=
  match find (is_meta_name (py "twitter:image")) soup with
  | Some tag => get_truthy (py "content") tag
  | None => None
  end.

(** The [src] of the first [<img src>] of the container, when that one
    image is not an icon, logo, avatar or emoji. *)
Definition first_img_value (L : PyLib) (soup : node) : option str :=
  match article_container soup with
  | Some container =>
      match find is_img_with_src container with
      | Some img =>
          match get_truthy (py "src") img with
          | Some src => if unwanted_src L src then None else Some src
          | None => None
          end
      | None => None
      end
  | None => None
  end.

(** The value of a [content], [src] or [href] attribute of an element
    of the page. *)
Definition attribute_value (soup : node) (v : str) : Prop :=
  exists n k,
    In n (descendants soup)
    /\ In k [py "content"; py "src"; py "href"]
    /\ get k n = Some v.

(** A URL the extractor may return for a page and [base_url]: [urljoin]
    of the base URL and a non-empty attribute value of the page; the
    empty string, when such an attribute of the page is empty; or the
    default favicon of the base URL's site. *)
Definition resolved_against (L : PyLib) (soup : node) (base_url u : str) : Prop :=
  (exists v, attribute_value soup v /\ truthy v = true
             /\ urljoin L base_url v = Some u)
  \/ (u = [] /\ attribute_value soup [])
  \/ (exists scheme netloc,
        urlparse L base_url = Some (scheme, netloc)
        /\ u = scheme ++ py "://" ++ netloc ++ py "/favicon.ico").

(** Every URL of the dictionary is such a URL. *)
Definition all_resolved (L : PyLib) (soup : node) (base_url : str)
    (r : Extractors.images) : Prop :=
  forall u,
    article_image r = Some u \/ site_logo r = Some u \/ favicon r = Some u ->
    resolved_against L soup base_url u.

(** An absolute URL: it has a scheme. *)
Definition is_absolute_url (L : PyLib) (u : str) : bool :=
  match urlparse L u with
  | Some (scheme, _) => truthy scheme
  | None => false
  end.

(** The content of an entry before [clean_html] is applied to it: what
    the inner [try], or its handler, assigned. *)
Definition unsanitized (L : PyLib) (cfg : Config) (net : Net)
    (entry : FeedEntry) (link : str) (preferred_method : option str) : str :=
  fst (fst (fst (fetch_and_extract L cfg net entry link preferred_method))).

End Spec.

(* ===================================================================== *)
(** * [api/routes.py]: the counters of [/api/filter] *)
(* ===================================================================== *)

Module Tally.
Import Processor Routes.

(** The value of the key ["method"] of a record. *)
Definition method_name (m : method_used) : str :=
  match m with
  | cascade => py "cascade"
  | rss_summary => py "rss_summary"
  | unavailable => py "unavailable"
  end.

(** The three variables the loop over [as_completed(futures)] updates. *)
Record loop_state := {
  processed : list EnrichedEntry;
  failed : Z;
  stats : gmap str Z
}.

(** [processed = []], [failed = 0],
    [stats = {"cascade": 0, "rss_summary": 0, "unavailable": 0}] *)
Definition loop_start : loop_state :=
  {| processed := [];
     failed := 0;
     stats := <[py "cascade" := 0]>
                (<[py "rss_summary" := 0]> (<[py "unavailable" := 0]> ∅)) |}.

(** [stats.get(method, 0)] *)
Definition stats_get (s : gmap str Z) (k : str) : Z :=
  match s !! k with Some n => n | None => 0 end.

(** One turn of the loop, for the future at position [i]. *)
Definition on_completed (results : list (option EnrichedEntry))
    (st : loop_state) (i : nat) : loop_state :=
  match results !! i with
  | Some (Some result) =>
      {| processed := processed st ++ [result];
         failed := failed st;
         stats := <[method_name (method result) :=
                      stats_get (stats st) (method_name (method result)) + 1]>
                    (stats st) |}
  | Some None =>
      {| processed := processed st; failed := failed st + 1; stats := stats st |}
  | None => st
  end.

(** The whole loop, the futures completing in the order [schedule]. *)
Definition run_loop (results : list (option EnrichedEntry)) (schedule : list nat)
  : loop_state :=
  List.fold_left (on_completed results) schedule loop_start.

(** The number of records of [l] obtained by the method [m]. *)
Definition count_method (m : method_used) (l : list EnrichedEntry) : Z :=
  Z.of_nat (length (List.filter
                      (fun r => str_eqb (method_name (method r)) (method_name m)) l)).

End Tally.

(* ===================================================================== *)
(** * [api/routes.py]: [/api/login] and [/api/register] *)
(* ===================================================================== *)

Module Accounts.

(** The two handlers receive JSON values of any kind and use them through
    three operations only; besides, they store them. *)
Class PyValue (V : Type) := {
  (** [bool(v)], the test of [not v] *)
  py_bool : V -> bool;
  (** [len(v)]; [None] is the [TypeError] of a value without a length *)
  py_len : V -> option Z;
  (** [v == w] *)
  py_eq : V -> V -> bool
}.

(** JSON [null] (also what [dict.get] returns for a missing key),
    booleans, integers and strings, as Python holds them. *)
Inductive json :=
  | JNull
  | JBool (b : bool)
  | JInt (n : Z)
  | JStr (s : str).

Definition json_bool (v : json) : bool :=
  match v with
  | JNull => false
  | JBool b => b
  | JInt n => negb (n =? 0)
  | JStr s => truthy s
  end.

Definition json_len (v : json) : option Z :=
  match v with
  | JStr s => Some (len s)
  | _ => None
  end.

(** [True == 1] and [False == 0]: [bool] is a subclass of [int]. *)
Definition json_eq (v w : json) : bool :=
  match v, w with
  | JNull, JNull => true
  | JBool a, JBool b => Bool.eqb a b
  | JBool a, JInt n | JInt n, JBool a => n =? (if a then 1 else 0)
  | JInt n, JInt m => n =? m
  | JStr s, JStr t => str_eqb s t
  | _, _ => false
  end.

#[global] Instance json_PyValue : PyValue json :=
  {| py_bool := json_bool; py_len := json_len; py_eq := json_eq |}.

Section WithValues.
Context {V : Type} `{PyValue V}.

(** An element of the JSON list of users.  The users files are taken to
    be well formed: a JSON list of objects that have the keys
    ["username"] and ["password"]. *)
Record user := { username : V; password : V }.

(** [next((u for u in users if u["username"] == username), None)] *)
Definition find_user (users : list user) (name : V) : option user :=
  List.find (fun u => py_eq (username u) name) users.

End WithValues.

Arguments user V : clear implicits.

(** The JSON files of the working directory, by path, each holding a list
    of users; a path without a file is absent from the map. *)
Abbreviation files V := (gmap str (list (user V))).

Definition LOGIN_FILE : str := py "data/users.json".
Definition REGISTER_FILE : str := py "users.json".

(** What a handler ends in: a raised [HTTPException]; another exception,
    which leaves the handler and which the server answers with status
    500; the redirection of a successful login; or the dictionary of a
    successful registration. *)
Inductive answer :=
  | HTTPException (status : Z)
  | Raised
  | RedirectResponse (url : str) (status_code : Z)
  | Created.

Section Handlers.
Context {V : Type} `{PyValue V}.

(** [api_login(body)]: [form_username] and [form_password] are
    [formData.get("username")] and [formData.get("password")], [token] the
    value [secrets.token_urlsafe(32)] would draw. *)
Definition api_login (token : str) (fs : files V)
    (form_username form_password : V) : answer :=
  if negb (py_bool form_username) || negb (py_bool form_password)
  then HTTPException 400
  else
    match fs !! LOGIN_FILE with
    | None => HTTPException 500
    | Some users =>
        match find_user users form_username with
        | None => HTTPException 401
        | Some u =>
            if negb (py_eq (password u) form_password) then HTTPException 401
            else RedirectResponse (py "/?token=" ++ token) 303
        end
    end.

(** [api_register(credentials)]: the files as the handler leaves them and
    what it ends in.  [len(password)] is only evaluated for a username
    and a password that are both true. *)
Definition api_register (fs : files V) (cred_username cred_password : V)
  : files V * answer :=
  if negb (py_bool cred_username) || negb (py_bool cred_password)
  then (fs, HTTPException 400)
  else
    match py_len cred_password with
    | None => (fs, Raised)
    | Some n =>
        if n <? 6 then (fs, HTTPException 400)
        else
          let users := match fs !! REGISTER_FILE with
                       | Some users => users
                       | None => []
                       end in
          if existsb (fun u => py_eq (username u) cred_username) users
          then (fs, HTTPException 400)
          else
            (<[REGISTER_FILE :=
                 users ++ [{| username := cred_username;
                              password := cred_password |}]]> fs,
             Created)
    end.

(** The users [/api/register] has on file. *)
Definition registered (fs : files V) : list (user V) :=
  match fs !! REGISTER_FILE with Some users => users | None => [] end.

End Handlers.

End Accounts.

(* ===================================================================== *)
(** * [api/core/fetchers/playwright.py]: the request filter *)
(* ===================================================================== *)

Module RouteFilter.

(** The fields of [Config] that [block_aggressively] reads. *)
Record BlockConfig := {
  PLAYWRIGHT_BLOCK_IMAGES : bool;
  PLAYWRIGHT_BLOCK_MEDIA : bool;
  PLAYWRIGHT_BLOCK_FONTS : bool;
  PLAYWRIGHT_BLOCK_ADS : bool;
  PLAYWRIGHT_BLOCK_TRACKERS : bool;
  ADS_DOMAINS : list str;
  TRACKERS_DOMAINS : list str
}.

(** The two lists of [config.py]. *)
Definition ads_domains : list str :=
  [ py "doubleclick.net"; py "googlesyndication.com"; py "googleadservices.com";
    py "adnxs.com"; py "advertising.com"; py "adsystem.com"; py "adtech.de";
    py "criteo.com"; py "outbrain.com"; py "taboola.com"; py "pubmatic.com";
    py "casalemedia.com"; py "rubiconproject.com"; py "openx.net" ].

Definition trackers_domains : list str :=
  [ py "google-analytics.com"; py "googletagmanager.com"; py "analytics.google.com";
    py "facebook.com/tr"; py "connect.facebook.net"; py "pixel.facebook.com";
    py "mixpanel.com"; py "segment.com"; py "amplitude.com"; py "hotjar.com";
    py "mouseflow.com"; py "crazyegg.com"; py "quantserve.com";
    py "scorecardresearch.com"; py "chartbeat.com"; py "newrelic.com" ].

(** The defaults of [config.py]. *)
Definition default_block_config : BlockConfig :=
  {| PLAYWRIGHT_BLOCK_IMAGES := true; PLAYWRIGHT_BLOCK_MEDIA := true;
     PLAYWRIGHT_BLOCK_FONTS := true; PLAYWRIGHT_BLOCK_ADS := true;
     PLAYWRIGHT_BLOCK_TRACKERS := true;
     ADS_DOMAINS := ads_domains; TRACKERS_DOMAINS := trackers_domains |}.

(** [route.abort()] or [route.continue_()]. *)
Inductive route_action := Abort | Continue.

(** [x in [a, b, ...]] on strings. *)
Definition one_of (x : str) (l : list str) : bool := existsb (str_eqb x) l.

(** [any(d in request_url for d in domains)] *)
Definition url_mentions (domains : list str) (request_url : str) : bool :=
  existsb (fun d => contains d request_url) domains.

(** [block_aggressively(route, request)], on the resource type and the
    URL of the request. *)
Definition block_aggressively (bc : BlockConfig) (resource_type request_url : str)
  : route_action :=
  if PLAYWRIGHT_BLOCK_IMAGES bc && one_of resource_type [py "image"; py "imageset"]
  then Abort
  else if PLAYWRIGHT_BLOCK_MEDIA bc && one_of resource_type [py "media"] then Abort
  else if PLAYWRIGHT_BLOCK_FONTS bc && one_of resource_type [py "font"] then Abort
  else if one_of resource_type [py "stylesheet"] then Abort
  else if PLAYWRIGHT_BLOCK_ADS bc && url_mentions (ADS_DOMAINS bc) request_url
  then Abort
  else if PLAYWRIGHT_BLOCK_TRACKERS bc && url_mentions (TRACKERS_DOMAINS bc) request_url
  then Abort
  else Continue.

End RouteFilter.

(* ===================================================================== *)
(** * Further terms *)
(* ===================================================================== *)

(** Notions the further properties are stated with. *)
Module Terms.
Import Soup Utils Extractors Processor Playwright.

(** Every string [extract_tags] puts in its set for a parsed page. *)
Definition tag_candidates (L : PyLib) (soup : node) (rss_categories : list str)
  : list str :=
  rss_categories ++ keyword_tags soup ++ og_article_tags soup ++ link_tags L soup.

(** The two sources of [site_logo] read before the favicon. *)
Definition og_logo_value (soup : node) : option str :=
  match find (is_meta_property (py "og:logo")) soup with
  | Some tag => get_truthy (py "content") tag
  | None => None
  end.

Definition header_logo (L : PyLib) (soup : node) : option node :=
  match find (is_tag (py "header")) soup with
  | Some header =>
      find (fun n => is_img_with_src n
                     && attr_test (py "alt") (re_search_i L [py "logo"]) n) header
  | None => None
  end.

Definition is_finished (p : pc) : bool :=
  match p with Finished _ => true | _ => false end.

(** The [src] of the header's logo image and the [href] of the two icon
    links, as the statements of [extract_images] read them. *)
Definition header_logo_src (L : PyLib) (soup : node) : option str :=
  match header_logo L soup with
  | Some logo_img => get (py "src") logo_img
  | None => None
  end.

Definition apple_icon_value (L : PyLib) (soup : node) : option str :=
  match find (is_link_rel L (py "apple-touch-icon")) soup with
  | Some tag => get_truthy (py "href") tag
  | None => None
  end.

Definition icon_value (L : PyLib) (soup : node) : option str :=
  match find (is_link_rel L (py "icon")) soup with
  | Some tag => get_truthy (py "href") tag
  | None => None
  end.

(** The attribute values [extract_images] may pass to
    [make_absolute_url] for a page. *)
Definition joined_values (L : PyLib) (soup : node) : list str :=
  omap (fun o : option str => o)
    [ Spec.og_image_value soup; Spec.twitter_image_value soup;
      Spec.first_img_value L soup; og_logo_value soup;
      header_logo_src L soup; apple_icon_value L soup; icon_value L soup ].

End Terms.

(** Further sample values. *)
Module Sample2.

Definition alice : Accounts.user Accounts.json :=
  {| Accounts.username := Accounts.JStr (py "alice");
     Accounts.password := Accounts.JStr (py "wonderland") |}.

Definition bob : Accounts.user Accounts.json :=
  {| Accounts.username := Accounts.JStr (py "bob");
     Accounts.password := Accounts.JStr (py "builder1") |}.

(** A working directory where each handler has its file. *)
Definition two_files : Accounts.files Accounts.json :=
  <[Accounts.LOGIN_FILE := [alice]]> (<[Accounts.REGISTER_FILE := [alice]]> ∅).

(** A page with an article long enough and an Open Graph logo. *)
Definition page_article : str :=
  py "<head><meta property='og:logo' content='/logo.svg'></head><body><article><p>"
  ++ Sample.long_text ++ py "</p></article></body>".
Definition soup_article : node :=
  Sample.document
    [ Tag (py "head") []
        [ Tag (py "meta") [(py "property", py "og:logo"); (py "content", py "/logo.svg")] [] ];
      Tag (py "body") []
        [ Tag (py "article") [] [ Tag (py "p") [] [ Text Sample.long_text ] ] ] ].

(** A page whose header logo has an empty [src] and whose touch icon
    has a malformed [href]. *)
Definition page_empty_logo : str :=
  py "<header><img src='' alt='Site logo'></header><link rel='apple-touch-icon' href='http://['>".
Definition soup_empty_logo : node :=
  Sample.document
    [ Tag (py "header") []
        [ Tag (py "img") [(py "src", []); (py "alt", py "Site logo")] [] ];
      Tag (py "link") [(py "rel", py "apple-touch-icon"); (py "href", py "http://[")] [] ].

Definition parse (html : str) : option node :=
  if str_eqb html page_article then Some soup_article
  else if str_eqb html page_empty_logo then Some soup_empty_logo
  else Sample.parse html.

(** [urljoin] raises [ValueError] for a bracket without its match. *)
Definition join_url (base u : str) : option str :=
  if contains (py "[") u && negb (contains (py "]") u) then None
  else Sample.join_url base u.

(** [Sample.lib] with the pages above. *)
Definition lib : PyLib :=
  {| lower := lower Sample.lib;
     re_word := re_word Sample.lib;
     re_search_i := re_search_i Sample.lib;
     urljoin := join_url;
     urlparse := urlparse Sample.lib;
     markdown := markdown Sample.lib;
     sha1_hexdigest := sha1_hexdigest Sample.lib;
     sha256_hexdigest := sha256_hexdigest Sample.lib;
     BeautifulSoup := parse;
     to_html := to_html Sample.lib |}.

(** A working directory where nobody could log in yet. *)
Definition register_only : Accounts.files Accounts.json :=
  <[Accounts.REGISTER_FILE := [alice]]> ∅.

(** A source feed whose server answers 503. *)
Definition failing_web : Routes.Web :=
  {| Routes.fetch_feed := fun _ => Routes.HTTPError 503;
     Routes.rss_str := Routes.rss_str Sample.web |}.

(** At most two tags per article. *)
Definition two_tags : Config :=
  {| JINA_BASE_URL := py "https://r.jina.ai";
     USE_JINA := true; USE_CLOUDSCRAPER := true; USE_PLAYWRIGHT := true;
     MIN_CONTENT_LENGTH := 50; MAX_TAGS_PER_ARTICLE := 2;
     PLAYWRIGHT_AVAILABLE := true; CLOUDSCRAPER_AVAILABLE := true;
     BS4_AVAILABLE := true |}.

End Sample2.

(* ===================================================================== *)
(** * The model on sample inputs *)
(* ===================================================================== *)

Example strip_sample : strip (py "  a b  ") = py "a b".
Proof. reflexivity. Qed.

Example split_on_sample :
  split_on 44%N (py "a,b,,c") = [py "a"; py "b"; []; py "c"].
Proof. reflexivity. Qed.

Example split_blank_lines_sample :
  split_blank_lines [] ([LF; LF] ++ py "a" ++ [LF] ++ py "b" ++ [LF; LF; LF] ++ py "c")
  = [[]; py "a" ++ [LF] ++ py "b"; [LF] ++ py "c"].
Proof. reflexivity. Qed.

Example strip_tags_sample :
  Utils.strip_tags (py "<p>Hi <b>there</b></p> a < b > c <> <<x> <y")
  = py "Hi there a  c <>  <y".
Proof. reflexivity. Qed.

Example tokens_sample :
  Soup.tokens (py "  post   entry-content ") = [py "post"; py "entry-content"].
Proof. reflexivity. Qed.

Example clean_html_sample :
  Utils.clean_html ([0%N; 7%N] ++ py "a" ++ [9%N; 10%N; 11%N; 13%N; 27%N; 127%N] ++ py "b")
  = py "a" ++ [9%N; 10%N; 13%N] ++ py "b".
Proof. reflexivity. Qed.

Example clean_html_empty : Utils.clean_html [] = py "<p>Contenu non disponible</p>".
Proof. reflexivity. Qed.

Example clean_tag_sample :
  Utils.clean_tag Sample.lib (py "  C++ & Rust-lang!  ") = Some (py "C  Rust-lang").
Proof. reflexivity. Qed.

Example clean_tag_too_short : Utils.clean_tag Sample.lib (py " go ") = None.
Proof. reflexivity. Qed.

Example clean_tag_shrinks : Utils.clean_tag Sample.lib (py "a!!") = Some (py "a").
Proof. reflexivity. Qed.

Example leap_day :
  Processor.datetime_of_tuple [2024; 2; 29; 23; 59; 59; 3; 60; 0]
  = Processor.Built
      {| Processor.year := 2024; Processor.month := 2; Processor.day := 29;
         Processor.hour := 23; Processor.minute := 59; Processor.second := 59 |}.
Proof. reflexivity. Qed.

Example no_february_30 :
  Processor.datetime_of_tuple [2024; 2; 30; 0; 0; 0; 0; 0; 0] = Processor.Caught.
Proof. reflexivity. Qed.

Example datetime_min_is_buildable :
  Processor.datetime_of_tuple [1; 1; 1; 0; 0; 0; 0; 1; 0]
  = Processor.Built Processor.datetime_min.
Proof. reflexivity. Qed.

(** A year beyond a C [int] is an [OverflowError], with or without the
    other arguments; the smallest C [int] is only out of range. *)
Example year_overflows :
  Processor.datetime_of_tuple [2147483648; 1; 1; 0; 0; 0; 0; 1; 0]
  = Processor.OverflowError
  /\ Processor.datetime_of_tuple [2147483648; 1] = Processor.OverflowError
  /\ Processor.datetime_of_tuple [1; 1] = Processor.Caught
  /\ Processor.datetime_of_tuple [-2147483648; 1; 1] = Processor.Caught.
Proof. repeat split; reflexivity. Qed.

(** Every strategy disabled: the cascade raises and calls nothing. *)
Example cascade_all_disabled (L : PyLib) (net : Net) (u : str) :
  Fetchers.fetch_content_cascade L
    {| JINA_BASE_URL := py "https://r.jina.ai";
       USE_JINA := false; USE_CLOUDSCRAPER := false; USE_PLAYWRIGHT := false;
       MIN_CONTENT_LENGTH := 50; MAX_TAGS_PER_ARTICLE := 10;
       PLAYWRIGHT_AVAILABLE := true; CLOUDSCRAPER_AVAILABLE := true;
       BS4_AVAILABLE := true |} net u None
  = ([], Fetchers.RuntimeError).
Proof. reflexivity. Qed.

(** An unknown preferred name: the cascade raises and calls nothing. *)
Example cascade_unknown_name :
  Fetchers.fetch_content_cascade Sample.lib default_config Sample.online
    (py "https://example.org/a") (Some (py "strategy2"))
  = ([], Fetchers.RuntimeError).
Proof. reflexivity. Qed.

(** Every strategy fails: all three are called, in the order of the
    dictionary, and the cascade returns [None]. *)
Example cascade_all_fail :
  Fetchers.fetch_content_cascade Sample.lib default_config Sample.offline
    (py "https://example.org/a") None
  = ([py "Playwright"; py "Jina"; py "cloudscraper"], Fetchers.Returned None).
Proof. reflexivity. Qed.

(** A page too short for the strategy is a failure of the strategy. *)
Example cloudscraper_short_page :
  Fetchers.fetch_with_cloudscraper Sample.lib default_config
    (Sample.serving (py "<html><body>too short</body></html>"))
    (py "https://example.org/a")
  = None.
Proof. reflexivity. Qed.

(** An entry without a link is rejected. *)
Example entry_without_link (L : PyLib) (cfg : Config) (net : Net) :
  Processor.process_entry L cfg net
    {| Processor.e_title := Some (py "A title"); Processor.e_link := None;
       Processor.e_tags := None; Processor.e_summary := None;
       Processor.e_description := None; Processor.e_published_parsed := None |}
    None
  = None.
Proof. reflexivity. Qed.

(** A preferred strategy that is disabled is still the one that runs,
    and the entry ends on the [cascade] path. *)
Example disabled_preferred_strategy_gives_cascade :
  option_map Processor.method
    (Processor.process_entry Sample.lib Sample.cloudscraper_disabled
       (Sample.serving Sample.page_tags) Sample.entry_with_categories
       (Some (py "cloudscraper")))
  = Some Processor.cascade.
Proof. vm_compute. reflexivity. Qed.

(* ===================================================================== *)
(** * Properties of the string functions *)
(* ===================================================================== *)

Lemma char_eqb_eq (a b : char) : char_eqb a b = true <-> a = b.
Proof. apply N.eqb_eq. Qed.

Lemma str_eqb_eq (a b : str) : str_eqb a b = true <-> a = b.
Proof.
  revert b; induction a as [|x a IH]; intros [|y b]; simpl; try (split; congruence).
  rewrite andb_true_iff, char_eqb_eq, IH. split.
  - intros [-> ->]; reflexivity.
  - intros [= -> ->]; auto.
Qed.

Lemma str_eqb_refl (a : str) : str_eqb a a = true.
Proof. apply str_eqb_eq; reflexivity. Qed.

Lemma str_ltb_irrefl (a : str) : str_ltb a a = false.
Proof.
  induction a as [|x a IH]; simpl; [reflexivity|].
  rewrite N.ltb_irrefl, N.eqb_refl, IH. reflexivity.
Qed.

Lemma str_ltb_asym (a b : str) : str_ltb a b = true -> str_ltb b a = false.
Proof.
  revert b; induction a as [|x a IH]; intros [|y b]; simpl; try congruence.
  destruct (N.ltb_spec x y) as [Hxy|Hxy]; simpl.
  - intros _. destruct (N.ltb_spec y x); [lia|]. simpl.
    destruct (N.eqb_spec y x); [lia|reflexivity].
  - destruct (N.eqb_spec x y) as [->|Hne]; simpl; [|congruence].
    intros H. rewrite N.ltb_irrefl, N.eqb_refl. simpl. auto.
Qed.

Lemma str_ltb_trans (a b c : str) :
  str_ltb a b = true -> str_ltb b c = true -> str_ltb a c = true.
Proof.
  revert b c; induction a as [|x a IH]; intros [|y b] [|z c]; simpl; try congruence.
  destruct (N.ltb_spec x y), (N.ltb_spec y z), (N.ltb_spec x z); simpl;
    try reflexivity; try lia;
    destruct (N.eqb_spec x y), (N.eqb_spec y z), (N.eqb_spec x z); simpl;
    try congruence; try lia.
  apply IH.
Qed.

Lemma str_ltb_connected (a b : str) :
  str_ltb a b = false -> str_ltb b a = false -> a = b.
Proof.
  revert b; induction a as [|x a IH]; intros [|y b]; simpl; try congruence.
  destruct (N.ltb_spec x y), (N.ltb_spec y x); simpl; try congruence; try lia.
  assert (x = y) as -> by lia. rewrite N.eqb_refl. simpl.
  intros H1 H2. f_equal. auto.
Qed.

Lemma str_le_total (a b : str) : str_le a b \/ str_le b a.
Proof.
  unfold str_le. destruct (str_ltb b a) eqn:E; [|auto].
  right. apply str_ltb_asym; assumption.
Qed.

Lemma str_le_lt_or_eq (a b : str) : str_le a b -> str_lt a b \/ a = b.
Proof.
  unfold str_le, str_lt. intros H. destruct (str_ltb a b) eqn:E; [auto|].
  right. apply str_ltb_connected; assumption.
Qed.

Lemma str_le_trans (a b c : str) : str_le a b -> str_le b c -> str_le a c.
Proof.
  intros Hab Hbc.
  destruct (str_le_lt_or_eq _ _ Hab) as [H1| ->]; [|assumption].
  destruct (str_le_lt_or_eq _ _ Hbc) as [H2| ->]; [|assumption].
  unfold str_le. apply str_ltb_asym. eapply str_ltb_trans; eassumption.
Qed.

#[global] Instance str_le_Total : Total str_le.
Proof. intros a b. apply str_le_total. Qed.

#[global] Instance str_le_Transitive : Transitive str_le.
Proof. intros a b c. apply str_le_trans. Qed.

Lemma lstrip_length (s : str) : (length (lstrip s) <= length s)%nat.
Proof. induction s as [|c s IH]; simpl; [lia|]. destruct (is_space c); simpl; lia. Qed.

Lemma strip_length (s : str) : (length (strip s) <= length s)%nat.
Proof.
  unfold strip, rstrip. rewrite length_rev.
  etransitivity; [apply lstrip_length|]. rewrite length_rev. apply lstrip_length.
Qed.

Lemma startswith_head (p s : str) (c : char) :
  startswith (c :: p) s = true -> exists s', s = c :: s'.
Proof.
  destruct s as [|y s]; simpl; [congruence|].
  rewrite andb_true_iff, char_eqb_eq. intros [-> _]. eauto.
Qed.

Lemma contains_head_In (p s : str) (c : char) :
  contains (c :: p) s = true -> In c s.
Proof.
  induction s as [|y s IH].
  - simpl. congruence.
  - cbn [contains]. rewrite orb_true_iff. intros [H|H].
    + apply startswith_head in H as [s' [= -> ->]]. left; reflexivity.
    + right. auto.
Qed.

(* ===================================================================== *)
(** * The feed cache *)
(* ===================================================================== *)

Section CacheFacts.
Import Cache.
Context (L : PyLib).

Lemma get_after_save (d : dir) (t now : Z) (u : str) (c : bytes) :
  get_cached_feed L (save_cached_feed L d t u c) now u
  = if CACHE_TTL <? now - t then None else Some c.
Proof.
  unfold get_cached_feed, save_cached_feed.
  rewrite lookup_insert_eq. reflexivity.
Qed.

Lemma get_save_other (d : dir) (t now : Z) (u u' : str) (c : bytes) :
  cache_key_from_url L u' [] <> cache_key_from_url L u [] ->
  get_cached_feed L (save_cached_feed L d t u' c) now u = get_cached_feed L d now u.
Proof.
  intros Hne. unfold get_cached_feed, save_cached_feed.
  rewrite lookup_insert_ne by assumption. reflexivity.
Qed.

(** Writes under other file names leave the answer for [u] as it was. *)
Lemma get_save_all_others (ws : list (Z * str * bytes)) (d : dir) (now : Z) (u : str) :
  Forall (fun w => cache_key_from_url L (snd (fst w)) [] <> cache_key_from_url L u []) ws ->
  get_cached_feed L (save_all L d ws) now u = get_cached_feed L d now u.
Proof.
  intros Hws. revert d.
  induction Hws as [|[[t u'] c] ws Hne _ IH]; intros d; simpl; [reflexivity|].
  rewrite IH. apply get_save_other. exact Hne.
Qed.

Lemma get_empty (now : Z) (u : str) : get_cached_feed L ∅ now u = None.
Proof. unfold get_cached_feed. rewrite lookup_empty. reflexivity. Qed.

End CacheFacts.

(** C7.  A feed saved for a URL at instant [t], whatever is saved for
    other cache files afterwards, is read back unchanged at every instant
    [now] with [now - t] at most the two-hour TTL, and is a miss once
    [now - t] exceeds it; a URL whose cache file was never written is a
    miss.  ([get_cached_feed] and [save_cached_feed] take the URL only: the
    discriminator of the key is the empty string in both.) *)
Theorem feed_cache_hit_within_ttl (L : PyLib) (d : Cache.dir) (t now : Z)
    (u : str) (c : Cache.bytes) (ws ws0 : list (Z * str * Cache.bytes)) :
  Forall (fun w => Cache.cache_key_from_url L (snd (fst w)) []
                   <> Cache.cache_key_from_url L u []) ws ->
  Forall (fun w => Cache.cache_key_from_url L (snd (fst w)) []
                   <> Cache.cache_key_from_url L u []) ws0 ->
  Cache.CACHE_TTL = 7200000000
  /\ (now - t <= Cache.CACHE_TTL ->
      Cache.get_cached_feed L
        (Cache.save_all L (Cache.save_cached_feed L d t u c) ws) now u = Some c)
  /\ (Cache.CACHE_TTL < now - t ->
      Cache.get_cached_feed L
        (Cache.save_all L (Cache.save_cached_feed L d t u c) ws) now u = None)
  /\ Cache.get_cached_feed L (Cache.save_all L ∅ ws0) now u = None.
Proof.
  intros Hws Hws0. split; [reflexivity|].
  rewrite (get_save_all_others L ws _ now u Hws), get_after_save.
  rewrite (get_save_all_others L ws0 _ now u Hws0), get_empty.
  repeat split.
  - intros H. destruct (Z.ltb_spec Cache.CACHE_TTL (now - t)); [lia|reflexivity].
  - intros H. destruct (Z.ltb_spec Cache.CACHE_TTL (now - t)); [reflexivity|lia].
Qed.

Lemma feed_cache_hit_within_ttl_witness :
  Cache.get_cached_feed Sample.lib
    (Cache.save_all Sample.lib
       (Cache.save_cached_feed Sample.lib ∅ 0 (py "https://example.org/feed.xml")
          [Byte.x3c; Byte.x72])
       [(5, py "https://example.org/other.xml", [Byte.x3c])])
    7200000000 (py "https://example.org/feed.xml")
  = Some [Byte.x3c; Byte.x72].
Proof.
  refine (proj1 (proj2 (feed_cache_hit_within_ttl Sample.lib ∅ 0 7200000000
            (py "https://example.org/feed.xml") [Byte.x3c; Byte.x72]
            [(5, py "https://example.org/other.xml", [Byte.x3c])] [] _ _)) _).
  - repeat constructor. vm_compute. discriminate.
  - constructor.
  - vm_compute. discriminate.
Defined.

(* ===================================================================== *)
(** * The cascade of strategies *)
(* ===================================================================== *)

Section FetcherFacts.
Import Fetchers.
Context (L : PyLib) (cfg : Config) (net : Net).

(** Without a preferred name the strategies kept are the enabled ones, in
    the order of the dictionary. *)
Lemma selected_without_preference :
  List.map label (selected_methods L cfg None)
  = (if USE_PLAYWRIGHT cfg && PLAYWRIGHT_AVAILABLE cfg then [py "Playwright"] else [])
    ++ (if USE_JINA cfg then [py "Jina"] else [])
    ++ (if USE_CLOUDSCRAPER cfg && CLOUDSCRAPER_AVAILABLE cfg then [py "cloudscraper"] else []).
Proof.
  unfold selected_methods, dict_values, FETCH_METHODS, List.map at 2, List.filter.
  unfold enabled, snd.
  destruct (USE_PLAYWRIGHT cfg), (PLAYWRIGHT_AVAILABLE cfg), (USE_JINA cfg),
    (USE_CLOUDSCRAPER cfg), (CLOUDSCRAPER_AVAILABLE cfg); reflexivity.
Qed.

(** The loop stops at the first strategy that returns. *)
Lemma try_methods_first_success (u : str) (failed : list fetch_method)
    (m : fetch_method) (rest : list fetch_method) (html : str) :
  Forall (fun m' => func m' L cfg net u = None) failed ->
  func m L cfg net u = Some html ->
  try_methods L cfg net u (failed ++ m :: rest)
  = (List.map label failed ++ [label m], Some html).
Proof.
  intros Hfailed Hm. induction Hfailed as [|m' failed Hm' _ IH]; simpl.
  - rewrite Hm. reflexivity.
  - rewrite Hm', IH. reflexivity.
Qed.

Lemma try_methods_all_fail (u : str) (ms : list fetch_method) :
  Forall (fun m' => func m' L cfg net u = None) ms ->
  try_methods L cfg net u ms = (List.map label ms, None).
Proof.
  induction 1 as [|m' ms Hm' _ IH]; simpl; [reflexivity|].
  rewrite Hm', IH. reflexivity.
Qed.

End FetcherFacts.

(** C1, as the code has it.  With the three strategies enabled and no
    preferred name, the strategies are taken in the order headless
    browser, reader service, hardened GET; whenever the headless browser
    succeeds it is the only strategy called and its page is the result,
    whatever the other two would have returned. *)
Theorem cascade_order_is_playwright_jina_cloudscraper (L : PyLib) (cfg : Config)
    (net : Net) (u html : str) :
  USE_PLAYWRIGHT cfg = true -> PLAYWRIGHT_AVAILABLE cfg = true ->
  USE_JINA cfg = true ->
  USE_CLOUDSCRAPER cfg = true -> CLOUDSCRAPER_AVAILABLE cfg = true ->
  Fetchers.fetch_with_playwright L cfg net u = Some html ->
  List.map Fetchers.label (Fetchers.selected_methods L cfg None)
  = [py "Playwright"; py "Jina"; py "cloudscraper"]
  /\ Fetchers.fetch_content_cascade L cfg net u None
     = ([py "Playwright"], Fetchers.Returned (Some html)).
Proof.
  intros Hp Hpa Hj Hc Hca Hfetch. split.
  - rewrite selected_without_preference, Hp, Hpa, Hj, Hc, Hca. reflexivity.
  - unfold Fetchers.fetch_content_cascade, Fetchers.selected_methods,
      Fetchers.dict_values, Fetchers.FETCH_METHODS.
    cbn [List.map snd List.filter Fetchers.enabled].
    rewrite Hp, Hpa. cbn [andb Fetchers.try_methods Fetchers.func].
    rewrite Hfetch. reflexivity.
Qed.

Lemma cascade_order_is_playwright_jina_cloudscraper_witness :
  Fetchers.fetch_content_cascade Sample.lib default_config Sample.online
    (py "https://example.org/a") None
  = ([py "Playwright"],
     Fetchers.Returned
       (Some (py "<html><body><main>" ++ Sample.long_text
              ++ py "</main></body></html>")))
  /\ Fetchers.fetch_with_jina Sample.lib default_config Sample.online
       (py "https://example.org/a")
     = Some (py "<p>" ++ Sample.long_text ++ py "</p>").
Proof.
  split; [|vm_compute; reflexivity].
  refine (proj2 (cascade_order_is_playwright_jina_cloudscraper Sample.lib
                   default_config Sample.online (py "https://example.org/a")
                   _ _ _ _ _ _ _)); reflexivity.
Defined.

(** C2, as the code has it.  A preferred name that is a key of
    [FETCH_METHODS] selects that strategy whatever the configuration says:
    the strategy is called once and its result is the cascade's. *)
Theorem preferred_method_skips_enabled_check (L : PyLib) (cfg : Config)
    (net : Net) (u pm : str) (m : Fetchers.fetch_method) :
  truthy pm = true ->
  Fetchers.dict_get (lower L pm) Fetchers.FETCH_METHODS = Some m ->
  Fetchers.fetch_content_cascade L cfg net u (Some pm)
  = ([Fetchers.label m], Fetchers.Returned (Fetchers.func m L cfg net u)).
Proof.
  intros Hpm Hm. unfold Fetchers.fetch_content_cascade, Fetchers.selected_methods.
  rewrite Hpm, Hm. simpl. destruct (Fetchers.func m L cfg net u); reflexivity.
Qed.

Lemma preferred_method_skips_enabled_check_witness :
  USE_CLOUDSCRAPER Sample.cloudscraper_disabled = false
  /\ Fetchers.fetch_content_cascade Sample.lib Sample.cloudscraper_disabled
       Sample.online (py "https://example.org/a") (Some (py "cloudscraper"))
     = ([py "cloudscraper"],
        Fetchers.Returned
          (Some (py "<html><body><p>" ++ Sample.long_text
                 ++ py "</p></body></html>"))).
Proof.
  split; [reflexivity|].
  refine (eq_trans
            (preferred_method_skips_enabled_check Sample.lib
               Sample.cloudscraper_disabled Sample.online
               (py "https://example.org/a") (py "cloudscraper")
               {| Fetchers.label := py "cloudscraper";
                  Fetchers.func := Fetchers.fetch_with_cloudscraper;
                  Fetchers.enabled :=
                    fun c => USE_CLOUDSCRAPER c && CLOUDSCRAPER_AVAILABLE c |}
               _ _) _).
  - reflexivity.
  - reflexivity.
  - vm_compute. reflexivity.
Defined.

(* ===================================================================== *)
(** * [process_entry] *)
(* ===================================================================== *)

Section ProcessorFacts.
Import Utils Fetchers Extractors Processor.

Lemma clean_html_class_free (html : str) :
  Forall (fun c => in_control_class c = false) (clean_html html).
Proof.
  unfold clean_html. destruct (truthy html); simpl.
  - apply Forall_forall. intros c Hc. apply list_elem_of_In in Hc.
    apply filter_In in Hc as [_ Hc]. apply negb_true_iff in Hc. exact Hc.
  - vm_compute. repeat constructor.
Qed.

Lemma clean_html_keeps (html : str) (c : char) :
  In c html -> in_control_class c = false -> In c (clean_html html).
Proof.
  intros Hin Hc. unfold clean_html.
  destruct html as [|x html]; [destruct Hin|]. simpl truthy. cbn [negb].
  apply filter_In. split.
  - apply filter_In. split; [exact Hin|].
    apply negb_true_iff. apply N.eqb_neq. intros ->. discriminate Hc.
  - rewrite Hc. reflexivity.
Qed.

Lemma clean_html_nonempty_of (html : str) (c : char) :
  In c html -> in_control_class c = false -> clean_html html <> [].
Proof.
  intros Hin Hc Hnil. pose proof (clean_html_keeps html c Hin Hc) as H.
  rewrite Hnil in H. destruct H.
Qed.

Lemma clean_placeholder : clean_html PLACEHOLDER = PLACEHOLDER.
Proof. reflexivity. Qed.

Lemma in_control_class_zero (c : char) :
  in_control_class c = false -> (c =? 0)%N = false.
Proof.
  intros H. apply N.eqb_neq. intros ->. discriminate H.
Qed.

(** On a non-empty input the two passes of [clean_html] amount to the
    second one. *)
Lemma clean_html_cons (c : char) (s : str) :
  clean_html (c :: s) = List.filter (fun x => negb (in_control_class x)) (c :: s).
Proof.
  unfold clean_html. cbn [truthy negb].
  set (l := c :: s). clearbody l. induction l as [|x l IH]; [reflexivity|].
  cbn [List.filter]. destruct (in_control_class x) eqn:E.
  - destruct (x =? 0)%N; cbn [negb List.filter]; [exact IH|].
    rewrite E. cbn [negb]. exact IH.
  - rewrite (in_control_class_zero x E). cbn [negb List.filter].
    rewrite E. cbn [negb]. f_equal. exact IH.
Qed.

(** The two shapes of the fallback. *)
Lemma fallback_content_cases (s : str) :
  (50 < len s /\ snd (fallback_content s) = rss_summary
   /\ fst (fallback_content s)
      = if contains LT_SIGN s then s else py "<p>" ++ s ++ py "</p>")
  \/ (len s <= 50 /\ fallback_content s = (PLACEHOLDER, unavailable)).
Proof.
  unfold fallback_content.
  destruct (Z.ltb_spec 50 (len s)) as [Hlen|Hlen].
  - left. destruct s as [|c s]; [unfold len in Hlen; simpl in Hlen; lia|].
    simpl truthy. cbn [andb]. auto.
  - right. rewrite andb_false_r. auto.
Qed.

Lemma fallback_content_nonempty (s : str) :
  clean_html (fst (fallback_content s)) <> [].
Proof.
  destruct (fallback_content_cases s) as [(_ & _ & ->)|[_ ->]].
  - destruct (contains LT_SIGN s) eqn:E.
    + apply (clean_html_nonempty_of s 60%N); [|reflexivity].
      apply (contains_head_In [] s). exact E.
    + apply (clean_html_nonempty_of _ 60%N); [|reflexivity]. left. reflexivity.
  - discriminate.
Qed.

Lemma fallback_content_not_cascade (s : str) :
  snd (fallback_content s) <> cascade.
Proof.
  destruct (fallback_content_cases s) as [(_ & -> & _)|[_ ->]]; discriminate.
Qed.

Context (L : PyLib) (cfg : Config) (net : Net).

(** The inner [try] either ran to its end on a non-empty page, or fell
    to the [except] branch. *)
Lemma fetch_and_extract_cases (e : FeedEntry) (link : str) (pm : option str) :
  (exists raw_html,
      snd (fetch_content_cascade L cfg net link pm) = Returned (Some raw_html)
      /\ truthy raw_html = true
      /\ fetch_and_extract L cfg net e link pm
         = (extract_article_content L cfg raw_html,
            extract_images L cfg raw_html link,
            extract_tags L cfg raw_html (rss_categories_of e),
            cascade))
  \/ (Spec.fetch_failed L cfg net link pm
      /\ fetch_and_extract L cfg net e link pm
         = (fst (fallback_content (raw_summary_of e)), no_images,
            rss_categories_of e, snd (fallback_content (raw_summary_of e)))).
Proof.
  unfold fetch_and_extract, Spec.fetch_failed.
  destruct (fallback_content (raw_summary_of e)) as [c m]. simpl fst; simpl snd.
  destruct (snd (fetch_content_cascade L cfg net link pm)) as [|[raw_html|]];
    [right; auto| |right; auto].
  destruct (truthy raw_html) eqn:E; [left; eauto|right; auto].
Qed.

(** What a returned record is made of. *)
Lemma process_entry_Some (e : FeedEntry) (pm : option str) (r : EnrichedEntry) :
  process_entry L cfg net e pm = Some r ->
  e_link e = Some (link r) /\ truthy (link r) = true
  /\ fetch_and_extract L cfg net e (link r) pm
     = (fst (fst (fst (fetch_and_extract L cfg net e (link r) pm))),
        images r, tags r, method r)
  /\ content r
     = clean_html (fst (fst (fst (fetch_and_extract L cfg net e (link r) pm))))
  /\ pub_date_of e = Some (pub_date r).
Proof.
  unfold process_entry. destruct (e_link e) as [l|]; [|discriminate].
  destruct (truthy l) eqn:El; [|discriminate]. cbn [negb].
  destruct (fetch_and_extract L cfg net e l pm) as [[[c im] tg] m] eqn:Efe.
  destruct (pub_date_of e); [|discriminate].
  destruct (sha256_hexdigest L l); [|discriminate].
  intros [= <-]. simpl. rewrite Efe. auto.
Qed.

End ProcessorFacts.

(** C3, counterexample.  All strategies fail and the feed's summary holds
    a line feed: the record's content still holds it, and U+000A is a
    control character.  Besides, a fetched page made of two hundred
    U+0001 passes the length check of the strategies, is returned as it is
    by [extract_article_content], and leaves an empty content. *)
Lemma content_keeps_line_feed :
  (exists r,
      Processor.process_entry Sample.lib default_config Sample.offline
        (Sample.entry_with_summary Sample.two_line_summary) None = Some r
      /\ Processor.method r = Processor.rss_summary
      /\ In 10%N (Processor.content r)
      /\ Spec.is_control_char 10%N = true)
  /\ (exists r,
        Processor.process_entry Sample.lib default_config
          (Sample.serving Sample.page_control)
          (Sample.entry_with_summary Sample.two_line_summary) None = Some r
        /\ Utils.is_content_complete Sample.page_control 200 = true
        /\ Processor.method r = Processor.cascade
        /\ Processor.content r = []).
Proof.
  split.
  - eexists. split; [vm_compute; reflexivity|].
    split; [reflexivity|]. split; [|reflexivity].
    vm_compute. tauto.
  - eexists. split; [vm_compute; reflexivity|].
    repeat split; vm_compute; reflexivity.
Qed.

(** C3, amended.  The content of a returned record is the unsanitized
    content, that is the extracted article or the fallback, from which
    every NUL and every character of U+0001-U+0008, U+000B, U+000C,
    U+000E-U+001F and U+007F has been removed, every other character
    staying where it was: tab, line feed, carriage return and
    U+0080-U+009F are among the characters kept, and they are the only
    control characters the content may hold.  An empty unsanitized
    content gives the placeholder.  On the [rss_summary] and
    [unavailable] paths the content is not empty. *)
Theorem content_is_sanitized (L : PyLib) (cfg : Config) (net : Net)
    (e : Processor.FeedEntry) (pm : option str) (r : Processor.EnrichedEntry) :
  Processor.process_entry L cfg net e pm = Some r ->
  (Spec.unsanitized L cfg net e (Processor.link r) pm <> [] ->
   Processor.content r
   = List.filter (fun c => negb (Utils.in_control_class c))
       (Spec.unsanitized L cfg net e (Processor.link r) pm))
  /\ (Spec.unsanitized L cfg net e (Processor.link r) pm = [] ->
      Processor.content r = Utils.PLACEHOLDER)
  /\ (forall c, Utils.in_control_class c = true
                <-> c <= 8 \/ c = 11 \/ c = 12 \/ 14 <= c <= 31 \/ c = 127)%N
  /\ (forall c,
        In c (Spec.unsanitized L cfg net e (Processor.link r) pm) ->
        (c = 9 \/ c = 10 \/ c = 13 \/ 128 <= c <= 159)%N ->
        In c (Processor.content r))
  /\ Forall (fun c => Utils.in_control_class c = false) (Processor.content r)
  /\ (forall c, In c (Processor.content r) -> Spec.is_control_char c = true ->
        c = 9 \/ c = 10 \/ c = 13 \/ 128 <= c <= 159)%N
  /\ (Processor.method r <> Processor.cascade -> Processor.content r <> []).
Proof.
  intros Hr. apply process_entry_Some in Hr as (_ & _ & Hfe & Hc & _).
  fold (Spec.unsanitized L cfg net e (Processor.link r) pm) in Hc.
  assert (Hclass : Forall (fun c => Utils.in_control_class c = false)
                     (Processor.content r))
    by (rewrite Hc; apply clean_html_class_free).
  assert (Hchar : forall c, Utils.in_control_class c = true
                    <-> (c <= 8 \/ c = 11 \/ c = 12 \/ 14 <= c <= 31 \/ c = 127)%N).
  { intros c. unfold Utils.in_control_class.
    rewrite !orb_true_iff, andb_true_iff, !N.leb_le, !N.eqb_eq. tauto. }
  split; [|split; [|split; [exact Hchar|split; [|split; [exact Hclass|split]]]]].
  - intros Hne. rewrite Hc.
    destruct (Spec.unsanitized L cfg net e (Processor.link r) pm) as [|c s];
      [congruence|]. apply clean_html_cons.
  - intros Hnil. rewrite Hc, Hnil. reflexivity.
  - intros c Hin Hkept. rewrite Hc. apply clean_html_keeps; [exact Hin|].
    destruct (Utils.in_control_class c) eqn:E; [|reflexivity].
    apply Hchar in E. lia.
  - intros c Hin Hctl. rewrite Forall_forall in Hclass.
    apply list_elem_of_In in Hin. specialize (Hclass c Hin).
    unfold Utils.in_control_class in Hclass. unfold Spec.is_control_char in Hctl.
    repeat (rewrite orb_false_iff in Hclass || rewrite andb_false_iff in Hclass).
    rewrite orb_true_iff, andb_true_iff in Hctl.
    rewrite ?N.leb_le, ?N.eqb_neq, ?N.leb_gt in *. lia.
  - intros Hm. rewrite Hc. unfold Spec.unsanitized.
    destruct (fetch_and_extract_cases L cfg net e (Processor.link r) pm)
      as [(raw & _ & _ & Heq)|[_ Heq]]; rewrite Heq in Hfe |- *.
    + injection Hfe as _ _ Hm'. congruence.
    + apply fallback_content_nonempty.
Qed.

Lemma content_is_sanitized_witness :
  Processor.content Sample.two_line_record
  = List.filter (fun c => negb (Utils.in_control_class c))
      (Spec.unsanitized Sample.lib default_config Sample.offline
         (Sample.entry_with_summary Sample.two_line_summary)
         (Processor.link Sample.two_line_record) None)
  /\ In 10%N (Processor.content Sample.two_line_record).
Proof.
  pose proof (content_is_sanitized Sample.lib default_config Sample.offline
                (Sample.entry_with_summary Sample.two_line_summary) None
                Sample.two_line_record eq_refl) as (Hfilter & _ & _ & Hkept & _).
  split.
  - apply Hfilter. vm_compute. discriminate.
  - apply Hkept; [vm_compute; tauto|lia].
Defined.

(** C6, counterexample.  Every strategy fails and the feed's summary is
    sixty spaces: stripped it is empty, yet the entry's method is
    [rss_summary].  Besides, for a summary without markup that holds a
    U+0001 the content is not the summary wrapped in a paragraph: the
    sanitizer has removed the character. *)
Lemma blank_summary_is_used :
  (exists r,
      Processor.process_entry Sample.lib default_config Sample.offline
        (Sample.entry_with_summary Sample.blank_summary) None = Some r
      /\ Spec.fetch_failed Sample.lib default_config Sample.offline
           (Processor.link r) None
      /\ Processor.method r = Processor.rss_summary
      /\ len (strip Sample.blank_summary) = 0
      /\ Spec.usable_summary_stripped Sample.blank_summary = false)
  /\ (exists r,
        Processor.process_entry Sample.lib default_config Sample.offline
          (Sample.entry_with_summary Sample.summary_with_control) None = Some r
        /\ Processor.method r = Processor.rss_summary
        /\ contains (py "<") Sample.summary_with_control = false
        /\ Processor.content r
           <> py "<p>" ++ Sample.summary_with_control ++ py "</p>").
Proof.
  split.
  - eexists. split; [vm_compute; reflexivity|].
    repeat split; vm_compute; trivial.
  - eexists. split; [vm_compute; reflexivity|].
    split; [reflexivity|]. split; [reflexivity|].
    vm_compute. discriminate.
Qed.

(** C6, amended.  When the fetch stage fails for an entry with a link,
    the method is [rss_summary] exactly when the summary as the feed gives
    it (not stripped) is longer than 50 characters; the content is then
    the sanitized summary, wrapped in a paragraph when it holds no ['<'];
    otherwise the method is [unavailable] and the content is the
    placeholder. *)
Theorem fallback_tests_raw_summary_length (L : PyLib) (cfg : Config) (net : Net)
    (e : Processor.FeedEntry) (pm : option str) (r : Processor.EnrichedEntry) :
  Processor.process_entry L cfg net e pm = Some r ->
  Spec.fetch_failed L cfg net (Processor.link r) pm ->
  (Processor.method r = Processor.rss_summary
   <-> 50 < len (Processor.raw_summary_of e))
  /\ (50 < len (Processor.raw_summary_of e) ->
      Processor.content r
      = Utils.clean_html
          (if contains (py "<") (Processor.raw_summary_of e)
           then Processor.raw_summary_of e
           else py "<p>" ++ Processor.raw_summary_of e ++ py "</p>"))
  /\ (len (Processor.raw_summary_of e) <= 50 ->
      Processor.method r = Processor.unavailable
      /\ Processor.content r = py "<p>Contenu non disponible</p>").
Proof.
  intros Hr Hfail. apply process_entry_Some in Hr as (_ & _ & Hfe & Hc & _).
  destruct (fetch_and_extract_cases L cfg net e (Processor.link r) pm)
    as [(raw & Hret & Hraw & _)|[_ Heq]].
  - unfold Spec.fetch_failed in Hfail. rewrite Hret in Hfail. congruence.
  - rewrite Heq in Hfe, Hc. simpl in Hc. injection Hfe as _ _ Hm.
    destruct (fallback_content_cases (Processor.raw_summary_of e))
      as [(Hlen & Hsnd & Hfst)|[Hlen Hfb]].
    + rewrite Hsnd in Hm. rewrite Hfst in Hc. split; [|split].
      * split; auto.
      * intros _. exact Hc.
      * intros H. lia.
    + rewrite Hfb in Hm, Hc. simpl in Hm, Hc. split; [|split].
      * split; [intros H; rewrite <- Hm in H; discriminate|intros H; lia].
      * intros H. lia.
      * intros _. split; [symmetry; exact Hm|rewrite Hc; reflexivity].
Qed.

Lemma fallback_tests_raw_summary_length_witness :
  Processor.method Sample.blank_record = Processor.rss_summary
  <-> 50 < len (Processor.raw_summary_of (Sample.entry_with_summary Sample.blank_summary)).
Proof.
  refine (proj1 (fallback_tests_raw_summary_length Sample.lib default_config
                   Sample.offline (Sample.entry_with_summary Sample.blank_summary) None
                   Sample.blank_record _ _)).
  - vm_compute. reflexivity.
  - vm_compute. trivial.
Defined.

(* ===================================================================== *)
(** * Tags *)
(* ===================================================================== *)

Section TagFacts.
Import Utils Extractors Processor.

Lemma filter_length_le {A} (f : A -> bool) (l : list A) :
  (length (List.filter f l) <= length l)%nat.
Proof. induction l as [|x l IH]; simpl; [lia|]. destruct (f x); simpl; lia. Qed.

Lemma clean_tag_length (L : PyLib) (t t' : str) :
  clean_tag L t = Some t' -> 1 <= len t' <= 50.
Proof.
  unfold clean_tag. destruct (truthy t); [|discriminate]. cbn [negb].
  destruct (Z.ltb_spec (len (strip t)) 3); [discriminate|].
  destruct (Z.ltb_spec 50 (len (strip t))) as [|Hle]; [discriminate|].
  cbn [orb].
  destruct (strip (List.filter (tag_char_kept L) (strip t))) as [|c s] eqn:E;
    [discriminate|].
  simpl truthy. intros [= <-].
  pose proof (strip_length (List.filter (tag_char_kept L) (strip t))) as H1.
  pose proof (filter_length_le (tag_char_kept L) (strip t)) as H2.
  rewrite E in H1. unfold len in *. simpl length in *. lia.
Qed.

Lemma slice_to_firstn {A} (n : Z) (l : list A) :
  exists k, slice_to n l = firstn k l.
Proof. unfold slice_to. destruct (0 <=? n); eauto. Qed.





Context (L : PyLib) (cfg : Config).




End TagFacts.




(* ===================================================================== *)
(** * The final sort of the pipeline *)
(* ===================================================================== *)

Section SortFacts.
Import Processor Routes.

Lemma not_earlier_trans (a b c : EnrichedEntry) :
  Spec.not_earlier a b -> Spec.not_earlier b c -> Spec.not_earlier a c.
Proof.
  unfold Spec.not_earlier, dt_ltb. intros Hab Hbc.
  exact (str_le_trans (dt_tuple (sort_key c)) (dt_tuple (sort_key b))
           (dt_tuple (sort_key a)) Hbc Hab).
Qed.

Lemma insert_desc_Permutation (x : EnrichedEntry) (l : list EnrichedEntry) :
  insert_desc x l ≡ₚ x :: l.
Proof.
  induction l as [|y l IH]; simpl; [reflexivity|].
  destruct (dt_ltb (sort_key x) (sort_key y)); [|reflexivity].
  rewrite IH. apply Permutation_swap.
Qed.

Lemma sort_desc_Permutation (l : list EnrichedEntry) : sort_desc l ≡ₚ l.
Proof.
  induction l as [|x l IH]; simpl; [reflexivity|].
  rewrite insert_desc_Permutation, IH. reflexivity.
Qed.

Lemma insert_desc_sorted (x : EnrichedEntry) (l : list EnrichedEntry) :
  StronglySorted Spec.not_earlier l -> StronglySorted Spec.not_earlier (insert_desc x l).
Proof.
  induction 1 as [|y l Hl IH Hy]; simpl; [repeat constructor|].
  destruct (dt_ltb (sort_key x) (sort_key y)) eqn:E.
  - constructor; [exact IH|].
    rewrite insert_desc_Permutation. constructor; [|exact Hy].
    unfold Spec.not_earlier, dt_ltb in *. apply str_ltb_asym. exact E.
  - constructor; [constructor; assumption|].
    constructor; [exact E|].
    eapply Forall_impl; [exact Hy|].
    intros z Hz. eapply not_earlier_trans; [exact E|exact Hz].
Qed.

Lemma sort_desc_sorted (l : list EnrichedEntry) :
  StronglySorted Spec.not_earlier (sort_desc l).
Proof.
  induction l as [|x l IH]; simpl; [constructor|].
  apply insert_desc_sorted. exact IH.
Qed.

(** Stability: entries that cannot be told apart by their keys keep their
    relative order. *)
Lemma insert_desc_stable (p : EnrichedEntry -> bool) (x : EnrichedEntry)
    (l : list EnrichedEntry) :
  (forall a b, p a = true -> p b = true -> Spec.not_earlier a b) ->
  List.filter p (insert_desc x l) = List.filter p (x :: l).
Proof.
  intros Hp. induction l as [|y l IH]; [reflexivity|].
  cbn [insert_desc]. destruct (dt_ltb (sort_key x) (sort_key y)) eqn:E;
    [|reflexivity].
  cbn [List.filter] in *. rewrite IH.
  destruct (p x) eqn:Ex, (p y) eqn:Ey; try reflexivity.
  specialize (Hp x y Ex Ey). unfold Spec.not_earlier in Hp. congruence.
Qed.

Lemma sort_desc_stable (p : EnrichedEntry -> bool) (l : list EnrichedEntry) :
  (forall a b, p a = true -> p b = true -> Spec.not_earlier a b) ->
  List.filter p (sort_desc l) = List.filter p l.
Proof.
  intros Hp. induction l as [|x l IH]; [reflexivity|].
  cbn [sort_desc fold_right]. fold (sort_desc l).
  rewrite insert_desc_stable by exact Hp.
  cbn [List.filter]. rewrite IH. reflexivity.
Qed.

Lemma undated_same_key (a b : EnrichedEntry) :
  Spec.undated a = true -> Spec.undated b = true -> Spec.not_earlier a b.
Proof.
  unfold Spec.undated, Spec.not_earlier, sort_key.
  destruct (pub_date a), (pub_date b); try discriminate. reflexivity.
Qed.

Lemma has_key_same_key (k : datetime) (a b : EnrichedEntry) :
  Spec.has_key k a = true -> Spec.has_key k b = true -> Spec.not_earlier a b.
Proof.
  unfold Spec.has_key, Spec.not_earlier, dt_ltb. rewrite !str_eqb_eq.
  intros -> ->. apply str_ltb_irrefl.
Qed.

Lemma sorted_after (l before after : list EnrichedEntry) (x : EnrichedEntry) :
  StronglySorted Spec.not_earlier l -> l = before ++ x :: after ->
  Forall (Spec.not_earlier x) after.
Proof.
  intros Hs ->. apply StronglySorted_app in Hs as (_ & _ & Hs).
  apply StronglySorted_inv in Hs as [_ H]. exact H.
Qed.

End SortFacts.

(** C5, counterexample.  Two undated entries stand first and third in
    the feed.  When the third completes before the first it precedes it
    in the output; when the first completes first the order is the other
    way round: the order among undated entries is the completion order,
    not the feed's.  Besides, an undated entry that completes before an
    entry dated 0001-01-01 00:00:00 stays before it. *)
Lemma undated_entries_follow_completion_order :
  List.map Processor.title
    (Routes.pipeline Sample.lib default_config Sample.offline
       (Sample.request_for Sample.feed_url None None 4) Sample.sample_feed
       [2; 0; 1]%nat)
  = [py "dated"; py "third"; py "first"]
  /\ List.map Processor.title
       (Routes.pipeline Sample.lib default_config Sample.offline
          (Sample.request_for Sample.feed_url None None 4) Sample.sample_feed
          [0; 1; 2]%nat)
     = [py "dated"; py "first"; py "third"]
  /\ List.map (fun x => (Processor.title x, Spec.undated x))
       (Routes.pipeline Sample.lib default_config Sample.offline
          (Sample.request_for Sample.feed_url None None 4) Sample.ancient_feed
          [0; 1]%nat)
     = [(py "first", true); (py "ancient", false)].
Proof. repeat split; vm_compute; reflexivity. Qed.

(** C5, amended.  The output of the pipeline is a permutation of the
    collected records in which no record is followed by one with a later
    key, the key of an undated record being [datetime.min]; an undated
    record is followed only by records whose date is not later than
    [datetime.min]; and records with equal keys, the undated ones among
    them, keep the order in which they completed. *)
Theorem pipeline_output_order (L : PyLib) (cfg : Config) (net : Net)
    (req : Routes.request) (feed : Routes.ParsedFeed) (schedule : list nat) :
  Routes.pipeline L cfg net req feed schedule
    ≡ₚ Routes.collect (Routes.results L cfg net req feed) schedule
  /\ StronglySorted
       (fun a b => Routes.dt_ltb (Routes.sort_key a) (Routes.sort_key b) = false)
       (Routes.pipeline L cfg net req feed schedule)
  /\ (forall before x after,
        Routes.pipeline L cfg net req feed schedule = before ++ x :: after ->
        Processor.pub_date x = None ->
        Forall (fun y => Routes.dt_ltb Processor.datetime_min (Routes.sort_key y) = false)
          after)
  /\ List.filter Spec.undated (Routes.pipeline L cfg net req feed schedule)
     = List.filter Spec.undated
         (Routes.collect (Routes.results L cfg net req feed) schedule)
  /\ (forall k,
        List.filter (Spec.has_key k) (Routes.pipeline L cfg net req feed schedule)
        = List.filter (Spec.has_key k)
            (Routes.collect (Routes.results L cfg net req feed) schedule)).
Proof.
  unfold Routes.pipeline.
  set (processed := Routes.collect (Routes.results L cfg net req feed) schedule).
  split; [apply sort_desc_Permutation|].
  split; [apply sort_desc_sorted|].
  split; [|split].
  - intros before x after Heq Hx.
    pose proof (sorted_after _ before after x (sort_desc_sorted processed) Heq) as H.
    eapply Forall_impl; [exact H|].
    intros y Hy. unfold Spec.not_earlier, Routes.sort_key in Hy. rewrite Hx in Hy.
    exact Hy.
  - apply sort_desc_stable. exact undated_same_key.
  - intros k. apply sort_desc_stable. exact (has_key_same_key k).
Qed.

(* ===================================================================== *)
(** * The handler and the cache *)
(* ===================================================================== *)

(** C9.  The cache file of a request is named after its URL alone.  Once
    a request for a URL has missed the cache and generated a (non-empty)
    document at instant [t1'], any request for the same URL started within
    the TTL is answered with that document and leaves the cache as it is,
    whatever its preferred method, entry cap, worker count and completion
    order, and whatever the configuration, the network and the source feed
    have become. *)
Theorem cached_feed_ignores_request_parameters (L : PyLib)
    (cfg cfg' : Config) (net net' : Net) (web web' : Routes.Web)
    (d d1 : Cache.dir) (t1' t2 t2' : Z) (req1 req2 : Routes.request)
    (schedule1 schedule2 : list nat) (rss : Cache.bytes) :
  Routes.url req2 = Routes.url req1 ->
  Routes.generate L cfg net web d t1' req1 schedule1 = (d1, Routes.Response rss) ->
  rss <> [] ->
  t2 - t1' <= Cache.CACHE_TTL ->
  d1 = <[Cache.cache_key_from_url L (Routes.url req1) [] :=
           {| Cache.st_mtime := t1'; Cache.content := rss |}]> d
  /\ Routes.filter L cfg' net' web' d1 t2 t2' req2 schedule2
     = (d1, Routes.Response rss).
Proof.
  intros Hurl Hgen Hrss Hage. unfold Routes.generate in Hgen.
  destruct (Routes.fetch_feed web (Routes.url req1)) as [feed| |];
    [|discriminate|discriminate].
  destruct (Routes.entries feed); [discriminate|].
  destruct (Routes.rss_str web (Routes.url req1) feed _) as [rss0|];
    [|discriminate].
  injection Hgen as <- <-. split; [reflexivity|].
  unfold Routes.filter. rewrite Hurl, get_after_save.
  destruct (Z.ltb_spec Cache.CACHE_TTL (t2 - t1')); [lia|].
  destruct rss0; [congruence|reflexivity].
Qed.

Lemma cached_feed_ignores_request_parameters_witness :
  Routes.filter Sample.lib Sample.cloudscraper_disabled Sample.online Sample.web
    (Cache.save_cached_feed Sample.lib ∅ 10 Sample.feed_url
       [Byte.x3c; Byte.x64; Byte.x66; Byte.x74])
    100 110
    (Sample.request_for Sample.feed_url (Some (py "jina")) (Some 1) 2) [0%nat]
  = (Cache.save_cached_feed Sample.lib ∅ 10 Sample.feed_url
       [Byte.x3c; Byte.x64; Byte.x66; Byte.x74],
     Routes.Response [Byte.x3c; Byte.x64; Byte.x66; Byte.x74]).
Proof.
  refine (proj2 (cached_feed_ignores_request_parameters Sample.lib
            default_config Sample.cloudscraper_disabled
            Sample.offline Sample.online Sample.web Sample.web
            ∅ _ 10 100 110
            (Sample.request_for Sample.feed_url None None 4)
            (Sample.request_for Sample.feed_url (Some (py "jina")) (Some 1) 2)
            [0; 1; 2]%nat [0%nat] [Byte.x3c; Byte.x64; Byte.x66; Byte.x74]
            _ _ _ _)).
  - reflexivity.
  - vm_compute. reflexivity.
  - discriminate.
  - vm_compute. discriminate.
Defined.

(* ===================================================================== *)
(** * The lock around the headless browser *)
(* ===================================================================== *)

Section LockFacts.
Import Playwright.

Lemma count_insert (l : list pc) (i : nat) (p p' : pc) :
  l !! i = Some p ->
  (length (List.filter is_rendering (<[i := p']> l)) + b2n (is_rendering p)
   = length (List.filter is_rendering l) + b2n (is_rendering p'))%nat.
Proof.
  revert i. induction l as [|x l IH]; intros [|i] Hi; simpl in Hi; try discriminate.
  - injection Hi as ->. simpl.
    destruct (is_rendering p), (is_rendering p'); simpl; lia.
  - simpl. specialize (IH i Hi).
    destruct (is_rendering x); simpl; lia.
Qed.

Lemma count_one (l : list pc) (i : nat) (p : pc) :
  l !! i = Some p -> is_rendering p = true ->
  (1 <= length (List.filter is_rendering l))%nat.
Proof.
  revert i. induction l as [|x l IH]; intros [|i] Hi Hp; simpl in Hi;
    try discriminate.
  - injection Hi as ->. simpl. rewrite Hp. simpl. lia.
  - simpl. specialize (IH i Hi Hp). destruct (is_rendering x); simpl; lia.
Qed.

Lemma count_two (l : list pc) (i j : nat) (p q : pc) :
  l !! i = Some p -> l !! j = Some q -> i <> j ->
  is_rendering p = true -> is_rendering q = true ->
  (2 <= length (List.filter is_rendering l))%nat.
Proof.
  revert i j. induction l as [|x l IH]; intros [|i] [|j] Hi Hj Hne Hp Hq;
    simpl in Hi, Hj; try discriminate; try congruence.
  - injection Hi as ->. simpl. rewrite Hp. simpl.
    pose proof (count_one l j q Hj Hq). lia.
  - injection Hj as ->. simpl. rewrite Hq. simpl.
    pose proof (count_one l i p Hi Hp). lia.
  - simpl. assert (i <> j) as Hne' by congruence.
    specialize (IH i j Hi Hj Hne' Hp Hq). destruct (is_rendering x); simpl; lia.
Qed.

Lemma lock_agrees_initial (n : nat) : lock_agrees (initial n).
Proof.
  unfold lock_agrees, rendering_count, initial. simpl.
  induction n as [|n IH]; simpl; auto.
Qed.

Lemma lock_agrees_step (st st' : state) :
  lock_agrees st -> step st st' -> lock_agrees st'.
Proof.
  unfold lock_agrees, rendering_count.
  intros Hinv Hstep. destruct Hstep as [st i p lk' p' Hi Hts].
  cbn [locked threads].
  pose proof (count_insert (threads st) i p p' Hi) as Hc.
  destruct Hts as [|lk s s' _|lk|lk html|lk s _]; cbn [is_rendering b2n] in *;
    try lia.
  all: destruct lk; cbn [b2n] in *; lia.
Qed.

Lemma lock_agrees_reachable (n : nat) (st : state) :
  rtc step (initial n) st -> lock_agrees st.
Proof.
  intros H. revert st H. apply rtc_ind_r.
  - apply lock_agrees_initial.
  - intros st st' _ Hstep IH. eapply lock_agrees_step; eassumption.
Qed.

End LockFacts.

(** C10.  In every state reached by any number of concurrent calls of
    [fetch_with_playwright], at most one thread is inside the render
    call: two threads found there are the same thread.  The lock is held
    exactly while a thread is there; while it is held a caller standing
    before the [with] statement cannot move, and once it is free such a
    caller can enter. *)
Theorem render_is_mutually_exclusive (n : nat) (st : Playwright.state) :
  rtc Playwright.step (Playwright.initial n) st ->
  (forall i j s s',
      Playwright.threads st !! i = Some (Playwright.Rendering s) ->
      Playwright.threads st !! j = Some (Playwright.Rendering s') ->
      i = j)
  /\ (Playwright.rendering_count st <= 1)%nat
  /\ (Playwright.locked st = true <-> Playwright.rendering_count st = 1%nat)
  /\ (Playwright.locked st = true ->
      forall lk' p',
        ~ Playwright.thread_step (Playwright.locked st) Playwright.BeforeLock lk' p')
  /\ (Playwright.locked st = false ->
      forall i, Playwright.threads st !! i = Some Playwright.BeforeLock ->
                exists st', Playwright.step st st'
                            /\ Playwright.locked st' = true
                            /\ Playwright.threads st' !! i
                               = Some (Playwright.Rendering Playwright.Launch)).
Proof.
  intros Hreach. pose proof (lock_agrees_reachable n st Hreach) as Hinv.
  unfold Playwright.lock_agrees in Hinv.
  assert (Hle : (Playwright.rendering_count st <= 1)%nat)
    by (rewrite Hinv; destruct (Playwright.locked st); simpl; lia).
  split; [|split; [exact Hle|split; [|split]]].
  - intros i j s s' Hi Hj. destruct (decide (i = j)) as [|Hne]; [assumption|].
    pose proof (count_two (Playwright.threads st) i j _ _ Hi Hj Hne eq_refl eq_refl).
    unfold Playwright.rendering_count in Hle. lia.
  - rewrite Hinv. destruct (Playwright.locked st); simpl; split; congruence.
  - intros Hl lk' p' Hstep. rewrite Hl in Hstep. inversion Hstep.
  - intros Hl i Hi.
    exists {| Playwright.locked := true;
              Playwright.threads :=
                <[i := Playwright.Rendering Playwright.Launch]> (Playwright.threads st) |}.
    split; [|split; [reflexivity|]].
    + apply (Playwright.step_thread st i Playwright.BeforeLock); [exact Hi|].
      rewrite Hl. constructor.
    + simpl. apply list_lookup_insert_eq. eapply lookup_lt_Some. exact Hi.
Qed.

Lemma render_is_mutually_exclusive_witness :
  (Playwright.rendering_count
     {| Playwright.locked := true;
        Playwright.threads :=
          [Playwright.Rendering Playwright.Launch; Playwright.BeforeLock] |}
   <= 1)%nat.
Proof.
  refine (proj1 (proj2 (render_is_mutually_exclusive 2
            {| Playwright.locked := true;
               Playwright.threads :=
                 [Playwright.Rendering Playwright.Launch; Playwright.BeforeLock] |} _))).
  apply rtc_once.
  exact (Playwright.step_thread (Playwright.initial 2) 0 Playwright.BeforeLock
           true (Playwright.Rendering Playwright.Launch) eq_refl
           Playwright.step_acquire).
Defined.

(* ===================================================================== *)
(** * Images *)
(* ===================================================================== *)

Section ImageFacts.
Import Soup Utils Extractors.
Context (L : PyLib) (cfg : Config).

(** A property of the dictionary that every statement of a block keeps
    holds when the block ends, whether it ran to its end or raised. *)
Lemma run_block_preserves (P : images -> Prop) (block : list stmt) (r : images) :
  P r ->
  Forall (fun s => forall r0 r1, P r0 -> s r0 = Some r1 -> P r1) block ->
  P (run_block block r).
Proof.
  intros Hr Hblock. revert r Hr.
  induction Hblock as [|s block Hs _ IH]; intros r Hr; simpl; [exact Hr|].
  destruct (s r) as [r'|] eqn:E; [|exact Hr].
  apply IH. eapply Hs; eassumption.
Qed.

Lemma assign_from_cases (set : str -> images -> images) (tag : option node)
    (k base_url : str) (r r' : images) :
  assign_from L set tag k base_url r = Some r' ->
  r' = r \/ exists v u, make_absolute_url L v base_url = Some u /\ r' = set u r.
Proof.
  unfold assign_from, assign. intros H.
  destruct tag as [t|]; [|injection H as <-; auto].
  destruct (get_truthy k t) as [v|]; [|injection H as <-; auto].
  destruct (make_absolute_url L v base_url) as [u|] eqn:E; [|discriminate].
  injection H as <-. right. eauto.
Qed.

Lemma get_truthy_truthy (k : str) (n : node) (v : str) :
  get_truthy k n = Some v -> truthy v = true.
Proof.
  unfold get_truthy. destruct (get k n) as [v'|]; [|discriminate].
  destruct (truthy v') eqn:E; [|discriminate]. intros [= <-]. exact E.
Qed.

Lemma assign_truthy (set : str -> images -> images) (v base_url : str) (r : images) :
  truthy v = true ->
  assign L set v base_url r
  = match urljoin L base_url v with
    | Some u => Some (set u r)
    | None => None
    end.
Proof. intros Hv. unfold assign, make_absolute_url. rewrite Hv. reflexivity. Qed.

Lemma og_image_value_truthy (soup : node) (v : str) :
  Spec.og_image_value soup = Some v -> truthy v = true.
Proof.
  unfold Spec.og_image_value. destruct (find _ soup); [|discriminate].
  apply get_truthy_truthy.
Qed.

Lemma twitter_image_value_truthy (soup : node) (v : str) :
  Spec.twitter_image_value soup = Some v -> truthy v = true.
Proof.
  unfold Spec.twitter_image_value. destruct (find _ soup); [|discriminate].
  apply get_truthy_truthy.
Qed.

Lemma first_img_value_truthy (soup : node) (v : str) :
  Spec.first_img_value L soup = Some v -> truthy v = true.
Proof.
  unfold Spec.first_img_value. destruct (article_container soup); [|discriminate].
  destruct (find _ _) as [img|]; [|discriminate].
  destruct (get_truthy (py "src") img) as [src|] eqn:E; [|discriminate].
  destruct (unwanted_src L src); [discriminate|]. intros [= <-].
  eapply get_truthy_truthy. exact E.
Qed.

(** The first three statements, read through the three sources. *)
Lemma og_image_stmt_eq (soup : node) (base_url : str) (r : images) :
  og_image_stmt L soup base_url r
  = match Spec.og_image_value soup with
    | Some v => assign L set_article_image v base_url r
    | None => Some r
    end.
Proof.
  unfold og_image_stmt, assign_from, Spec.og_image_value.
  destruct (find _ soup); reflexivity.
Qed.

Lemma twitter_image_stmt_eq (soup : node) (base_url : str) (r : images) :
  twitter_image_stmt L soup base_url r
  = if unset (article_image r) then
      match Spec.twitter_image_value soup with
      | Some v => assign L set_article_image v base_url r
      | None => Some r
      end
    else Some r.
Proof.
  unfold twitter_image_stmt, assign_from, Spec.twitter_image_value.
  destruct (unset (article_image r)); [|reflexivity].
  destruct (find _ soup); reflexivity.
Qed.

Lemma first_img_stmt_eq (soup : node) (base_url : str) (r : images) :
  first_img_stmt L soup base_url r
  = if unset (article_image r) then
      match Spec.first_img_value L soup with
      | Some v => assign L set_article_image v base_url r
      | None => Some r
      end
    else Some r.
Proof.
  unfold first_img_stmt, Spec.first_img_value.
  destruct (unset (article_image r)); [|reflexivity].
  destruct (article_container soup); [|reflexivity].
  destruct (find _ _) as [img|]; [|reflexivity].
  destruct (get_truthy (py "src") img) as [src|]; [|reflexivity].
  destruct (unwanted_src L src); reflexivity.
Qed.

(** The statements after the third never assign [article_image]. *)
Lemma later_stmts_keep_article_image (soup : node) (base_url base_domain : str)
    (x : option str) :
  Forall (fun s : stmt => forall r0 r1,
            article_image r0 = x -> s r0 = Some r1 -> article_image r1 = x)
    [ og_logo_stmt L soup base_url; header_logo_stmt L soup base_url;
      apple_icon_stmt L soup base_url; icon_stmt L soup base_url;
      default_favicon_stmt base_domain; logo_fallback_stmt ].
Proof.
  repeat constructor; intros r0 r1 Hx H.
  - apply assign_from_cases in H as [->|(v & u & _ & ->)]; exact Hx.
  - unfold header_logo_stmt, assign in H.
    destruct (unset (site_logo r0)); [|injection H as <-; exact Hx].
    destruct (find _ soup) as [header|]; [|injection H as <-; exact Hx].
    destruct (find _ header) as [img|]; [|injection H as <-; exact Hx].
    destruct (get (py "src") img); [|discriminate].
    destruct (make_absolute_url L _ base_url); [|discriminate].
    injection H as <-. exact Hx.
  - apply assign_from_cases in H as [->|(v & u & _ & ->)]; exact Hx.
  - unfold icon_stmt in H.
    destruct (unset (favicon r0)); [|injection H as <-; exact Hx].
    apply assign_from_cases in H as [->|(v & u & _ & ->)]; exact Hx.
  - unfold default_favicon_stmt in H.
    destruct (unset (favicon r0)); injection H as <-; exact Hx.
  - unfold logo_fallback_stmt in H.
    destruct (unset (site_logo r0) && negb (unset (favicon r0)));
      [|injection H as <-; exact Hx].
    destruct (favicon r0); injection H as <-; exact Hx.
Qed.

Lemma run_later_keeps_article_image (soup : node) (base_url base_domain : str)
    (r : images) :
  article_image
    (run_block
       [ og_logo_stmt L soup base_url; header_logo_stmt L soup base_url;
         apple_icon_stmt L soup base_url; icon_stmt L soup base_url;
         default_favicon_stmt base_domain; logo_fallback_stmt ] r)
  = article_image r.
Proof.
  apply (run_block_preserves (fun r' => article_image r' = article_image r));
    [reflexivity|].
  apply later_stmts_keep_article_image.
Qed.

(** An element of an element of the page is an element of the page. *)
Lemma node_ind_nested (P : node -> Prop) :
  (forall s, P (Text s)) ->
  (forall nm a cs, Forall P cs -> P (Tag nm a cs)) ->
  forall n, P n.
Proof.
  intros Htext Htag. fix IH 1. intros [s|nm a cs]; [apply Htext|].
  apply Htag. induction cs as [|c cs IHcs].
  - apply List.Forall_nil.
  - apply List.Forall_cons; [apply IH|exact IHcs].
Qed.

Lemma descendants_trans (root a b : node) :
  In a (descendants root) -> In b (descendants a) -> In b (descendants root).
Proof.
  revert a b. induction root as [s|nm attrs cs IH] using node_ind_nested;
    intros a b Ha Hb; [destruct Ha|].
  cbn [descendants] in *.
  induction IH as [|c cs Hc _ IHcs]; [destruct Ha|].
  destruct Ha as [<-|Ha].
  - right. apply in_or_app. left. exact Hb.
  - right. apply in_or_app. apply in_app_or in Ha as [Ha|Ha].
    + left. eapply Hc; eassumption.
    + right. apply IHcs. exact Ha.
Qed.

Lemma find_in (p : node -> bool) (root x : node) :
  find p root = Some x -> In x (descendants root).
Proof. intros H. apply List.find_some in H as [H _]. exact H. Qed.

Lemma get_truthy_get (k : str) (n : node) (v : str) :
  get_truthy k n = Some v -> get k n = Some v.
Proof.
  unfold get_truthy. destruct (get k n) as [v'|]; [|discriminate].
  destruct (truthy v'); [|discriminate]. intros [= <-]. reflexivity.
Qed.

Lemma resolved_set (soup : node) (base_url u : str) (r : images) :
  Spec.resolved_against L soup base_url u -> Spec.all_resolved L soup base_url r ->
  Spec.all_resolved L soup base_url (set_article_image u r)
  /\ Spec.all_resolved L soup base_url (set_site_logo u r)
  /\ Spec.all_resolved L soup base_url (set_favicon u r).
Proof.
  intros Hu Hr. unfold Spec.all_resolved in *.
  repeat split; intros u' [H|[H|H]]; simpl in H;
    try (injection H as <-; exact Hu); apply Hr; auto.
Qed.

(** An assignment of the resolved value of an attribute of the page. *)
Lemma assign_keeps_resolved (soup : node) (set : str -> images -> images)
    (v base_url : str) (r r' : images) :
  (forall u r0, Spec.resolved_against L soup base_url u ->
                Spec.all_resolved L soup base_url r0 ->
                Spec.all_resolved L soup base_url (set u r0)) ->
  Spec.attribute_value soup v ->
  Spec.all_resolved L soup base_url r ->
  assign L set v base_url r = Some r' ->
  Spec.all_resolved L soup base_url r'.
Proof.
  intros Hset Hv Hr. unfold assign, make_absolute_url.
  destruct v as [|c v]; cbn [truthy negb].
  - intros [= <-]. apply Hset; [|exact Hr]. right. left. auto.
  - destruct (urljoin L base_url (c :: v)) as [u|] eqn:E; [|discriminate].
    intros [= <-]. apply Hset; [|exact Hr]. left. exists (c :: v). auto.
Qed.

Lemma assign_from_keeps_resolved (soup : node) (set : str -> images -> images)
    (tag : option node) (k base_url : str) (r r' : images) :
  (forall u r0, Spec.resolved_against L soup base_url u ->
                Spec.all_resolved L soup base_url r0 ->
                Spec.all_resolved L soup base_url (set u r0)) ->
  (forall t, tag = Some t -> In t (descendants soup)) ->
  In k [py "content"; py "src"; py "href"] ->
  Spec.all_resolved L soup base_url r ->
  assign_from L set tag k base_url r = Some r' ->
  Spec.all_resolved L soup base_url r'.
Proof.
  intros Hset Htag Hk Hr. unfold assign_from.
  destruct tag as [t|]; [|intros [= <-]; exact Hr].
  destruct (get_truthy k t) as [v|] eqn:E; [|intros [= <-]; exact Hr].
  apply assign_keeps_resolved; [exact Hset| |exact Hr].
  exists t, k. split; [apply Htag; reflexivity|]. split; [exact Hk|].
  apply get_truthy_get. exact E.
Qed.

(** Every statement of the block keeps the returned URLs resolved. *)
Lemma block_keeps_resolved (soup : node) (base_url scheme netloc : str) :
  urlparse L base_url = Some (scheme, netloc) ->
  Forall (fun s : stmt => forall r0 r1,
            Spec.all_resolved L soup base_url r0 -> s r0 = Some r1 ->
            Spec.all_resolved L soup base_url r1)
    (images_block L soup base_url (scheme ++ py "://" ++ netloc)).
Proof.
  intros Hparse.
  assert (Ha : forall u r0, Spec.resolved_against L soup base_url u ->
                 Spec.all_resolved L soup base_url r0 ->
                 Spec.all_resolved L soup base_url (set_article_image u r0))
    by (intros; apply resolved_set; assumption).
  assert (Hl : forall u r0, Spec.resolved_against L soup base_url u ->
                 Spec.all_resolved L soup base_url r0 ->
                 Spec.all_resolved L soup base_url (set_site_logo u r0))
    by (intros; apply resolved_set; assumption).
  assert (Hf : forall u r0, Spec.resolved_against L soup base_url u ->
                 Spec.all_resolved L soup base_url r0 ->
                 Spec.all_resolved L soup base_url (set_favicon u r0))
    by (intros; apply resolved_set; assumption).
  assert (Hfound : forall p t, find p soup = Some t -> In t (descendants soup))
    by (intros p t; apply find_in).
  assert (Hcontent : In (py "content") [py "content"; py "src"; py "href"])
    by (left; reflexivity).
  assert (Hsrc : In (py "src") [py "content"; py "src"; py "href"])
    by (right; left; reflexivity).
  assert (Hhref : In (py "href") [py "content"; py "src"; py "href"])
    by (right; right; left; reflexivity).
  unfold images_block.
  repeat apply List.Forall_cons; try apply List.Forall_nil; intros r0 r1 Hr H.
  - unfold og_image_stmt in H.
    exact (assign_from_keeps_resolved _ _ _ _ _ _ _ Ha (Hfound _) Hcontent Hr H).
  - unfold twitter_image_stmt in H.
    destruct (unset (article_image r0)); [|injection H as <-; exact Hr].
    exact (assign_from_keeps_resolved _ _ _ _ _ _ _ Ha (Hfound _) Hcontent Hr H).
  - unfold first_img_stmt in H.
    destruct (unset (article_image r0)); [|injection H as <-; exact Hr].
    destruct (article_container soup) as [container|] eqn:Ec;
      [|injection H as <-; exact Hr].
    destruct (find is_img_with_src container) as [img|] eqn:Ei;
      [|injection H as <-; exact Hr].
    destruct (get_truthy (py "src") img) as [src|] eqn:Es;
      [|injection H as <-; exact Hr].
    destruct (unwanted_src L src); [injection H as <-; exact Hr|].
    refine (assign_keeps_resolved _ _ _ _ _ _ Ha _ Hr H).
    exists img, (py "src"). split; [|split; [exact Hsrc|apply get_truthy_get; exact Es]].
    apply (descendants_trans soup container); [|eapply find_in; exact Ei].
    unfold article_container in Ec.
    destruct (find (is_tag (py "article")) soup) as [a|] eqn:Ea.
    + injection Ec as <-. eapply find_in. exact Ea.
    + eapply find_in. exact Ec.
  - unfold og_logo_stmt in H.
    exact (assign_from_keeps_resolved _ _ _ _ _ _ _ Hl (Hfound _) Hcontent Hr H).
  - unfold header_logo_stmt in H.
    destruct (unset (site_logo r0)); [|injection H as <-; exact Hr].
    destruct (find (is_tag (py "header")) soup) as [header|] eqn:Eh;
      [|injection H as <-; exact Hr].
    destruct (find _ header) as [img|] eqn:Ei; [|injection H as <-; exact Hr].
    destruct (get (py "src") img) as [v|] eqn:Ev; [|discriminate].
    refine (assign_keeps_resolved _ _ _ _ _ _ Hl _ Hr H).
    exists img, (py "src"). split; [|split; [exact Hsrc|exact Ev]].
    apply (descendants_trans soup header); eapply find_in; eassumption.
  - unfold apple_icon_stmt in H.
    exact (assign_from_keeps_resolved _ _ _ _ _ _ _ Hf (Hfound _) Hhref Hr H).
  - unfold icon_stmt in H.
    destruct (unset (favicon r0)); [|injection H as <-; exact Hr].
    exact (assign_from_keeps_resolved _ _ _ _ _ _ _ Hf (Hfound _) Hhref Hr H).
  - unfold default_favicon_stmt in H.
    destruct (unset (favicon r0)); injection H as <-; [|exact Hr].
    apply Hf; [|exact Hr]. right. right. exists scheme, netloc.
    split; [exact Hparse|]. unfold default_favicon.
    rewrite <- !app_assoc. reflexivity.
  - unfold logo_fallback_stmt in H.
    destruct (unset (site_logo r0) && negb (unset (favicon r0)));
      [|injection H as <-; exact Hr].
    destruct (favicon r0) as [f|] eqn:Ef; injection H as <-; [|exact Hr].
    apply Hl; [|exact Hr]. apply Hr. auto.
Qed.

Lemma no_images_resolved (soup : node) (base_url : str) :
  Spec.all_resolved L soup base_url no_images.
Proof. intros u [H|[H|H]]; discriminate H. Qed.

Lemma extract_images_resolved (html base_url : str) (soup : node) :
  BeautifulSoup L html = Some soup ->
  Spec.all_resolved L soup base_url (extract_images L cfg html base_url).
Proof.
  intros Hsoup. unfold extract_images.
  destruct (negb (BS4_AVAILABLE cfg) || negb (truthy html));
    [apply no_images_resolved|].
  rewrite Hsoup. unfold images_of_soup.
  destruct (urlparse L base_url) as [[scheme netloc]|] eqn:E;
    [|apply no_images_resolved].
  apply run_block_preserves; [apply no_images_resolved|].
  apply block_keeps_resolved. exact E.
Qed.

(** The value of [article_image] once the first three statements ran. *)
Lemma article_image_of_block (soup : node) (base_url base_domain : str)
    (r3 : images) (x : option str) :
  (match og_image_stmt L soup base_url no_images with
   | Some r1 =>
       match twitter_image_stmt L soup base_url r1 with
       | Some r2 => first_img_stmt L soup base_url r2
       | None => None
       end
   | None => None
   end) = Some r3 ->
  article_image r3 = x ->
  article_image (run_block (images_block L soup base_url base_domain) no_images)
  = x.
Proof.
  unfold images_block. cbn [run_block].
  destruct (og_image_stmt L soup base_url no_images) as [r1|]; [|discriminate].
  destruct (twitter_image_stmt L soup base_url r1) as [r2|]; [|discriminate].
  intros -> <-. apply run_later_keeps_article_image.
Qed.

End ImageFacts.

(** C8, counterexample.  The page has no Open Graph and no Twitter image;
    its article holds a logo followed by a photo.  The first image whose
    [src] names no icon, logo, avatar or emoji is the photo, yet
    [article_image] is left unset: only the first image is looked at.
    Besides, for the base URL [/post/1], which has no scheme and no host,
    the image and the favicon returned for the Open Graph page have no
    scheme: they are not absolute.  And for an absolute base URL, a page
    whose header logo has an empty [src] and whose touch icon has an
    [href] on which [urljoin] raises is given the empty string as its
    site logo. *)
Lemma second_img_is_not_considered :
  (BeautifulSoup Sample.lib Sample.page_two_imgs = Some Sample.soup_two_imgs
   /\ Spec.og_image_value Sample.soup_two_imgs = None
   /\ Spec.twitter_image_value Sample.soup_two_imgs = None
   /\ Spec.first_img_without_unwanted Sample.lib Sample.soup_two_imgs
      = Some (py "/media/photo.jpg")
   /\ Extractors.article_image
        (Extractors.extract_images Sample.lib default_config Sample.page_two_imgs
           (py "https://example.org/post/1"))
      = None)
  /\ (Extractors.extract_images Sample.lib default_config Sample.page_og
        (py "/post/1")
      = {| Extractors.article_image := Some (py "/og.png");
           Extractors.site_logo := Some (py ":///favicon.ico");
           Extractors.favicon := Some (py ":///favicon.ico") |}
      /\ Spec.is_absolute_url Sample.lib (py "/og.png") = false
      /\ Spec.is_absolute_url Sample.lib (py ":///favicon.ico") = false)
  /\ (urljoin Sample2.lib (py "https://example.org/post/1") (py "http://[") = None
      /\ Extractors.extract_images Sample2.lib default_config Sample2.page_empty_logo
           (py "https://example.org/post/1")
         = {| Extractors.article_image := None;
              Extractors.site_logo := Some [];
              Extractors.favicon := None |}).
Proof. repeat split; vm_compute; reflexivity. Qed.

(** C8, amended.  On a page the parser accepts and a base URL
    [urlparse] accepts, [article_image] is the first of these that
    applies: the non-empty [content] of the first Open Graph image meta,
    resolved; else that of the first Twitter-card image meta, resolved;
    else the non-empty [src] of the first [<img src>] inside the first
    [<article>] (or, without one, the first [<main>]), resolved, provided
    that this one [src], lower-cased, contains none of icon, logo, avatar,
    emoji; else it is unset.  Resolved means joined to the base URL by
    [urljoin].  Every URL of the result is [urljoin] of the base URL and
    a non-empty [content], [src] or [href] value of an element of the
    page, or the empty string when the page has such an attribute that is
    empty, or the default [scheme://netloc/favicon.ico] of the base URL.
    Whenever [urljoin] gives URLs with a scheme for the base URL, and the
    default favicon has one, every non-empty URL of the result has a
    scheme. *)
Theorem article_image_resolution (L : PyLib) (cfg : Config)
    (html base_url : str) (soup : node) :
  BS4_AVAILABLE cfg = true -> truthy html = true ->
  BeautifulSoup L html = Some soup -> urlparse L base_url <> None ->
  (forall v u,
      Spec.og_image_value soup = Some v ->
      urljoin L base_url v = Some u -> truthy u = true ->
      Extractors.article_image (Extractors.extract_images L cfg html base_url)
      = Some u)
  /\ (forall v u,
        Spec.og_image_value soup = None ->
        Spec.twitter_image_value soup = Some v ->
        urljoin L base_url v = Some u -> truthy u = true ->
        Extractors.article_image (Extractors.extract_images L cfg html base_url)
        = Some u)
  /\ (forall v u,
        Spec.og_image_value soup = None ->
        Spec.twitter_image_value soup = None ->
        Spec.first_img_value L soup = Some v ->
        urljoin L base_url v = Some u ->
        Extractors.article_image (Extractors.extract_images L cfg html base_url)
        = Some u)
  /\ (Spec.og_image_value soup = None ->
      Spec.twitter_image_value soup = None ->
      Spec.first_img_value L soup = None ->
      Extractors.article_image (Extractors.extract_images L cfg html base_url)
      = None)
  /\ Spec.all_resolved L soup base_url
       (Extractors.extract_images L cfg html base_url)
  /\ ((forall v u, urljoin L base_url v = Some u ->
                   Spec.is_absolute_url L u = true) ->
      (forall scheme netloc,
          urlparse L base_url = Some (scheme, netloc) ->
          Spec.is_absolute_url L (scheme ++ py "://" ++ netloc ++ py "/favicon.ico")
          = true) ->
      forall u,
        Extractors.article_image (Extractors.extract_images L cfg html base_url)
        = Some u
        \/ Extractors.site_logo (Extractors.extract_images L cfg html base_url)
           = Some u
        \/ Extractors.favicon (Extractors.extract_images L cfg html base_url)
           = Some u ->
        truthy u = true ->
        Spec.is_absolute_url L u = true).
Proof.
  intros Hbs Hhtml Hsoup Hparse.
  split; [|split; [|split; [|split; [|split]]]];
    [| | | |apply extract_images_resolved; exact Hsoup|].
  5: { intros Hjoin Hdefault u Hu Htruthy.
       destruct (extract_images_resolved L cfg html base_url soup Hsoup u Hu)
         as [(v & _ & _ & Hv)|[[-> _]|(scheme & netloc & Hp & ->)]].
       - eapply Hjoin. exact Hv.
       - discriminate Htruthy.
       - apply Hdefault. exact Hp. }
  all: unfold Extractors.extract_images, Extractors.images_of_soup;
    rewrite Hbs, Hhtml, Hsoup; cbn [negb orb];
    destruct (urlparse L base_url) as [[scheme netloc]|]; [|congruence].
  - intros v u Hog Hjoin Hu. eapply article_image_of_block.
    + rewrite og_image_stmt_eq, Hog, assign_truthy, Hjoin
        by (eapply og_image_value_truthy; eassumption).
      rewrite twitter_image_stmt_eq. cbn. rewrite Hu. cbn.
      rewrite first_img_stmt_eq. cbn. rewrite Hu. reflexivity.
    + reflexivity.
  - intros v u Hog Htw Hjoin Hu. eapply article_image_of_block.
    + rewrite og_image_stmt_eq, Hog, twitter_image_stmt_eq. cbn.
      rewrite Htw, assign_truthy, Hjoin
        by (eapply twitter_image_value_truthy; eassumption).
      rewrite first_img_stmt_eq. cbn. rewrite Hu. reflexivity.
    + reflexivity.
  - intros v u Hog Htw Himg Hjoin. eapply article_image_of_block.
    + rewrite og_image_stmt_eq, Hog, twitter_image_stmt_eq. cbn.
      rewrite Htw, first_img_stmt_eq. cbn.
      rewrite Himg, assign_truthy, Hjoin
        by (eapply first_img_value_truthy; eassumption).
      reflexivity.
    + reflexivity.
  - intros Hog Htw Himg. eapply article_image_of_block.
    + rewrite og_image_stmt_eq, Hog, twitter_image_stmt_eq. cbn.
      rewrite Htw, first_img_stmt_eq. cbn. rewrite Himg. reflexivity.
    + reflexivity.
Qed.

(** The sample [urljoin] gives URLs with a scheme for the sample base. *)
Lemma sample_join_keeps_scheme (v u : str) :
  urljoin Sample.lib (py "https://example.org/post/1") v = Some u ->
  Spec.is_absolute_url Sample.lib u = true.
Proof.
  cbn [urljoin Sample.lib]. unfold Sample.join_url.
  destruct (startswith (py "https://") v) eqn:Es; cbn [orb].
  - intros [= <-]. unfold Spec.is_absolute_url. cbn [urlparse Sample.lib].
    unfold Sample.parse_url. rewrite Es. reflexivity.
  - destruct (startswith (py "http://") v) eqn:Eh.
    + intros [= <-]. unfold Spec.is_absolute_url. cbn [urlparse Sample.lib].
      unfold Sample.parse_url. rewrite Es, Eh. reflexivity.
    + destruct (startswith (py "/") v && negb (startswith (py "//") v));
        [|discriminate].
      change (Sample.parse_url (py "https://example.org/post/1"))
        with (Some (py "https", py "example.org")).
      intros [= <-]. reflexivity.
Qed.

Lemma article_image_resolution_witness :
  Extractors.article_image
    (Extractors.extract_images Sample.lib default_config Sample.page_og
       (py "https://example.org/post/1"))
  = Some (py "https://example.org/og.png")
  /\ Spec.is_absolute_url Sample.lib (py "https://example.org/favicon.ico") = true.
Proof.
  assert (Hparse : urlparse Sample.lib (py "https://example.org/post/1") <> None)
    by (vm_compute; discriminate).
  pose proof (article_image_resolution Sample.lib default_config
                Sample.page_og (py "https://example.org/post/1")
                Sample.soup_og eq_refl eq_refl eq_refl Hparse)
    as (Hog & _ & _ & _ & _ & Habs).
  split.
  - apply (Hog (py "/og.png")); vm_compute; reflexivity.
  - apply Habs.
    + exact sample_join_keeps_scheme.
    + intros scheme netloc Hp. vm_compute in Hp. injection Hp as <- <-. reflexivity.
    + right. right. vm_compute. reflexivity.
    + reflexivity.
Defined.

(* ===================================================================== *)
(** * Further properties: [api/core/utils.py] *)
(* ===================================================================== *)

Section UtilsFacts.
Import Utils.

Lemma filter_all_true {A} (f : A -> bool) (l : list A) :
  Forall (fun x => f x = true) l -> List.filter f l = l.
Proof.
  induction 1 as [|x l Hx _ IH]; simpl; [reflexivity|]. rewrite Hx, IH. reflexivity.
Qed.

Lemma filter_nil_iff {A} (f : A -> bool) (l : list A) :
  List.filter f l = [] <-> Forall (fun x => f x = false) l.
Proof.
  induction l as [|x l IH]; simpl.
  - split; [constructor|reflexivity].
  - destruct (f x) eqn:E; split.
    + discriminate.
    + intros H. apply Forall_cons_1 in H as [H _]. congruence.
    + intros H. constructor; [exact E|apply IH; exact H].
    + intros H. apply Forall_cons_1 in H as [_ H]. apply IH; exact H.
Qed.

Lemma filter_filter_same {A} (f : A -> bool) (l : list A) :
  List.filter f (List.filter f l) = List.filter f l.
Proof.
  apply filter_all_true. apply Forall_forall. intros x Hx.
  apply list_elem_of_In, filter_In in Hx as [_ Hx]. exact Hx.
Qed.

Lemma strip_tags_from_length (inside : bool) (s : str) :
  (length (strip_tags_from inside s) <= length s)%nat.
Proof.
  revert inside. induction s as [|c s IH]; intros inside; simpl; [lia|].
  destruct inside.
  - specialize (IH (negb (char_eqb c GT))). lia.
  - destruct (char_eqb c LT && opens_tag s).
    + specialize (IH true). lia.
    + specialize (IH false). simpl. lia.
Qed.

Lemma strip_tags_no_lt (s : str) : ~ In LT s -> strip_tags s = s.
Proof.
  unfold strip_tags. induction s as [|c s IH]; intros Hno; simpl; [reflexivity|].
  destruct (char_eqb c LT) eqn:E.
  - apply char_eqb_eq in E. subst. exfalso. apply Hno. left. reflexivity.
  - cbn [andb]. f_equal. apply IH. intros H. apply Hno. right. exact H.
Qed.

(** What [lstrip] and [rstrip] cut off. *)
Lemma lstrip_suffix (s : str) :
  exists sp, s = sp ++ lstrip s /\ Forall (fun c => is_space c = true) sp.
Proof.
  induction s as [|c s (sp & Hs & Hsp)]; [exists []; split; [reflexivity|constructor]|].
  simpl. destruct (is_space c) eqn:E.
  - exists (c :: sp). split; [simpl; f_equal; exact Hs|constructor; assumption].
  - exists []. split; [reflexivity|constructor].
Qed.

Lemma lstrip_head (s : str) (c : char) (s' : str) :
  lstrip s = c :: s' -> is_space c = false.
Proof.
  induction s as [|x s IH]; simpl; [discriminate|].
  destruct (is_space x) eqn:E; [exact IH|]. intros [= <- _]. exact E.
Qed.

Lemma lstrip_fixed (c : char) (s : str) :
  is_space c = false -> lstrip (c :: s) = c :: s.
Proof. intros H. simpl. rewrite H. reflexivity. Qed.

Lemma lstrip_idem (s : str) : lstrip (lstrip s) = lstrip s.
Proof.
  destruct (lstrip s) as [|c s'] eqn:E; [reflexivity|].
  apply lstrip_fixed. eapply lstrip_head. exact E.
Qed.

Lemma rstrip_prefix (s : str) :
  exists sp, s = rstrip s ++ sp /\ Forall (fun c => is_space c = true) sp.
Proof.
  unfold rstrip. destruct (lstrip_suffix (rev s)) as (sp & Hs & Hsp).
  exists (rev sp). split.
  - rewrite <- rev_app_distr, <- Hs, rev_involutive. reflexivity.
  - apply Forall_forall. intros c Hc. rewrite Forall_forall in Hsp.
    apply Hsp. apply list_elem_of_In. apply in_rev. apply list_elem_of_In. exact Hc.
Qed.

Lemma rstrip_idem (s : str) : rstrip (rstrip s) = rstrip s.
Proof. unfold rstrip. rewrite rev_involutive, lstrip_idem. reflexivity. Qed.

Lemma rstrip_keeps_head (c : char) (s : str) :
  is_space c = false -> exists s', rstrip (c :: s) = c :: s'.
Proof.
  intros Hc. destruct (rstrip_prefix (c :: s)) as (sp & Hs & Hsp).
  destruct (rstrip (c :: s)) as [|x s'] eqn:E.
  - simpl in Hs. subst sp. apply Forall_cons_1 in Hsp as [H _]. congruence.
  - injection Hs as -> _. eauto.
Qed.

Lemma strip_head (s : str) (c : char) (s' : str) :
  strip s = c :: s' -> is_space c = false.
Proof.
  unfold strip. destruct (lstrip s) as [|x t] eqn:E.
  - unfold rstrip. simpl. discriminate.
  - pose proof (lstrip_head s x t E) as Hx.
    destruct (rstrip_keeps_head x t Hx) as [t' Ht]. rewrite Ht.
    intros [= <- _]. exact Hx.
Qed.

Lemma strip_idem (s : str) : strip (strip s) = strip s.
Proof.
  destruct (strip s) as [|c s'] eqn:E; [reflexivity|].
  unfold strip at 1. rewrite lstrip_fixed by (eapply strip_head; exact E).
  rewrite <- E. unfold strip. apply rstrip_idem.
Qed.

Lemma strip_sublist (s : str) (c : char) : In c (strip s) -> In c s.
Proof.
  unfold strip. intros H.
  destruct (rstrip_prefix (lstrip s)) as (sp1 & H1 & _).
  destruct (lstrip_suffix s) as (sp2 & H2 & _).
  rewrite H2. apply in_or_app. right. rewrite H1. apply in_or_app. left. exact H.
Qed.

End UtilsFacts.

(** X1.  [clean_html] returns the empty string exactly for the non-empty
    inputs made only of characters of its class; cleaning a second time
    changes nothing, except for those inputs, which the second pass turns
    into the placeholder. *)
Theorem clean_html_twice (html : str) :
  (Utils.clean_html html = []
   <-> html <> [] /\ Forall (fun c => Utils.in_control_class c = true) html)
  /\ Utils.clean_html (Utils.clean_html html)
     = match Utils.clean_html html with
       | [] => Utils.PLACEHOLDER
       | _ :: _ => Utils.clean_html html
       end.
Proof.
  split.
  - destruct html as [|c s].
    + split; [discriminate|]. intros [H _]. congruence.
    + rewrite clean_html_cons. split.
      * intros H. apply filter_nil_iff in H. split; [discriminate|].
        eapply Forall_impl; [exact H|]. intros x Hx. apply negb_false_iff. exact Hx.
      * intros [_ H]. apply filter_nil_iff. eapply Forall_impl; [exact H|].
        intros x Hx. simpl. rewrite Hx. reflexivity.
  - destruct html as [|c s]; [reflexivity|].
    rewrite clean_html_cons.
    destruct (List.filter _ (c :: s)) as [|x l] eqn:E; [reflexivity|].
    rewrite clean_html_cons, <- E. apply filter_filter_same.
Qed.

(** X2.  A content that [is_content_complete] accepts is not empty and
    has at least [min_length] characters, whatever the sign of
    [min_length]; it is accepted for every smaller threshold; and on a
    content without ['<'] the test only compares the stripped length. *)
Theorem is_content_complete_bounds (content : str) (min_length : Z) :
  (Utils.is_content_complete content min_length = true ->
     truthy content = true /\ min_length <= len content
     /\ forall m, m <= min_length -> Utils.is_content_complete content m = true)
  /\ (~ In Utils.LT content -> content <> [] ->
      Utils.is_content_complete content min_length
      = (min_length <=? len (strip content))).
Proof.
  unfold Utils.is_content_complete. split.
  - destruct (truthy content) eqn:E; cbn [negb]; [|discriminate].
    intros H. apply Z.leb_le in H. split; [reflexivity|]. split.
    + pose proof (strip_length (Utils.strip_tags content)) as H1.
      pose proof (strip_tags_from_length false content) as H2.
      unfold Utils.strip_tags in *. unfold len in *. lia.
    + intros m Hm. apply Z.leb_le. lia.
  - intros Hno Hne. destruct content as [|c s]; [congruence|].
    cbn [truthy negb]. rewrite strip_tags_no_lt by exact Hno. reflexivity.
Qed.

Lemma is_content_complete_bounds_witness :
  truthy (py "<p>Hello</p>") = true /\ 5 <= len (py "<p>Hello</p>")
  /\ forall m, m <= 5 -> Utils.is_content_complete (py "<p>Hello</p>") m = true.
Proof.
  apply (proj1 (is_content_complete_bounds (py "<p>Hello</p>") 5)).
  reflexivity.
Defined.

(** X3.  When the Markdown converter raises, the HTML [markdown_to_html]
    returns holds no line feed; and it is the empty string exactly when
    the text is not empty and every block between two consecutive line
    feeds holds only white space. *)
Theorem markdown_fallback_has_no_line_feed (L : PyLib) (markdown_text : str) :
  markdown L markdown_text = None ->
  ~ In LF (Utils.markdown_to_html L markdown_text)
  /\ (Utils.markdown_to_html L markdown_text = []
      <-> markdown_text <> []
          /\ Forall (fun p => strip p = []) (split_blank_lines [] markdown_text)).
Proof.
  intros Hraise. unfold Utils.markdown_to_html. rewrite Hraise.
  destruct markdown_text as [|c0 s0]; cbn [truthy negb].
  - split; [vm_compute; intuition discriminate|].
    split; [discriminate|]. intros [H _]. congruence.
  - set (s := c0 :: s0). split.
    + unfold Utils.paragraphs_html. intros Hin.
      apply in_concat in Hin as (piece & Hpiece & Hin).
      apply in_map_iff in Hpiece as (p & <- & _).
      apply in_app_or in Hin as [Hin|Hin]; [vm_compute in Hin; intuition discriminate|].
      apply in_app_or in Hin as [Hin|Hin]; [|vm_compute in Hin; intuition discriminate].
      unfold replace_char in Hin. apply in_concat in Hin as (q & Hq & Hin).
      apply in_map_iff in Hq as (x & <- & _).
      destruct (char_eqb x LF) eqn:E.
      * vm_compute in Hin. intuition discriminate.
      * destruct Hin as [->|[]]. unfold char_eqb in E. rewrite N.eqb_refl in E.
        discriminate.
    + unfold Utils.paragraphs_html.
      set (blocks := split_blank_lines [] s).
      assert (Hkept : List.filter (fun p => truthy (strip p)) blocks = []
                      <-> Forall (fun p => strip p = []) blocks).
      { rewrite filter_nil_iff. split; intros H; (eapply Forall_impl; [exact H|]);
          intros p; cbn beta; destruct (strip p); intros Hp;
          try reflexivity; discriminate Hp. }
      split.
      * intros Hnil. split; [discriminate|]. apply Hkept.
        destruct (List.filter _ blocks) as [|p l]; [reflexivity|].
        discriminate Hnil.
      * intros [_ Hall]. apply Hkept in Hall. rewrite Hall. reflexivity.
Qed.

Lemma markdown_fallback_has_no_line_feed_witness :
  ~ In LF (Utils.markdown_to_html Sample.lib
             (py "Title" ++ [LF; LF] ++ py "first line" ++ [LF] ++ py "second line"))
  /\ Utils.markdown_to_html Sample.lib (py " " ++ [LF; LF; LF] ++ py "  ") = [].
Proof.
  split.
  - apply (markdown_fallback_has_no_line_feed Sample.lib). reflexivity.
  - apply (markdown_fallback_has_no_line_feed Sample.lib); [reflexivity|].
    split; [discriminate|].
    repeat apply List.Forall_cons; try apply List.Forall_nil; reflexivity.
Defined.

(** X4.  A tag [clean_tag] returns holds only characters its pattern
    keeps, has no white space at either end, and has between 1 and 50
    characters; surrounding white space in the input never matters. *)
Theorem clean_tag_result_shape (L : PyLib) (tag : str) :
  (forall t, Utils.clean_tag L tag = Some t ->
     Forall (fun c => Utils.tag_char_kept L c = true) t
     /\ strip t = t /\ 1 <= len t <= 50)
  /\ Utils.clean_tag L (strip tag) = Utils.clean_tag L tag.
Proof.
  split.
  - intros t Ht. split; [|split; [|eapply clean_tag_length; exact Ht]].
    + unfold Utils.clean_tag in Ht. destruct (truthy tag); [|discriminate].
      cbn [negb] in Ht.
      destruct ((len (strip tag) <? 3) || (50 <? len (strip tag))); [discriminate|].
      destruct (truthy _); [|discriminate]. injection Ht as <-.
      apply Forall_forall. intros c Hc.
      apply list_elem_of_In, strip_sublist, filter_In in Hc as [_ Hc]. exact Hc.
    + unfold Utils.clean_tag in Ht. destruct (truthy tag); [|discriminate].
      cbn [negb] in Ht.
      destruct ((len (strip tag) <? 3) || (50 <? len (strip tag))); [discriminate|].
      destruct (truthy _); [|discriminate]. injection Ht as <-.
      apply strip_idem.
  - unfold Utils.clean_tag. rewrite strip_idem.
    destruct (strip tag) as [|c s] eqn:E.
    + destruct (truthy tag); reflexivity.
    + destruct tag as [|x tag']; [discriminate E|]. reflexivity.
Qed.

Lemma clean_tag_result_shape_witness :
  Forall (fun c => Utils.tag_char_kept Sample.lib c = true) (py "Hello World")
  /\ strip (py "Hello World") = py "Hello World"
  /\ 1 <= len (py "Hello World") <= 50.
Proof.
  apply (proj1 (clean_tag_result_shape Sample.lib (py " Hello, World! "))
           (py "Hello World")).
  vm_compute. reflexivity.
Defined.

(* ===================================================================== *)
(** * Further properties: the cascade *)
(* ===================================================================== *)

Section CascadeFacts.
Import Utils Fetchers.
Context (L : PyLib) (cfg : Config) (net : Net).

Lemma complete_truthy (content : str) (m : Z) :
  is_content_complete content m = true -> truthy content = true.
Proof.
  unfold is_content_complete. destruct (truthy content); [reflexivity|discriminate].
Qed.

Lemma dict_get_In {V} (k : str) (d : list (str * V)) (v : V) :
  dict_get k d = Some v -> In v (dict_values d).
Proof.
  induction d as [|[k' v'] d IH]; simpl; [discriminate|].
  destruct (str_eqb k k'); [intros [= ->]; left; reflexivity|].
  intros H. right. apply IH. exact H.
Qed.

Lemma selected_in_table (pm : option str) (m : fetch_method) :
  In m (selected_methods L cfg pm) -> In m (dict_values FETCH_METHODS).
Proof.
  assert (Hf : In m (List.filter (fun m => enabled m cfg) (dict_values FETCH_METHODS))
               -> In m (dict_values FETCH_METHODS)).
  { intros H. apply filter_In in H as [H _]. exact H. }
  unfold selected_methods. destruct pm as [pm|]; [|exact Hf].
  destruct (truthy pm); [|exact Hf].
  destruct (dict_get (lower L pm) FETCH_METHODS) as [m'|] eqn:E; [|intros []].
  intros [<-|[]]. eapply dict_get_In. exact E.
Qed.

(** Each strategy of the table validates the page it returns. *)
Lemma fetchers_validate (m : fetch_method) (u html : str) :
  In m (dict_values FETCH_METHODS) ->
  func m L cfg net u = Some html ->
  is_content_complete html 200 = true
  \/ is_content_complete html (MIN_CONTENT_LENGTH cfg) = true.
Proof.
  unfold dict_values, FETCH_METHODS. cbn [List.map snd].
  intros [<-|[<-|[<-|[]]]]; cbn [func].
  - unfold fetch_with_playwright. destruct (playwright_content net u) as [c|]; [|discriminate].
    destruct (is_content_complete c 200) eqn:E; [|discriminate].
    intros [= <-]. left. exact E.
  - unfold fetch_with_jina. destruct (jina_get net _) as [c|]; [|discriminate].
    destruct (len c <? 100); [discriminate|].
    destruct (is_content_complete _ (MIN_CONTENT_LENGTH cfg)) eqn:E; [|discriminate].
    intros [= <-]. right. exact E.
  - unfold fetch_with_cloudscraper. destruct (cloudscraper_get net u) as [c|]; [|discriminate].
    destruct (is_content_complete c 200) eqn:E; [|discriminate].
    intros [= <-]. left. exact E.
Qed.

Lemma try_methods_source (u : str) (ms : list fetch_method) (called : list str)
    (html : str) :
  try_methods L cfg net u ms = (called, Some html) ->
  exists m, In m ms /\ func m L cfg net u = Some html.
Proof.
  revert called. induction ms as [|m ms IH]; intros called; simpl; [discriminate|].
  destruct (func m L cfg net u) as [h|] eqn:E.
  - intros [= _ ->]. exists m. split; [left; reflexivity|exact E].
  - destruct (try_methods L cfg net u ms) as [c r]. intros H.
    injection H as _ ->.
    destruct (IH c eq_refl) as (m' & Hin & Hm'). exists m'. split; [right|]; assumption.
Qed.

(** The loop returns a page only from the last strategy it called. *)
Lemma try_methods_last (u : str) (ms : list fetch_method) (called : list str)
    (html : str) :
  try_methods L cfg net u ms = (called, Some html) ->
  exists before m,
    In m ms /\ called = before ++ [label m] /\ func m L cfg net u = Some html.
Proof.
  revert called. induction ms as [|m ms IH]; intros called; simpl; [discriminate|].
  destruct (func m L cfg net u) as [h|] eqn:E.
  - intros [= <- ->]. exists [], m. split; [left; reflexivity|]. split; [reflexivity|exact E].
  - destruct (try_methods L cfg net u ms) as [c r]. intros Heq.
    injection Heq as <- ->.
    destruct (IH c eq_refl) as (before & m' & Hin & -> & Hm').
    exists (label m :: before), m'. split; [right; exact Hin|]. split; [reflexivity|exact Hm'].
Qed.

(** What each strategy of the table has checked of the page it returns. *)
Lemma fetchers_validate_by_label (m : fetch_method) (u html : str) :
  In m (dict_values FETCH_METHODS) ->
  func m L cfg net u = Some html ->
  (label m = py "Playwright"
   /\ playwright_content net u = Some html
   /\ is_content_complete html 200 = true)
  \/ (label m = py "Jina"
      /\ exists markdown_content,
           jina_get net (JINA_BASE_URL cfg ++ py "/" ++ u) = Some markdown_content
           /\ 100 <= len markdown_content
           /\ html = markdown_to_html L markdown_content
           /\ is_content_complete html (MIN_CONTENT_LENGTH cfg) = true)
  \/ (label m = py "cloudscraper"
      /\ cloudscraper_get net u = Some html
      /\ is_content_complete html 200 = true).
Proof.
  unfold dict_values, FETCH_METHODS. cbn [List.map snd].
  intros [<-|[<-|[<-|[]]]]; cbn [func label].
  - unfold fetch_with_playwright. destruct (playwright_content net u) as [c|]; [|discriminate].
    destruct (is_content_complete c 200) eqn:E; [|discriminate].
    intros [= <-]. left. auto.
  - unfold fetch_with_jina. destruct (jina_get net _) as [c|]; [|discriminate].
    destruct (Z.ltb_spec (len c) 100); [discriminate|].
    destruct (is_content_complete _ (MIN_CONTENT_LENGTH cfg)) eqn:E; [|discriminate].
    intros [= <-]. right. left. split; [reflexivity|]. exists c. auto.
  - unfold fetch_with_cloudscraper. destruct (cloudscraper_get net u) as [c|]; [|discriminate].
    destruct (is_content_complete c 200) eqn:E; [|discriminate].
    intros [= <-]. right. right. auto.
Qed.

Lemma cascade_unfold (u : str) (pm : option str) :
  selected_methods L cfg pm <> [] ->
  fetch_content_cascade L cfg net u pm
  = (fst (try_methods L cfg net u (selected_methods L cfg pm)),
     Returned (snd (try_methods L cfg net u (selected_methods L cfg pm)))).
Proof.
  intros Hne. unfold fetch_content_cascade.
  destruct (selected_methods L cfg pm) as [|m ms]; [congruence|].
  destruct (try_methods L cfg net u (m :: ms)). reflexivity.
Qed.

Lemma cascade_returned (u : str) (pm : option str) (called : list str) (r : option str) :
  fetch_content_cascade L cfg net u pm = (called, Returned r) ->
  try_methods L cfg net u (selected_methods L cfg pm) = (called, r).
Proof.
  unfold fetch_content_cascade.
  destruct (selected_methods L cfg pm) as [|m ms]; [discriminate|].
  destruct (try_methods L cfg net u (m :: ms)). intros [= -> ->]. reflexivity.
Qed.

End CascadeFacts.

(** X5.  A page returned by [fetch_content_cascade] was fetched by the
    last strategy called and has passed that strategy's own test: for
    the browser and for the plain GET, the page is what the network gave
    and holds at least 200 characters of text; for the reader service, it
    is the HTML of a Markdown answer of at least 100 characters and holds
    at least [MIN_CONTENT_LENGTH] characters of text.  In each case it is
    not the empty string. *)
Theorem cascade_page_is_validated (L : PyLib) (cfg : Config) (net : Net)
    (u : str) (pm : option str) (called : list str) (html : str) :
  Fetchers.fetch_content_cascade L cfg net u pm
  = (called, Fetchers.Returned (Some html)) ->
  truthy html = true
  /\ exists before last,
       called = before ++ [last]
       /\ ((last = py "Playwright"
            /\ playwright_content net u = Some html
            /\ Utils.is_content_complete html 200 = true)
           \/ (last = py "Jina"
               /\ exists markdown_content,
                    jina_get net (JINA_BASE_URL cfg ++ py "/" ++ u)
                    = Some markdown_content
                    /\ 100 <= len markdown_content
                    /\ html = Utils.markdown_to_html L markdown_content
                    /\ Utils.is_content_complete html (MIN_CONTENT_LENGTH cfg)
                       = true)
           \/ (last = py "cloudscraper"
               /\ cloudscraper_get net u = Some html
               /\ Utils.is_content_complete html 200 = true)).
Proof.
  intros H. apply cascade_returned, try_methods_last in H
    as (before & m & Hin & -> & Hm).
  apply selected_in_table in Hin.
  pose proof (fetchers_validate_by_label L cfg net m u html Hin Hm) as Hv.
  split.
  - destruct Hv as [(_ & _ & Hc)|[(_ & md & _ & _ & _ & Hc)|(_ & _ & Hc)]];
      eapply complete_truthy; exact Hc.
  - exists before, (Fetchers.label m). split; [reflexivity|].
    destruct Hv as [(Hl & Hv)|[(Hl & Hv)|(Hl & Hv)]]; rewrite Hl; auto.
Qed.

Lemma cascade_page_is_validated_witness :
  truthy (py "<p>" ++ Sample.long_text ++ py "</p>") = true
  /\ exists before last,
       [py "Playwright"; py "Jina"] = before ++ [last]
       /\ ((last = py "Playwright"
            /\ playwright_content
                 {| playwright_content := fun _ => None;
                    jina_get := jina_get Sample.online;
                    cloudscraper_get := cloudscraper_get Sample.online |}
                 (py "https://example.org/a")
               = Some (py "<p>" ++ Sample.long_text ++ py "</p>")
            /\ Utils.is_content_complete (py "<p>" ++ Sample.long_text ++ py "</p>") 200
               = true)
           \/ (last = py "Jina"
               /\ exists markdown_content,
                    jina_get
                      {| playwright_content := fun _ => None;
                         jina_get := jina_get Sample.online;
                         cloudscraper_get := cloudscraper_get Sample.online |}
                      (JINA_BASE_URL default_config ++ py "/"
                       ++ py "https://example.org/a")
                    = Some markdown_content
                    /\ 100 <= len markdown_content
                    /\ py "<p>" ++ Sample.long_text ++ py "</p>"
                       = Utils.markdown_to_html Sample.lib markdown_content
                    /\ Utils.is_content_complete
                         (py "<p>" ++ Sample.long_text ++ py "</p>")
                         (MIN_CONTENT_LENGTH default_config)
                       = true)
           \/ (last = py "cloudscraper"
               /\ cloudscraper_get
                    {| playwright_content := fun _ => None;
                       jina_get := jina_get Sample.online;
                       cloudscraper_get := cloudscraper_get Sample.online |}
                    (py "https://example.org/a")
                  = Some (py "<p>" ++ Sample.long_text ++ py "</p>")
               /\ Utils.is_content_complete
                    (py "<p>" ++ Sample.long_text ++ py "</p>") 200
                  = true)).
Proof.
  apply (cascade_page_is_validated Sample.lib default_config
           {| playwright_content := fun _ => None;
              jina_get := jina_get Sample.online;
              cloudscraper_get := cloudscraper_get Sample.online |}
           (py "https://example.org/a") None).
  vm_compute. reflexivity.
Defined.

(** X6.  The loop of [fetch_content_cascade] over the strategies it
    selected: the strategies before the first one that returns are called
    in order and the loop stops there, with that strategy's page; when
    every selected strategy raises, all of them are called and the result
    is [None]. *)
Theorem cascade_stops_at_first_success (L : PyLib) (cfg : Config) (net : Net)
    (u : str) (pm : option str) :
  (forall failed m rest html,
      Fetchers.selected_methods L cfg pm = failed ++ m :: rest ->
      Forall (fun m' => Fetchers.func m' L cfg net u = None) failed ->
      Fetchers.func m L cfg net u = Some html ->
      Fetchers.fetch_content_cascade L cfg net u pm
      = (List.map Fetchers.label failed ++ [Fetchers.label m],
         Fetchers.Returned (Some html)))
  /\ (Fetchers.selected_methods L cfg pm <> [] ->
      Forall (fun m' => Fetchers.func m' L cfg net u = None)
        (Fetchers.selected_methods L cfg pm) ->
      Fetchers.fetch_content_cascade L cfg net u pm
      = (List.map Fetchers.label (Fetchers.selected_methods L cfg pm),
         Fetchers.Returned None)).
Proof.
  split.
  - intros failed m rest html Hsel Hfailed Hm.
    rewrite cascade_unfold by (rewrite Hsel; destruct failed; discriminate).
    rewrite Hsel, (try_methods_first_success L cfg net u failed m rest html Hfailed Hm).
    reflexivity.
  - intros Hne Hall. rewrite cascade_unfold by exact Hne.
    rewrite (try_methods_all_fail L cfg net u _ Hall). reflexivity.
Qed.

Lemma cascade_stops_at_first_success_witness :
  Fetchers.fetch_content_cascade Sample.lib default_config
    (Sample.serving (py "<html><body><p>" ++ Sample.long_text ++ py "</p></body></html>"))
    (py "https://example.org/a") None
  = ([py "Playwright"; py "Jina"; py "cloudscraper"],
     Fetchers.Returned
       (Some (py "<html><body><p>" ++ Sample.long_text ++ py "</p></body></html>")))
  /\ Fetchers.fetch_content_cascade Sample.lib default_config Sample.offline
       (py "https://example.org/a") None
     = ([py "Playwright"; py "Jina"; py "cloudscraper"], Fetchers.Returned None).
Proof.
  split.
  - refine (proj1 (cascade_stops_at_first_success Sample.lib default_config
                     (Sample.serving _) (py "https://example.org/a") None)
              [ {| Fetchers.label := py "Playwright";
                   Fetchers.func := Fetchers.fetch_with_playwright;
                   Fetchers.enabled := fun c => USE_PLAYWRIGHT c && PLAYWRIGHT_AVAILABLE c |};
                {| Fetchers.label := py "Jina";
                   Fetchers.func := Fetchers.fetch_with_jina;
                   Fetchers.enabled := fun c => USE_JINA c |} ]
              {| Fetchers.label := py "cloudscraper";
                 Fetchers.func := Fetchers.fetch_with_cloudscraper;
                 Fetchers.enabled := fun c => USE_CLOUDSCRAPER c && CLOUDSCRAPER_AVAILABLE c |}
              [] _ _ _ _).
    + reflexivity.
    + repeat apply List.Forall_cons; try apply List.Forall_nil; reflexivity.
    + vm_compute. reflexivity.
  - refine (proj2 (cascade_stops_at_first_success Sample.lib default_config
                     Sample.offline (py "https://example.org/a") None) _ _).
    + discriminate.
    + repeat apply List.Forall_cons; try apply List.Forall_nil; reflexivity.
Defined.

(** X7.  When nothing is selected the cascade raises without calling any
    strategy: with no preferred name and every strategy disabled or not
    importable, and with a preferred name that is no key of
    [FETCH_METHODS].  An empty preferred name counts as none. *)
Theorem cascade_without_strategy (L : PyLib) (cfg : Config) (net : Net) (u : str) :
  (USE_PLAYWRIGHT cfg && PLAYWRIGHT_AVAILABLE cfg = false ->
   USE_JINA cfg = false ->
   USE_CLOUDSCRAPER cfg && CLOUDSCRAPER_AVAILABLE cfg = false ->
   Fetchers.fetch_content_cascade L cfg net u None = ([], Fetchers.RuntimeError))
  /\ (forall pm, truthy pm = true ->
        Fetchers.dict_get (lower L pm) Fetchers.FETCH_METHODS = None ->
        Fetchers.fetch_content_cascade L cfg net u (Some pm)
        = ([], Fetchers.RuntimeError))
  /\ Fetchers.fetch_content_cascade L cfg net u (Some [])
     = Fetchers.fetch_content_cascade L cfg net u None.
Proof.
  split; [|split].
  - intros Hp Hj Hc. unfold Fetchers.fetch_content_cascade, Fetchers.selected_methods,
      Fetchers.dict_values, Fetchers.FETCH_METHODS.
    cbn [List.map snd List.filter Fetchers.enabled]. rewrite Hp, Hj, Hc. reflexivity.
  - intros pm Hpm Hget. unfold Fetchers.fetch_content_cascade, Fetchers.selected_methods.
    rewrite Hpm, Hget. reflexivity.
  - reflexivity.
Qed.

Lemma cascade_without_strategy_witness :
  Fetchers.fetch_content_cascade Sample.lib default_config Sample.online
    (py "https://example.org/a") (Some (py "curl"))
  = ([], Fetchers.RuntimeError).
Proof.
  apply (proj1 (proj2 (cascade_without_strategy Sample.lib default_config
                         Sample.online (py "https://example.org/a"))));
    reflexivity.
Defined.

(* ===================================================================== *)
(** * Further properties: [process_entry] and the handler *)
(* ===================================================================== *)

Section DateFacts.
Import Processor.

(** [datetime] raises [OverflowError] exactly when one of the arguments
    given does not fit a C [int]. *)
Lemma datetime_of_tuple_overflow (t : list Z) :
  datetime_of_tuple t = OverflowError
  <-> forallb fits_c_int (firstn 6 t) = false.
Proof.
  destruct t as [|y [|m [|d [|h [|mi [|s t]]]]]];
    unfold datetime_of_tuple, datetime_of_fields; cbn [firstn forallb];
    change (fits_c_int 0) with true; rewrite ?andb_true_r;
    repeat match goal with
           | |- context [fits_c_int ?z] => destruct (fits_c_int z)
           end; cbn [andb negb];
    try match goal with
        | |- context [if ?c then Built _ else Caught] => destruct c
        end;
    split; intros Hx; try reflexivity; discriminate Hx.
Qed.

Lemma pub_date_of_None (e : FeedEntry) :
  pub_date_of e = None
  <-> exists t, e_published_parsed e = Some t
                /\ forallb fits_c_int (firstn 6 t) = false.
Proof.
  unfold pub_date_of. destruct (e_published_parsed e) as [[|z t]|].
  - split; [discriminate|]. intros (t & [= <-] & Ht). discriminate Ht.
  - pose proof (datetime_of_tuple_overflow (z :: t)) as Ho.
    destruct (datetime_of_tuple (z :: t)).
    + split; [discriminate|]. intros (t' & [= <-] & Ht).
      apply Ho in Ht. discriminate Ht.
    + split; [discriminate|]. intros (t' & [= <-] & Ht).
      apply Ho in Ht. discriminate Ht.
    + split; [|reflexivity]. intros _. exists (z :: t). split; [reflexivity|].
      apply Ho. reflexivity.
  - split; [discriminate|]. intros (t & Ht & _). discriminate Ht.
Qed.

End DateFacts.

(** X8.  For an entry with a non-empty link, [process_entry] returns
    [None] exactly when one of the first six fields of
    [published_parsed] does not fit a C [int], so that [datetime] raises
    an [OverflowError] the inner handler lets through, or when the digest
    of the link cannot be computed: no failure of the network, of the
    extraction or of the configuration drops an entry.  The record
    returned has the digest of the link as its id, and its title, link
    and date are read from the entry alone. *)
Theorem process_entry_identity (L : PyLib) (cfg : Config) (net : Net)
    (e : Processor.FeedEntry) (pm : option str) (l : str) :
  Processor.e_link e = Some l ->
  truthy l = true ->
  (Processor.process_entry L cfg net e pm = None
   <-> (exists t, Processor.e_published_parsed e = Some t
                  /\ forallb Processor.fits_c_int (firstn 6 t) = false)
       \/ sha256_hexdigest L l = None)
  /\ (forall r, Processor.process_entry L cfg net e pm = Some r ->
        sha256_hexdigest L l = Some (Processor.id r)
        /\ Processor.link r = l
        /\ Processor.title r
           = match Processor.e_title e with
             | Some t => t
             | None => py "Sans titre"
             end
        /\ Processor.pub_date_of e = Some (Processor.pub_date r)).
Proof.
  intros Hl Ht. rewrite <- pub_date_of_None.
  unfold Processor.process_entry. rewrite Hl, Ht. cbn [negb].
  destruct (Processor.fetch_and_extract L cfg net e l pm) as [[[c im] tg] m].
  destruct (Processor.pub_date_of e) as [date|].
  - destruct (sha256_hexdigest L l) as [d|].
    + split.
      * split; [discriminate|]. intros [H|H]; discriminate H.
      * intros r [= <-]. simpl. auto.
    + split; [split; auto|]. intros r Hr. discriminate Hr.
  - split; [split; auto|]. intros r Hr. discriminate Hr.
Qed.

Lemma process_entry_identity_witness :
  Processor.process_entry Sample.lib default_config Sample.online
    (Sample.entry_titled (py "far") (Some [2147483648; 1; 1; 0; 0; 0; 0; 1; 0])) None
  = None
  /\ forall r,
       Processor.process_entry Sample.lib default_config Sample.offline
         (Sample.entry_titled (py "dated") (Some [2024; 3; 1; 12; 0; 0; 4; 61; 0])) None
       = Some r ->
       sha256_hexdigest Sample.lib (py "https://example.org/dated")
       = Some (Processor.id r)
       /\ Processor.link r = py "https://example.org/dated"
       /\ Processor.title r = py "dated"
       /\ Processor.pub_date_of
            (Sample.entry_titled (py "dated") (Some [2024; 3; 1; 12; 0; 0; 4; 61; 0]))
          = Some (Processor.pub_date r).
Proof.
  split.
  - apply (proj1 (process_entry_identity Sample.lib default_config Sample.online
                    (Sample.entry_titled (py "far")
                       (Some [2147483648; 1; 1; 0; 0; 0; 0; 1; 0]))
                    None (py "https://example.org/far") eq_refl eq_refl)).
    left. eexists. split; reflexivity.
  - apply (proj2 (process_entry_identity Sample.lib default_config Sample.offline
                    (Sample.entry_titled (py "dated")
                       (Some [2024; 3; 1; 12; 0; 0; 4; 61; 0]))
                    None (py "https://example.org/dated") eq_refl eq_refl)).
Defined.

(** X9.  A returned record has the method [cascade] exactly when the
    cascade returned a page for its link: a returned page is never
    discarded by the emptiness test that follows the call.  The content,
    the images and the tags of such a record all come from that one page,
    the images resolved against the entry's link. *)
Theorem method_is_cascade_iff_page_returned (L : PyLib) (cfg : Config) (net : Net)
    (e : Processor.FeedEntry) (pm : option str) (r : Processor.EnrichedEntry) :
  Processor.process_entry L cfg net e pm = Some r ->
  (Processor.method r = Processor.cascade
   <-> exists raw_html,
         snd (Fetchers.fetch_content_cascade L cfg net (Processor.link r) pm)
         = Fetchers.Returned (Some raw_html))
  /\ (forall raw_html,
        snd (Fetchers.fetch_content_cascade L cfg net (Processor.link r) pm)
        = Fetchers.Returned (Some raw_html) ->
        Processor.content r
        = Utils.clean_html (Extractors.extract_article_content L cfg raw_html)
        /\ Processor.images r
           = Extractors.extract_images L cfg raw_html (Processor.link r)
        /\ Processor.tags r
           = Extractors.extract_tags L cfg raw_html (Processor.rss_categories_of e)).
Proof.
  intros Hr. apply process_entry_Some in Hr as (_ & _ & Hfe & Hc & _).
  assert (Hpage : forall raw_html,
             snd (Fetchers.fetch_content_cascade L cfg net (Processor.link r) pm)
             = Fetchers.Returned (Some raw_html) -> truthy raw_html = true).
  { intros raw_html H.
    destruct (Fetchers.fetch_content_cascade L cfg net (Processor.link r) pm)
      as [called o] eqn:E. simpl in H. subst o.
    apply cascade_returned, try_methods_source in E as (m & Hin & Hm).
    apply selected_in_table in Hin.
    destruct (fetchers_validate L cfg net m _ _ Hin Hm) as [Hv|Hv];
      eapply complete_truthy; exact Hv. }
  destruct (fetch_and_extract_cases L cfg net e (Processor.link r) pm)
    as [(raw & Hraw & _ & Heq)|(Hfail & Heq)].
  - rewrite Heq in Hfe, Hc. simpl in Hc. injection Hfe as Him Htg Hm.
    split.
    + split; [eauto|]. intros _. symmetry. exact Hm.
    + intros raw' Hraw'. rewrite Hraw in Hraw'. injection Hraw' as <-. auto.
  - rewrite Heq in Hfe. injection Hfe as _ _ Hm.
    unfold Spec.fetch_failed in Hfail. split.
    + split.
      * intros Hcas. exfalso.
        apply (fallback_content_not_cascade (Processor.raw_summary_of e)).
        rewrite Hm. exact Hcas.
      * intros [raw Hraw]. rewrite Hraw in Hfail.
        rewrite (Hpage raw Hraw) in Hfail. discriminate.
    + intros raw Hraw. rewrite Hraw in Hfail.
      rewrite (Hpage raw Hraw) in Hfail. discriminate.
Qed.

Lemma method_is_cascade_iff_page_returned_witness :
  Processor.method Sample.two_line_record = Processor.cascade
  <-> exists raw_html,
        snd (Fetchers.fetch_content_cascade Sample.lib default_config Sample.offline
               (Processor.link Sample.two_line_record) None)
        = Fetchers.Returned (Some raw_html).
Proof.
  apply (method_is_cascade_iff_page_returned Sample.lib default_config Sample.offline
           (Sample.entry_with_summary Sample.two_line_summary) None
           Sample.two_line_record).
  vm_compute. reflexivity.
Defined.

Section HandlerFacts.
Import Processor Routes.

Lemma collect_length_le (results : list (option EnrichedEntry)) (schedule : list nat) :
  NoDup schedule -> (length (collect results schedule) <= length results)%nat.
Proof.
  intros Hnd. unfold collect.
  assert (H1 : (length (omap (fun i => mjoin (results !! i)) schedule)
                <= length (List.filter (fun i => i <? length results)%nat schedule))%nat).
  { clear Hnd. induction schedule as [|i s IH]; [simpl; lia|].
    cbn [omap list_omap List.filter].
    destruct (results !! i) as [o|] eqn:E.
    - apply lookup_lt_Some in E. apply Nat.ltb_lt in E. rewrite E.
      destruct o; simpl; lia.
    - simpl. destruct (i <? length results)%nat; simpl; lia. }
  assert (H2 : (length (List.filter (fun i => i <? length results)%nat schedule)
                <= length (seq 0 (length results)))%nat).
  { apply List.NoDup_incl_length;
      [apply List.NoDup_filter, NoDup_ListNoDup; exact Hnd|].
    intros i Hi. apply filter_In in Hi as [_ Hi]. apply Nat.ltb_lt in Hi.
    apply in_seq. lia. }
  rewrite length_seq in H2. lia.
Qed.

Lemma collect_In (results : list (option EnrichedEntry)) (schedule : list nat)
    (r : EnrichedEntry) :
  In r (collect results schedule) -> In (Some r) results.
Proof.
  intros H. apply list_elem_of_In, list_elem_of_omap in H as (i & _ & Hi).
  destruct (results !! i) as [o|] eqn:E; [|discriminate].
  simpl in Hi. subst o. apply list_elem_of_In. eapply list_elem_of_lookup_2. exact E.
Qed.

End HandlerFacts.

(** X10.  The records of the pipeline's output are records of the feed
    entries kept by the cap, and of no other entry; a positive
    [max_entries] keeps the first [max_entries] entries of the feed; each
    future completing once, the output never has more records than
    capped entries. *)
Theorem pipeline_respects_cap (L : PyLib) (cfg : Config) (net : Net)
    (req : Routes.request) (feed : Routes.ParsedFeed) (schedule : list nat) :
  (forall r, In r (Routes.pipeline L cfg net req feed schedule) ->
     exists e, In e (Routes.capped_entries req feed)
               /\ Processor.process_entry L cfg net e (Routes.method_extraction req)
                  = Some r)
  /\ (forall n, Routes.max_entries req = Some n -> 1 <= n ->
        Routes.capped_entries req feed = firstn (Z.to_nat n) (Routes.entries feed))
  /\ (NoDup schedule ->
      (length (Routes.pipeline L cfg net req feed schedule)
       <= length (Routes.capped_entries req feed))%nat).
Proof.
  split; [|split].
  - intros r Hr. unfold Routes.pipeline in Hr.
    apply (Permutation_in _ (sort_desc_Permutation _)) in Hr.
    apply collect_In in Hr. unfold Routes.results in Hr.
    apply in_map_iff in Hr as (e & He & Hin). eauto.
  - intros n Hn Hpos. unfold Routes.capped_entries. rewrite Hn.
    destruct (Z.eqb_spec n 0); [lia|]. unfold slice_to.
    destruct (Z.leb_spec 0 n); [reflexivity|lia].
  - intros Hnd. unfold Routes.pipeline.
    rewrite (Permutation_length (sort_desc_Permutation _)).
    pose proof (collect_length_le (Routes.results L cfg net req feed) schedule Hnd) as H.
    unfold Routes.results in H at 2. rewrite length_map in H. exact H.
Qed.

Lemma pipeline_respects_cap_witness :
  Routes.capped_entries (Sample.request_for Sample.feed_url None (Some 2%Z) 4%Z)
    Sample.sample_feed
  = firstn 2 (Routes.entries Sample.sample_feed)
  /\ (length (Routes.pipeline Sample.lib default_config Sample.offline
                (Sample.request_for Sample.feed_url None (Some 2%Z) 4%Z)
                Sample.sample_feed [1; 0]%nat)
      <= length (Routes.capped_entries
                   (Sample.request_for Sample.feed_url None (Some 2%Z) 4%Z)
                   Sample.sample_feed))%nat.
Proof.
  pose proof (pipeline_respects_cap Sample.lib default_config Sample.offline
                (Sample.request_for Sample.feed_url None (Some 2%Z) 4%Z)
                Sample.sample_feed [1; 0]%nat) as (_ & Hcap & Hlen).
  split.
  - apply (Hcap 2); [reflexivity|lia].
  - apply Hlen. apply NoDup_cons_2.
    + intros H. apply list_elem_of_In in H. simpl in H. intuition discriminate.
    + apply NoDup_cons_2; [|apply NoDup_nil_2].
      intros H. apply list_elem_of_In in H. destruct H.
Defined.

Section TallyFacts.
Import Processor Routes Tally.

Lemma method_name_inj (m m' : method_used) :
  method_name m = method_name m' -> m = m'.
Proof. destruct m, m'; intros H; try reflexivity; discriminate H. Qed.

Lemma method_name_eqb (m m' : method_used) :
  str_eqb (method_name m) (method_name m') = true <-> m = m'.
Proof.
  split.
  - intros H. apply method_name_inj, str_eqb_eq. exact H.
  - intros ->. apply str_eqb_refl.
Qed.

Lemma count_method_app (m : method_used) (l : list EnrichedEntry) (r : EnrichedEntry) :
  count_method m (l ++ [r])
  = count_method m l + (if str_eqb (method_name (method r)) (method_name m) then 1 else 0).
Proof.
  unfold count_method. rewrite List.filter_app, length_app. cbn [List.filter].
  destruct (str_eqb _ _); simpl; lia.
Qed.

Lemma count_method_total (l : list EnrichedEntry) :
  count_method cascade l + count_method rss_summary l + count_method unavailable l
  = Z.of_nat (length l).
Proof.
  induction l as [|r l IH]; [reflexivity|].
  unfold count_method in *. cbn [List.filter length].
  destruct (method r); cbn [method_name] in *;
    repeat match goal with
           | |- context [str_eqb ?a ?b] =>
               let b' := eval vm_compute in (str_eqb a b) in
               change (str_eqb a b) with b'
           end; cbn [length]; lia.
Qed.

(** What the loop has done after the futures of [schedule], started in
    any state. *)
Lemma fold_on_completed (results : list (option EnrichedEntry)) (schedule : list nat)
    (st : loop_state) :
  let st' := List.fold_left (on_completed results) schedule st in
  processed st' = processed st ++ collect results schedule
  /\ ((forall m, stats_get (stats st) (method_name m) = count_method m (processed st)) ->
      forall m, stats_get (stats st') (method_name m) = count_method m (processed st'))
  /\ (Forall (fun i => (i < length results)%nat) schedule ->
      failed st' + Z.of_nat (length (processed st'))
      = failed st + Z.of_nat (length (processed st)) + Z.of_nat (length schedule)).
Proof.
  revert st. induction schedule as [|i s IH]; intros st; cbn [List.fold_left].
  - cbn zeta. unfold collect. cbn [omap list_omap length]. rewrite app_nil_r.
    split; [reflexivity|]. split; [auto|]. intros _. lia.
  - specialize (IH (on_completed results st i)). cbn zeta in IH |- *.
    destruct IH as (IHp & IHs & IHf).
    set (st' := List.fold_left (on_completed results) s (on_completed results st i)) in *.
    unfold on_completed in IHp, IHs, IHf.
    unfold collect in *. cbn [omap list_omap].
    destruct (results !! i) as [[r|]|] eqn:E; cbn [mjoin option_join processed stats failed] in *.
    + split; [rewrite IHp, <- app_assoc; reflexivity|]. split.
      * intros Hst. apply IHs. intros m. rewrite count_method_app.
        unfold stats_get at 1.
        destruct (str_eqb (method_name (method r)) (method_name m)) eqn:Em.
        -- apply str_eqb_eq, method_name_inj in Em. subst m.
           rewrite lookup_insert_eq, Hst. reflexivity.
        -- rewrite lookup_insert_ne.
           ++ fold (stats_get (stats st) (method_name m)). rewrite Hst. lia.
           ++ intros Heq. rewrite Heq, str_eqb_refl in Em. discriminate.
      * intros Hall. apply Forall_cons_1 in Hall as [_ Hall].
        rewrite (IHf Hall), length_app. cbn [length]. lia.
    + split; [exact IHp|]. split; [exact IHs|].
      intros Hall. apply Forall_cons_1 in Hall as [_ Hall].
      rewrite (IHf Hall). cbn [length]. lia.
    + split; [exact IHp|]. split; [exact IHs|].
      intros Hall. apply Forall_cons_1 in Hall as [Hi _].
      apply lookup_ge_None in E. lia.
Qed.

End TallyFacts.

(** X11.  The counters of the loop over the completed futures.  The
    records are appended in completion order; each counter of [stats] is
    the number of collected records with that method, so the three add up
    to the number of records; and when every future completes exactly
    once, records and failures add up to the number of entries
    submitted. *)
Theorem tally_accounts_for_every_entry (results : list (option Processor.EnrichedEntry))
    (schedule : list nat) :
  Tally.processed (Tally.run_loop results schedule) = Routes.collect results schedule
  /\ (forall m,
        Tally.stats_get (Tally.stats (Tally.run_loop results schedule))
          (Tally.method_name m)
        = Tally.count_method m (Routes.collect results schedule))
  /\ Tally.stats_get (Tally.stats (Tally.run_loop results schedule)) (py "cascade")
     + Tally.stats_get (Tally.stats (Tally.run_loop results schedule)) (py "rss_summary")
     + Tally.stats_get (Tally.stats (Tally.run_loop results schedule)) (py "unavailable")
     = Z.of_nat (length (Routes.collect results schedule))
  /\ (schedule ≡ₚ seq 0 (length results) ->
      Tally.failed (Tally.run_loop results schedule)
      + Z.of_nat (length (Routes.collect results schedule))
      = Z.of_nat (length results)).
Proof.
  pose proof (fold_on_completed results schedule Tally.loop_start) as (Hp & Hs & Hf).
  fold (Tally.run_loop results schedule) in Hp, Hs, Hf.
  cbn [Tally.processed Tally.loop_start app] in Hp.
  assert (Hs' : forall m,
             Tally.stats_get (Tally.stats (Tally.run_loop results schedule))
               (Tally.method_name m)
             = Tally.count_method m (Routes.collect results schedule)).
  { intros m. rewrite <- Hp. apply Hs. intros []; vm_compute; reflexivity. }
  split; [exact Hp|]. split; [exact Hs'|]. split.
  - rewrite <- (count_method_total (Routes.collect results schedule)).
    rewrite <- (Hs' Processor.cascade), <- (Hs' Processor.rss_summary),
      <- (Hs' Processor.unavailable). reflexivity.
  - intros Hperm. rewrite <- Hp. rewrite Hf.
    + rewrite (Permutation_length Hperm), length_seq. simpl. lia.
    + apply Forall_forall. intros i Hi. rewrite Hperm in Hi.
      apply elem_of_seq in Hi. lia.
Qed.

Lemma tally_accounts_for_every_entry_witness :
  Tally.failed
    (Tally.run_loop [Some Sample.two_line_record; None; Some Sample.blank_record]
       [2; 0; 1]%nat)
  + Z.of_nat (length (Routes.collect
                        [Some Sample.two_line_record; None; Some Sample.blank_record]
                        [2; 0; 1]%nat))
  = 3.
Proof.
  apply (tally_accounts_for_every_entry
           [Some Sample.two_line_record; None; Some Sample.blank_record]
           [2; 0; 1]%nat).
  change (seq 0 (length [Some Sample.two_line_record; None; Some Sample.blank_record]))
    with ([0; 1; 2]%nat).
  apply perm_trans with ([0; 2; 1]%nat); [apply perm_swap|].
  apply perm_skip, perm_swap.
Defined.

(** X12.  What the handler does to the cache.  A request answered with
    an error leaves the cache directory as it was, so nothing is cached
    for a failed generation; the error is 404 for a feed without entries,
    500 when the serializer raises, the status of the source feed's HTTP
    error, or 400; the body of every successful response is, afterwards,
    the content of the cache file of the request's URL; and an empty
    cache file counts as a miss. *)
Theorem handler_cache_effects (L : PyLib) (cfg : Config) (net : Net)
    (web : Routes.Web) (d : Cache.dir) (t_start t_end : Z) (req : Routes.request)
    (schedule : list nat) :
  (forall d' status,
      Routes.filter L cfg net web d t_start t_end req schedule
      = (d', Routes.HTTPException status) ->
      d' = d
      /\ (status = 404 \/ status = 500 \/ status = 400
          \/ Routes.fetch_feed web (Routes.url req) = Routes.HTTPError status))
  /\ (forall d' body,
        Routes.filter L cfg net web d t_start t_end req schedule
        = (d', Routes.Response body) ->
        exists f, d' !! Cache.cache_key_from_url L (Routes.url req) [] = Some f
                  /\ Cache.content f = body)
  /\ (Cache.get_cached_feed L d t_start (Routes.url req) = Some [] ->
      Routes.filter L cfg net web d t_start t_end req schedule
      = Routes.generate L cfg net web d t_end req schedule).
Proof.
  assert (Hgen_err : forall d' status,
             Routes.generate L cfg net web d t_end req schedule
             = (d', Routes.HTTPException status) ->
             d' = d
             /\ (status = 404 \/ status = 500 \/ status = 400
                 \/ Routes.fetch_feed web (Routes.url req) = Routes.HTTPError status)).
  { intros d' status. unfold Routes.generate.
    destruct (Routes.fetch_feed web (Routes.url req)) as [feed|code|].
    - destruct (Routes.entries feed); [intros [= <- <-]; auto|].
      destruct (Routes.rss_str web _ feed _); [discriminate|].
      intros [= <- <-]. auto.
    - intros [= <- <-]. auto.
    - intros [= <- <-]. auto. }
  assert (Hgen_ok : forall d' body,
             Routes.generate L cfg net web d t_end req schedule
             = (d', Routes.Response body) ->
             exists f, d' !! Cache.cache_key_from_url L (Routes.url req) [] = Some f
                       /\ Cache.content f = body).
  { intros d' body. unfold Routes.generate.
    destruct (Routes.fetch_feed web (Routes.url req)) as [feed|code|];
      [|discriminate|discriminate].
    destruct (Routes.entries feed); [discriminate|].
    destruct (Routes.rss_str web _ feed _) as [rss|]; [|discriminate].
    intros [= <- <-]. unfold Cache.save_cached_feed.
    rewrite lookup_insert_eq. eauto. }
  unfold Routes.filter. split; [|split].
  - intros d' status.
    destruct (Cache.get_cached_feed L d t_start (Routes.url req)) as [[|b cached]|];
      [apply Hgen_err|discriminate|apply Hgen_err].
  - intros d' body.
    destruct (Cache.get_cached_feed L d t_start (Routes.url req)) as [[|b cached]|] eqn:E;
      [apply Hgen_ok| |apply Hgen_ok].
    intros [= <- <-]. unfold Cache.get_cached_feed in E.
    destruct (d !! Cache.cache_key_from_url L (Routes.url req) []) as [f|]; [|discriminate].
    destruct (Cache.CACHE_TTL <? t_start - Cache.st_mtime f); [discriminate|].
    injection E as E. eauto.
  - intros ->. reflexivity.
Qed.

Lemma handler_cache_effects_witness :
  (∅ : Cache.dir) = ∅
  /\ (503 = 404 \/ 503 = 500 \/ 503 = 400
      \/ Routes.fetch_feed Sample2.failing_web
           (Routes.url (Sample.request_for Sample.feed_url None None 4))
         = Routes.HTTPError 503).
Proof.
  apply (proj1 (handler_cache_effects Sample.lib default_config Sample.offline
                  Sample2.failing_web ∅ 0 1
                  (Sample.request_for Sample.feed_url None None 4) [])).
  reflexivity.
Defined.

(* ===================================================================== *)
(** * Further properties: [/api/register] and [/api/login] *)
(* ===================================================================== *)

Section AccountFacts.
Import Accounts.

Lemma files_differ : LOGIN_FILE <> REGISTER_FILE.
Proof. discriminate. Qed.

Lemma ordered_pairs_app {A} (R : A -> A -> Prop) (l : list A) (x : A) :
  ForallOrdPairs R l -> Forall (fun y => R y x) l -> ForallOrdPairs R (l ++ [x]).
Proof.
  induction 1 as [|a l Ha _ IH]; intros Hx; simpl.
  - constructor; constructor.
  - apply Forall_cons_1 in Hx as [Hax Hx]. constructor; [|apply IH; exact Hx].
    apply Forall_app. split; [exact Ha|]. constructor; [exact Hax|constructor].
Qed.

Context {V : Type} `{PyValue V}.

Lemma existsb_false_Forall (users : list (user V)) (name : V) :
  existsb (fun u => py_eq (username u) name) users = false ->
  Forall (fun u => py_eq (username u) name = false) users.
Proof.
  induction users as [|u users IH]; simpl; [constructor|].
  intros Hx. apply orb_false_iff in Hx as [Hu Hx]. constructor; auto.
Qed.

Lemma registered_insert (fs : files V) (users : list (user V)) :
  registered (<[REGISTER_FILE := users]> fs) = users.
Proof. unfold registered. rewrite lookup_insert_eq. reflexivity. Qed.

End AccountFacts.

(** X13.  [/api/register], for JSON values of any kind and a well-formed
    users file.  Whatever does not end in a registration leaves every
    file as it was: the answer 400, and the [TypeError] (status 500) that
    [len(password)] raises exactly for a true username with a true
    password that has no length, such as a number.  A registration had a
    password of length 6 or more and a username equal to none on file; it
    appends that one user to [users.json] and touches no other file;
    usernames that were pairwise different stay so; and the same
    username, if it equals itself, is never registered again. *)
Theorem register_appends_one_new_name {V : Type} `{Accounts.PyValue V}
    (fs fs' : Accounts.files V) (cred_username cred_password : V)
    (a : Accounts.answer) :
  Accounts.api_register fs cred_username cred_password = (fs', a) ->
  (a <> Accounts.Created ->
   fs' = fs /\ (a = Accounts.HTTPException 400 \/ a = Accounts.Raised))
  /\ (a = Accounts.Raised
      <-> Accounts.py_bool cred_username = true
          /\ Accounts.py_bool cred_password = true
          /\ Accounts.py_len cred_password = None)
  /\ (a = Accounts.Created ->
      Accounts.py_bool cred_username = true
      /\ (exists n, Accounts.py_len cred_password = Some n /\ 6 <= n)
      /\ Forall (fun u => Accounts.py_eq (Accounts.username u) cred_username = false)
           (Accounts.registered fs)
      /\ Accounts.registered fs'
         = Accounts.registered fs
           ++ [{| Accounts.username := cred_username;
                  Accounts.password := cred_password |}]
      /\ (forall path, path <> Accounts.REGISTER_FILE -> fs' !! path = fs !! path)
      /\ (ForallOrdPairs
            (fun u w => Accounts.py_eq (Accounts.username u) (Accounts.username w)
                        = false)
            (Accounts.registered fs) ->
          ForallOrdPairs
            (fun u w => Accounts.py_eq (Accounts.username u) (Accounts.username w)
                        = false)
            (Accounts.registered fs'))
      /\ (Accounts.py_eq cred_username cred_username = true ->
          forall again,
            fst (Accounts.api_register fs' cred_username again) = fs'
            /\ snd (Accounts.api_register fs' cred_username again)
               <> Accounts.Created)).
Proof.
  unfold Accounts.api_register.
  destruct (Accounts.py_bool cred_username) eqn:Hn; cbn [negb orb].
  2: { intros [= <- <-]. split; [auto|]. split; [|discriminate].
       split; [discriminate|]. intros (Hx & _). discriminate Hx. }
  destruct (Accounts.py_bool cred_password) eqn:Hp; cbn [negb].
  2: { intros [= <- <-]. split; [auto|]. split; [|discriminate].
       split; [discriminate|]. intros (_ & Hx & _). discriminate Hx. }
  destruct (Accounts.py_len cred_password) as [n|] eqn:Hlen.
  2: { intros [= <- <-]. split; [auto|]. split; [|discriminate].
       split; auto. }
  destruct (Z.ltb_spec n 6) as [Hshort|Hlong].
  { intros [= <- <-]. split; [auto|]. split; [|discriminate].
    split; [discriminate|]. intros (_ & _ & Hx). discriminate Hx. }
  fold (Accounts.registered fs).
  destruct (existsb _ (Accounts.registered fs)) eqn:Hex.
  { intros [= <- <-]. split; [auto|]. split; [|discriminate].
    split; [discriminate|]. intros (_ & _ & Hx). discriminate Hx. }
  intros [= <- <-]. split; [congruence|]. split.
  { split; [discriminate|]. intros (_ & _ & Hx). discriminate Hx. }
  intros _.
  pose proof (existsb_false_Forall _ _ Hex) as Hfresh.
  rewrite registered_insert.
  split; [reflexivity|]. split; [eauto|]. split; [exact Hfresh|].
  split; [reflexivity|]. split; [|split].
  - intros path Hpath. apply lookup_insert_ne. congruence.
  - intros Hpairs. apply ordered_pairs_app; [exact Hpairs|].
    eapply Forall_impl; [exact Hfresh|]. intros u Hu. exact Hu.
  - intros Hrefl again. cbn [negb orb].
    destruct (negb (Accounts.py_bool again)); [split; [reflexivity|discriminate]|].
    destruct (Accounts.py_len again) as [k|]; [|split; [reflexivity|discriminate]].
    destruct (k <? 6); [split; [reflexivity|discriminate]|].
    rewrite lookup_insert_eq, existsb_app. cbn [existsb Accounts.username].
    rewrite Hrefl, orb_true_r. split; [reflexivity|discriminate].
Qed.

Lemma register_appends_one_new_name_witness :
  Accounts.registered
    (<[Accounts.REGISTER_FILE := [Sample2.alice; Sample2.bob]]> Sample2.two_files)
  = Accounts.registered Sample2.two_files ++ [Sample2.bob]
  /\ (Accounts.Raised = Accounts.Raised
      <-> Accounts.py_bool (Accounts.JStr (py "carol")) = true
          /\ Accounts.py_bool (Accounts.JInt 12345678) = true
          /\ Accounts.py_len (Accounts.JInt 12345678) = None).
Proof.
  split.
  - assert (Heq : Accounts.api_register Sample2.two_files
                    (Accounts.JStr (py "bob")) (Accounts.JStr (py "builder1"))
                  = (<[Accounts.REGISTER_FILE := [Sample2.alice; Sample2.bob]]>
                       Sample2.two_files, Accounts.Created)) by reflexivity.
    destruct (register_appends_one_new_name _ _ _ _ _ Heq) as (_ & _ & Hcreated).
    destruct (Hcreated eq_refl) as (_ & _ & _ & Hreg & _). exact Hreg.
  - assert (Heq : Accounts.api_register Sample2.two_files
                    (Accounts.JStr (py "carol")) (Accounts.JInt 12345678)
                  = (Sample2.two_files, Accounts.Raised)) by reflexivity.
    destruct (register_appends_one_new_name _ _ _ _ _ Heq) as (_ & Hraised & _).
    exact Hraised.
Defined.

(** X14.  [/api/register] writes [users.json] and [/api/login] reads
    [data/users.json]: no registration changes the answer of any login,
    and where [data/users.json] does not exist a user who has just been
    registered is answered 500 when logging in. *)
Theorem registration_never_enables_login {V : Type} `{Accounts.PyValue V}
    (fs : Accounts.files V)
    (cred_username cred_password form_username form_password : V)
    (token : str) :
  Accounts.api_login token
    (fst (Accounts.api_register fs cred_username cred_password))
    form_username form_password
  = Accounts.api_login token fs form_username form_password
  /\ (fs !! Accounts.LOGIN_FILE = None ->
      snd (Accounts.api_register fs cred_username cred_password) = Accounts.Created ->
      Accounts.api_login token
        (fst (Accounts.api_register fs cred_username cred_password))
        cred_username cred_password
      = Accounts.HTTPException 500).
Proof.
  assert (Hlook : fst (Accounts.api_register fs cred_username cred_password)
                    !! Accounts.LOGIN_FILE
                  = fs !! Accounts.LOGIN_FILE).
  { unfold Accounts.api_register.
    destruct (negb (Accounts.py_bool cred_username)
              || negb (Accounts.py_bool cred_password)); [reflexivity|].
    destruct (Accounts.py_len cred_password) as [n|]; [|reflexivity].
    destruct (n <? 6); [reflexivity|].
    destruct (existsb _ _); [reflexivity|].
    cbn [fst]. apply lookup_insert_ne. intros Hx. symmetry in Hx.
    exact (files_differ Hx). }
  split.
  - unfold Accounts.api_login. rewrite Hlook. reflexivity.
  - intros Hnone Hcreated. unfold Accounts.api_login. rewrite Hlook, Hnone.
    unfold Accounts.api_register in Hcreated.
    destruct (negb (Accounts.py_bool cred_username)
              || negb (Accounts.py_bool cred_password));
      [discriminate Hcreated|reflexivity].
Qed.

Lemma registration_never_enables_login_witness :
  Accounts.api_login (py "t0ken")
    (fst (Accounts.api_register Sample2.register_only
            (Accounts.JStr (py "bob")) (Accounts.JStr (py "builder1"))))
    (Accounts.JStr (py "bob")) (Accounts.JStr (py "builder1"))
  = Accounts.HTTPException 500.
Proof.
  apply (proj2 (registration_never_enables_login Sample2.register_only
                  (Accounts.JStr (py "bob")) (Accounts.JStr (py "builder1"))
                  (Accounts.JStr (py "bob")) (Accounts.JStr (py "builder1"))
                  (py "t0ken")));
    reflexivity.
Defined.

(* ===================================================================== *)
(** * Further properties: the request filter of the browser *)
(* ===================================================================== *)

Section RouteFacts.

Lemma startswith_app (p s : str) : startswith p (p ++ s) = true.
Proof.
  induction p as [|c p IH]; [reflexivity|].
  simpl. unfold char_eqb. rewrite N.eqb_refl. exact IH.
Qed.

Lemma contains_infix (sub before after : str) :
  contains sub (before ++ sub ++ after) = true.
Proof.
  induction before as [|c before IH].
  - simpl app. destruct (sub ++ after) eqn:E; cbn [contains];
      rewrite <- E, startswith_app; reflexivity.
  - simpl app. cbn [contains]. rewrite IH. apply orb_true_r.
Qed.

End RouteFacts.

(** X15.  The request filter installed on the browser context.  A style
    sheet is aborted whatever the configuration; with the five switches
    off nothing else is; and with the advertising switch on, a request of
    any resource type, the navigation to the article included, is aborted
    as soon as its URL contains a listed domain anywhere. *)
Theorem block_aggressively_cases (bc : RouteFilter.BlockConfig)
    (resource_type request_url : str) :
  RouteFilter.block_aggressively bc (py "stylesheet") request_url = RouteFilter.Abort
  /\ (RouteFilter.PLAYWRIGHT_BLOCK_IMAGES bc = false ->
      RouteFilter.PLAYWRIGHT_BLOCK_MEDIA bc = false ->
      RouteFilter.PLAYWRIGHT_BLOCK_FONTS bc = false ->
      RouteFilter.PLAYWRIGHT_BLOCK_ADS bc = false ->
      RouteFilter.PLAYWRIGHT_BLOCK_TRACKERS bc = false ->
      (RouteFilter.block_aggressively bc resource_type request_url = RouteFilter.Abort
       <-> resource_type = py "stylesheet"))
  /\ (forall domain before after,
        RouteFilter.PLAYWRIGHT_BLOCK_ADS bc = true ->
        In domain (RouteFilter.ADS_DOMAINS bc) ->
        request_url = before ++ domain ++ after ->
        RouteFilter.block_aggressively bc resource_type request_url
        = RouteFilter.Abort).
Proof.
  split; [|split].
  - unfold RouteFilter.block_aggressively.
    destruct (RouteFilter.PLAYWRIGHT_BLOCK_IMAGES bc),
      (RouteFilter.PLAYWRIGHT_BLOCK_MEDIA bc),
      (RouteFilter.PLAYWRIGHT_BLOCK_FONTS bc); reflexivity.
  - intros Hi Hm Hf Ha Ht. unfold RouteFilter.block_aggressively.
    rewrite Hi, Hm, Hf, Ha, Ht. cbn [andb].
    unfold RouteFilter.one_of. cbn [existsb]. rewrite orb_false_r.
    destruct (str_eqb resource_type (py "stylesheet")) eqn:E.
    + apply str_eqb_eq in E. split; [intros _; exact E|reflexivity].
    + split; [discriminate|]. intros ->. rewrite str_eqb_refl in E. discriminate.
  - intros domain before after Ha Hin ->. unfold RouteFilter.block_aggressively.
    assert (RouteFilter.url_mentions (RouteFilter.ADS_DOMAINS bc)
              (before ++ domain ++ after) = true) as ->.
    { apply existsb_exists. exists domain. split; [exact Hin|apply contains_infix]. }
    rewrite Ha. cbn [andb].
    repeat match goal with |- (if ?c then _ else _) = _ => destruct c; [reflexivity|] end.
    reflexivity.
Qed.

Lemma block_aggressively_cases_witness :
  RouteFilter.block_aggressively RouteFilter.default_block_config (py "document")
    (py "https://blog.criteo.com/post") = RouteFilter.Abort.
Proof.
  apply (block_aggressively_cases RouteFilter.default_block_config (py "document")
           (py "https://blog.criteo.com/post"))
    with (domain := py "criteo.com") (before := py "https://blog.") (after := py "/post").
  - reflexivity.
  - vm_compute. tauto.
  - reflexivity.
Defined.

(* ===================================================================== *)
(** * Further properties: progress under the browser lock *)
(* ===================================================================== *)

Section ProgressFacts.
Import Playwright Terms.

Lemma rendering_thread_exists (l : list pc) :
  (0 < length (List.filter is_rendering l))%nat ->
  exists i s, l !! i = Some (Rendering s).
Proof.
  induction l as [|p l IH]; simpl; [lia|].
  destruct p as [|s|html]; cbn [is_rendering].
  - intros H. destruct (IH H) as (i & s & Hi). exists (S i), s. exact Hi.
  - intros _. exists 0%nat, s. reflexivity.
  - intros H. destruct (IH H) as (i & s & Hi). exists (S i), s. exact Hi.
Qed.

Lemma unfinished_thread_exists (l : list pc) :
  Forall (fun p => is_finished p = true) l
  \/ exists i p, l !! i = Some p /\ is_finished p = false.
Proof.
  induction l as [|p l [IH|(i & q & Hi & Hq)]].
  - left. constructor.
  - destruct (is_finished p) eqn:E.
    + left. constructor; assumption.
    + right. exists 0%nat, p. split; [reflexivity|exact E].
  - right. exists (S i), q. split; assumption.
Qed.

Lemma rendering_can_step (lk : bool) (s : render_step) :
  exists lk' p', thread_step lk (Rendering s) lk' p'.
Proof.
  destruct (next_step s) as [s'|] eqn:E.
  - exists lk, (Rendering s'). apply step_advance. exact E.
  - exists false, (Finished None). apply step_raise. intros ->. discriminate E.
Qed.

End ProgressFacts.

(** X16.  The calls of [fetch_with_playwright] never block one another
    for good: in every state the threads can reach, either every call has
    returned or raised and the lock is free, or some thread can run its
    next statement. *)
Theorem render_never_deadlocks (n : nat) (st : Playwright.state) :
  rtc Playwright.step (Playwright.initial n) st ->
  (Forall (fun p => Terms.is_finished p = true) (Playwright.threads st)
   /\ Playwright.locked st = false)
  \/ exists st', Playwright.step st st'.
Proof.
  intros Hreach. pose proof (lock_agrees_reachable n st Hreach) as Hinv.
  unfold Playwright.lock_agrees, Playwright.rendering_count in Hinv.
  destruct (Nat.eq_dec (length (List.filter Playwright.is_rendering
                                  (Playwright.threads st))) 0%nat) as [Hzero|Hpos].
  - assert (Hfree : Playwright.locked st = false).
    { destruct (Playwright.locked st); [|reflexivity]. simpl in Hinv. lia. }
    destruct (unfinished_thread_exists (Playwright.threads st))
      as [Hall|(i & p & Hi & Hp)]; [left; auto|].
    right. destruct p as [|s|html]; [| |discriminate Hp].
    + eexists. eapply Playwright.step_thread; [exact Hi|].
      rewrite Hfree. apply Playwright.step_acquire.
    + pose proof (count_one _ i _ Hi eq_refl). lia.
  - right.
    destruct (rendering_thread_exists (Playwright.threads st)) as (i & s & Hi); [lia|].
    destruct (rendering_can_step (Playwright.locked st) s) as (lk' & p' & Hts).
    eexists. eapply Playwright.step_thread; eassumption.
Qed.

Lemma render_never_deadlocks_witness :
  (Forall (fun p => Terms.is_finished p = true)
     (Playwright.threads (Playwright.initial 2))
   /\ Playwright.locked (Playwright.initial 2) = false)
  \/ exists st', Playwright.step (Playwright.initial 2) st'.
Proof.
  apply (render_never_deadlocks 2 (Playwright.initial 2)). apply rtc_refl.
Defined.


(* ===================================================================== *)
(** * Further properties: [extract_images], [extract_tags],
      [extract_article_content] *)
(* ===================================================================== *)

Section LogoFacts.
Import Soup Utils Extractors.
Context (L : PyLib) (cfg : Config).

(** A block whose first statements never raise runs them all. *)
Lemma run_block_app_total (pre post : list stmt) (r : images) :
  Forall (fun s : stmt => forall r0, s r0 <> None) pre ->
  run_block (pre ++ post) r = run_block post (run_block pre r).
Proof.
  intros Hpre. revert r. induction Hpre as [|s pre Hs _ IH]; intros r; [reflexivity|].
  simpl. destruct (s r) as [r'|] eqn:E; [apply IH|]. exfalso. exact (Hs r E).
Qed.

Section Total.
Context (soup : node) (base_url : str).
Hypothesis joined_ok :
  Forall (fun v => urljoin L base_url v <> None) (Terms.joined_values L soup).

(** The hypothesis, source by source. *)
Lemma joined_source (o : option str) (v : str) :
  In o [ Spec.og_image_value soup; Spec.twitter_image_value soup;
         Spec.first_img_value L soup; Terms.og_logo_value soup;
         Terms.header_logo_src L soup; Terms.apple_icon_value L soup;
         Terms.icon_value L soup ] ->
  o = Some v -> urljoin L base_url v <> None.
Proof.
  intros Hin ->. unfold Terms.joined_values in joined_ok.
  rewrite Forall_forall in joined_ok. apply joined_ok.
  apply list_elem_of_omap. exists (Some v). split; [|reflexivity].
  apply list_elem_of_In. exact Hin.
Qed.

Lemma assign_total (set : str -> images -> images) (v : str) (r : images) :
  urljoin L base_url v <> None ->
  assign L set v base_url r <> None.
Proof.
  intros Hv. unfold assign, make_absolute_url.
  destruct (truthy v); cbn [negb]; [|discriminate].
  destruct (urljoin L base_url v) eqn:E; [discriminate|]. congruence.
Qed.

Lemma first_statements_total :
  Forall (fun s : stmt => forall r0, s r0 <> None)
    [ og_image_stmt L soup base_url; twitter_image_stmt L soup base_url;
      first_img_stmt L soup base_url; og_logo_stmt L soup base_url;
      header_logo_stmt L soup base_url; apple_icon_stmt L soup base_url;
      icon_stmt L soup base_url ].
Proof.
  repeat apply List.Forall_cons; try apply List.Forall_nil; intros r0.
  - rewrite og_image_stmt_eq.
    destruct (Spec.og_image_value soup) as [v|] eqn:E; [|discriminate].
    apply assign_total. eapply joined_source; [|exact E]. left. reflexivity.
  - rewrite twitter_image_stmt_eq.
    destruct (unset (article_image r0)); [|discriminate].
    destruct (Spec.twitter_image_value soup) as [v|] eqn:E; [|discriminate].
    apply assign_total. eapply joined_source; [|exact E]. right. left. reflexivity.
  - rewrite first_img_stmt_eq.
    destruct (unset (article_image r0)); [|discriminate].
    destruct (Spec.first_img_value L soup) as [v|] eqn:E; [|discriminate].
    apply assign_total. eapply joined_source; [|exact E].
    right. right. left. reflexivity.
  - unfold og_logo_stmt, assign_from.
    pose proof (joined_source (Terms.og_logo_value soup)) as Hv.
    unfold Terms.og_logo_value in Hv.
    destruct (find (is_meta_property (py "og:logo")) soup) as [tag|]; [|discriminate].
    destruct (get_truthy (py "content") tag) as [v|]; [|discriminate].
    apply assign_total. apply Hv; [|reflexivity].
    right. right. right. left. reflexivity.
  - unfold header_logo_stmt.
    destruct (unset (site_logo r0)); [|discriminate].
    pose proof (joined_source (Terms.header_logo_src L soup)) as Hv.
    unfold Terms.header_logo_src, Terms.header_logo in Hv.
    destruct (find (is_tag (py "header")) soup) as [header|]; [|discriminate].
    destruct (find _ header) as [img|] eqn:E; [|discriminate].
    apply List.find_some in E as [_ E]. apply andb_true_iff in E as [E _].
    unfold is_img_with_src in E. apply andb_true_iff in E as [_ E].
    unfold has_attr in E. destruct (get (py "src") img) as [v|]; [|discriminate].
    apply assign_total. apply Hv; [|reflexivity].
    right. right. right. right. left. reflexivity.
  - unfold apple_icon_stmt, assign_from.
    pose proof (joined_source (Terms.apple_icon_value L soup)) as Hv.
    unfold Terms.apple_icon_value in Hv.
    destruct (find (is_link_rel L (py "apple-touch-icon")) soup) as [tag|];
      [|discriminate].
    destruct (get_truthy (py "href") tag) as [v|]; [|discriminate].
    apply assign_total. apply Hv; [|reflexivity].
    do 5 right. left. reflexivity.
  - unfold icon_stmt, assign_from.
    destruct (unset (favicon r0)); [|discriminate].
    pose proof (joined_source (Terms.icon_value L soup)) as Hv.
    unfold Terms.icon_value in Hv.
    destruct (find (is_link_rel L (py "icon")) soup) as [tag|]; [|discriminate].
    destruct (get_truthy (py "href") tag) as [v|]; [|discriminate].
    apply assign_total. apply Hv; [|reflexivity].
    do 6 right. left. reflexivity.
Qed.

End Total.

Lemma default_favicon_truthy (base_domain : str) :
  truthy (default_favicon base_domain) = true.
Proof. unfold default_favicon. destruct base_domain; reflexivity. Qed.

Lemma unset_false (o : option str) :
  unset o = false -> exists v, o = Some v /\ truthy v = true.
Proof.
  destruct o as [v|]; [|discriminate]. simpl. intros H.
  apply negb_false_iff in H. eauto.
Qed.

(** The last two statements of the block. *)
Lemma last_statements (base_domain : str) (r : images) :
  let r' := run_block [default_favicon_stmt base_domain; logo_fallback_stmt] r in
  (exists f, favicon r' = Some f /\ truthy f = true)
  /\ (exists l, site_logo r' = Some l /\ truthy l = true)
  /\ (unset (site_logo r) = true -> site_logo r' = favicon r')
  /\ (unset (favicon r) = true -> favicon r' = Some (default_favicon base_domain)).
Proof.
  cbn zeta. cbn [run_block]. unfold default_favicon_stmt.
  pose proof (default_favicon_truthy base_domain) as Hd.
  destruct (unset (favicon r)) eqn:Ef.
  - unfold logo_fallback_stmt. cbn [set_favicon favicon site_logo unset].
    rewrite Hd. cbn [negb]. rewrite andb_true_r.
    destruct (unset (site_logo r)) eqn:El; cbn [set_site_logo set_favicon favicon site_logo].
    + repeat split; eauto.
    + apply unset_false in El as (l & Hl & Hlt).
      repeat split; eauto; discriminate.
  - apply unset_false in Ef as (f & Hf & Hft).
    unfold logo_fallback_stmt. rewrite Hf. cbn [unset]. rewrite Hft. cbn [negb].
    rewrite andb_true_r.
    destruct (unset (site_logo r)) eqn:El; cbn [set_site_logo favicon site_logo].
    + rewrite Hf. repeat split; eauto; discriminate.
    + apply unset_false in El as (l & Hl & Hlt).
      rewrite Hf. repeat split; eauto; discriminate.
Qed.

(** Without a logo source, the first seven statements leave [site_logo]
    unset. *)
Lemma first_statements_keep_logo (soup : node) (base_url : str) :
  Terms.og_logo_value soup = None ->
  Terms.header_logo L soup = None ->
  Forall (fun s : stmt => forall r0 r1,
            site_logo r0 = None -> s r0 = Some r1 -> site_logo r1 = None)
    [ og_image_stmt L soup base_url; twitter_image_stmt L soup base_url;
      first_img_stmt L soup base_url; og_logo_stmt L soup base_url;
      header_logo_stmt L soup base_url; apple_icon_stmt L soup base_url;
      icon_stmt L soup base_url ].
Proof.
  intros Hog Hheader.
  repeat apply List.Forall_cons; try apply List.Forall_nil; intros r0 r1 H0 H.
  - apply assign_from_cases in H as [->|(v & u & _ & ->)]; exact H0.
  - unfold twitter_image_stmt in H.
    destruct (unset (article_image r0)); [|injection H as <-; exact H0].
    apply assign_from_cases in H as [->|(v & u & _ & ->)]; exact H0.
  - unfold first_img_stmt, assign in H.
    destruct (unset (article_image r0)); [|injection H as <-; exact H0].
    destruct (article_container soup); [|injection H as <-; exact H0].
    destruct (find _ _); [|injection H as <-; exact H0].
    destruct (get_truthy _ _); [|injection H as <-; exact H0].
    destruct (negb _); [|injection H as <-; exact H0].
    destruct (make_absolute_url L _ base_url); [|discriminate].
    injection H as <-. exact H0.
  - unfold og_logo_stmt, assign_from in H. unfold Terms.og_logo_value in Hog.
    destruct (find _ soup) as [tag|]; [|injection H as <-; exact H0].
    rewrite Hog in H. injection H as <-. exact H0.
  - unfold header_logo_stmt in H. unfold Terms.header_logo in Hheader.
    destruct (unset (site_logo r0)); [|injection H as <-; exact H0].
    destruct (find _ soup) as [header|]; [|injection H as <-; exact H0].
    rewrite Hheader in H. injection H as <-. exact H0.
  - apply assign_from_cases in H as [->|(v & u & _ & ->)]; exact H0.
  - unfold icon_stmt in H.
    destruct (unset (favicon r0)); [|injection H as <-; exact H0].
    apply assign_from_cases in H as [->|(v & u & _ & ->)]; exact H0.
Qed.

(** Without an icon link, they leave [favicon] unset. *)
Lemma first_statements_keep_favicon (soup : node) (base_url : str) :
  find (is_link_rel L (py "apple-touch-icon")) soup = None ->
  find (is_link_rel L (py "icon")) soup = None ->
  Forall (fun s : stmt => forall r0 r1,
            favicon r0 = None -> s r0 = Some r1 -> favicon r1 = None)
    [ og_image_stmt L soup base_url; twitter_image_stmt L soup base_url;
      first_img_stmt L soup base_url; og_logo_stmt L soup base_url;
      header_logo_stmt L soup base_url; apple_icon_stmt L soup base_url;
      icon_stmt L soup base_url ].
Proof.
  intros Happle Hicon.
  repeat apply List.Forall_cons; try apply List.Forall_nil; intros r0 r1 H0 H.
  - apply assign_from_cases in H as [->|(v & u & _ & ->)]; exact H0.
  - unfold twitter_image_stmt in H.
    destruct (unset (article_image r0)); [|injection H as <-; exact H0].
    apply assign_from_cases in H as [->|(v & u & _ & ->)]; exact H0.
  - unfold first_img_stmt, assign in H.
    destruct (unset (article_image r0)); [|injection H as <-; exact H0].
    destruct (article_container soup); [|injection H as <-; exact H0].
    destruct (find is_img_with_src _); [|injection H as <-; exact H0].
    destruct (get_truthy _ _); [|injection H as <-; exact H0].
    destruct (negb _); [|injection H as <-; exact H0].
    destruct (make_absolute_url L _ base_url); [|discriminate].
    injection H as <-. exact H0.
  - apply assign_from_cases in H as [->|(v & u & _ & ->)]; exact H0.
  - unfold header_logo_stmt, assign in H.
    destruct (unset (site_logo r0)); [|injection H as <-; exact H0].
    destruct (find (is_tag (py "header")) soup) as [header|];
      [|injection H as <-; exact H0].
    destruct (find _ header) as [img|]; [|injection H as <-; exact H0].
    destruct (get (py "src") img); [|discriminate].
    destruct (make_absolute_url L _ base_url); [|discriminate].
    injection H as <-. exact H0.
  - unfold apple_icon_stmt in H. rewrite Happle in H.
    injection H as <-. exact H0.
  - unfold icon_stmt in H. rewrite Hicon in H.
    destruct (unset (favicon r0)); injection H as <-; exact H0.
Qed.

End LogoFacts.

(** X18.  On a page the parser accepts, with a base URL [urlparse]
    accepts, when [urljoin] raises on none of the attribute values that
    [extract_images] may join for this page, the function returns a
    non-empty favicon and a non-empty site logo; the logo is the favicon
    when the page has neither an [og:logo] value nor a logo image in its
    header, and the favicon is [scheme://netloc/favicon.ico] when the
    page has no icon link. *)
Theorem favicon_and_logo_are_always_set (L : PyLib) (cfg : Config)
    (html base_url : str) (soup : node) (scheme netloc : str) :
  BS4_AVAILABLE cfg = true ->
  truthy html = true ->
  BeautifulSoup L html = Some soup ->
  urlparse L base_url = Some (scheme, netloc) ->
  Forall (fun v => urljoin L base_url v <> None) (Terms.joined_values L soup) ->
  (exists f, Extractors.favicon (Extractors.extract_images L cfg html base_url) = Some f
             /\ truthy f = true)
  /\ (exists l, Extractors.site_logo (Extractors.extract_images L cfg html base_url)
                = Some l
                /\ truthy l = true)
  /\ (Terms.og_logo_value soup = None -> Terms.header_logo L soup = None ->
      Extractors.site_logo (Extractors.extract_images L cfg html base_url)
      = Extractors.favicon (Extractors.extract_images L cfg html base_url))
  /\ (Soup.find (Extractors.is_link_rel L (py "apple-touch-icon")) soup = None ->
      Soup.find (Extractors.is_link_rel L (py "icon")) soup = None ->
      Extractors.favicon (Extractors.extract_images L cfg html base_url)
      = Some (scheme ++ py "://" ++ netloc ++ py "/favicon.ico")).
Proof.
  intros Hbs Hhtml Hsoup Hparse Hjoin.
  unfold Extractors.extract_images, Extractors.images_of_soup.
  rewrite Hbs, Hhtml, Hsoup, Hparse. cbn [negb orb].
  set (bd := scheme ++ py "://" ++ netloc).
  change (Extractors.images_block L soup base_url bd)
    with ([ Extractors.og_image_stmt L soup base_url;
            Extractors.twitter_image_stmt L soup base_url;
            Extractors.first_img_stmt L soup base_url;
            Extractors.og_logo_stmt L soup base_url;
            Extractors.header_logo_stmt L soup base_url;
            Extractors.apple_icon_stmt L soup base_url;
            Extractors.icon_stmt L soup base_url ]
          ++ [ Extractors.default_favicon_stmt bd; Extractors.logo_fallback_stmt ]).
  rewrite run_block_app_total by (apply first_statements_total; exact Hjoin).
  set (r := Extractors.run_block _ Extractors.no_images).
  destruct (last_statements bd r) as (Hf & Hl & Hlogo & Hfav).
  split; [exact Hf|]. split; [exact Hl|]. split.
  - intros Hog Hheader. apply Hlogo.
    assert (Extractors.site_logo r = None) as ->; [|reflexivity].
    apply (run_block_preserves (fun r => Extractors.site_logo r = None));
      [reflexivity|]. apply first_statements_keep_logo; assumption.
  - intros Happle Hicon. rewrite Hfav.
    + unfold Extractors.default_favicon, bd. rewrite <- !app_assoc. reflexivity.
    + assert (Extractors.favicon r = None) as ->; [|reflexivity].
      apply (run_block_preserves (fun r => Extractors.favicon r = None));
        [reflexivity|]. apply first_statements_keep_favicon; assumption.
Qed.

Lemma favicon_and_logo_are_always_set_witness :
  Extractors.favicon
    (Extractors.extract_images Sample2.lib default_config Sample2.page_article
       (py "https://example.org/post/1"))
  = Some (py "https" ++ py "://" ++ py "example.org" ++ py "/favicon.ico")
  /\ Extractors.site_logo
       (Extractors.extract_images Sample2.lib default_config Sample2.page_article
          (py "https://example.org/post/1"))
     = Some (py "https://example.org/logo.svg").
Proof.
  split; [|vm_compute; reflexivity].
  apply (favicon_and_logo_are_always_set Sample2.lib default_config
           Sample2.page_article (py "https://example.org/post/1")
           Sample2.soup_article (py "https") (py "example.org"));
    try reflexivity.
  change (Terms.joined_values Sample2.lib Sample2.soup_article)
    with [py "/logo.svg"].
  apply List.Forall_cons; [|apply List.Forall_nil]. vm_compute. discriminate.
Defined.

Section CandidateFacts.
Import Soup Utils Extractors.
Context (L : PyLib) (cfg : Config).

(** What is left out by [l[:k]] on a sorted list comes after what is
    kept. *)
Lemma firstn_keeps_smallest {A} (R : relation A) `{!Transitive R} (k : nat)
    (l : list A) (x : A) :
  Sorted R l -> In x l ->
  In x (firstn k l) \/ (length (firstn k l) = k /\ Forall (fun y => R y x) (firstn k l)).
Proof.
  intros Hs Hx. apply Sorted_StronglySorted in Hs; [|assumption].
  rewrite <- (firstn_skipn k l) in Hx, Hs. apply in_app_or in Hx as [Hx|Hx]; [left; exact Hx|].
  right. split.
  - rewrite length_firstn. destruct (Nat.le_gt_cases (length l) k) as [Hle|Hgt]; [|lia].
    rewrite skipn_all2 in Hx by exact Hle. destruct Hx.
  - apply Forall_forall. intros y Hy.
    eapply StronglySorted_app_1_elem_of; [exact Hs|exact Hy|].
    apply list_elem_of_In. exact Hx.
Qed.

(** The set [extract_tags] cleans holds the candidates and nothing else. *)
Lemma candidate_set (soup : node) (rss_categories : list str) (c : str) :
  c ∈ elements ((list_to_set rss_categories : gset str)
                ∪ list_to_set (keyword_tags soup)
                ∪ list_to_set (og_article_tags soup)
                ∪ list_to_set (link_tags L soup))
  <-> In c (Terms.tag_candidates L soup rss_categories).
Proof.
  unfold Terms.tag_candidates.
  rewrite elem_of_elements, !elem_of_union, !elem_of_list_to_set, !in_app_iff,
    <- !list_elem_of_In.
  tauto.
Qed.

Lemma cleaned_set (soup : node) (rss_categories : list str) (t : str) :
  t ∈ elements
        (list_to_set
           (omap (clean_tag L)
              (elements ((list_to_set rss_categories : gset str)
                         ∪ list_to_set (keyword_tags soup)
                         ∪ list_to_set (og_article_tags soup)
                         ∪ list_to_set (link_tags L soup)))) : gset str)
  <-> exists c, In c (Terms.tag_candidates L soup rss_categories)
                /\ clean_tag L c = Some t.
Proof.
  rewrite elem_of_elements, elem_of_list_to_set, list_elem_of_omap.
  split; intros (c & Hc & Ht); exists c; (split; [|exact Ht]);
    apply candidate_set; exact Hc.
Qed.

End CandidateFacts.

(** X19.  On a page the parser accepts, every tag [extract_tags] returns
    is the cleaned form of a feed category, a keyword, an [article:tag]
    value or the text of a tag link of the page; and a cleaned candidate
    that is missing from the result was cut off by the limit: the result
    then has exactly [MAX_TAGS_PER_ARTICLE] tags, none of them after the
    missing one in code point order. *)
Theorem tags_are_the_smallest_cleaned_candidates (L : PyLib) (cfg : Config)
    (html : str) (rss_categories : list str) (soup : node) :
  BS4_AVAILABLE cfg = true ->
  truthy html = true ->
  BeautifulSoup L html = Some soup ->
  (forall t, In t (Extractors.extract_tags L cfg html rss_categories) ->
     exists c, In c (Terms.tag_candidates L soup rss_categories)
               /\ Utils.clean_tag L c = Some t)
  /\ (0 <= MAX_TAGS_PER_ARTICLE cfg ->
      forall c t,
        In c (Terms.tag_candidates L soup rss_categories) ->
        Utils.clean_tag L c = Some t ->
        In t (Extractors.extract_tags L cfg html rss_categories)
        \/ (Z.of_nat (length (Extractors.extract_tags L cfg html rss_categories))
            = MAX_TAGS_PER_ARTICLE cfg
            /\ Forall (fun kept => str_le kept t)
                 (Extractors.extract_tags L cfg html rss_categories))).
Proof.
  intros Hbs Hhtml Hsoup. unfold Extractors.extract_tags.
  rewrite Hbs, Hhtml, Hsoup. cbn [negb orb]. cbn zeta.
  set (cleaned := elements (list_to_set (omap (Utils.clean_tag L) _) : gset str)).
  assert (Hperm : Extractors.sorted cleaned ≡ₚ cleaned) by apply merge_sort_Permutation.
  split.
  - intros t Ht.
    destruct (slice_to_firstn (MAX_TAGS_PER_ARTICLE cfg) (Extractors.sorted cleaned))
      as [k Hk].
    rewrite Hk in Ht. apply (cleaned_set L soup rss_categories).
    fold cleaned. rewrite <- Hperm. apply list_elem_of_In.
    rewrite <- (firstn_skipn k (Extractors.sorted cleaned)).
    apply in_or_app. left. exact Ht.
  - intros Hmax c t Hc Ht.
    assert (Hin : In t (Extractors.sorted cleaned)).
    { apply list_elem_of_In. rewrite Hperm. unfold cleaned.
      apply cleaned_set. eauto. }
    unfold slice_to. destruct (Z.leb_spec 0 (MAX_TAGS_PER_ARTICLE cfg)); [|lia].
    destruct (firstn_keeps_smallest str_le (Z.to_nat (MAX_TAGS_PER_ARTICLE cfg))
                (Extractors.sorted cleaned) t) as [Hkept|[Hlen Hall]].
    + apply Sorted_merge_sort. apply _.
    + exact Hin.
    + left. exact Hkept.
    + right. split; [|exact Hall]. rewrite Hlen. lia.
Qed.

Lemma tags_are_the_smallest_cleaned_candidates_witness :
  Extractors.extract_tags Sample.lib Sample2.two_tags Sample.page_tags [py "World News"]
  = [py "Python"; py "World News"]
  /\ (In (py "rust")
        (Extractors.extract_tags Sample.lib Sample2.two_tags Sample.page_tags
           [py "World News"])
      \/ (Z.of_nat (length (Extractors.extract_tags Sample.lib Sample2.two_tags
                              Sample.page_tags [py "World News"]))
          = MAX_TAGS_PER_ARTICLE Sample2.two_tags
          /\ Forall (fun kept => str_le kept (py "rust"))
               (Extractors.extract_tags Sample.lib Sample2.two_tags Sample.page_tags
                  [py "World News"]))).
Proof.
  split; [vm_compute; reflexivity|].
  apply (proj2 (tags_are_the_smallest_cleaned_candidates Sample.lib Sample2.two_tags
                  Sample.page_tags [py "World News"] Sample.soup_tags
                  eq_refl eq_refl eq_refl))
    with (c := py "rust").
  - vm_compute. discriminate.
  - vm_compute. tauto.
  - vm_compute. reflexivity.
Defined.

Section ContentFacts.
Import Soup Utils Extractors.
Context (L : PyLib) (cfg : Config).

Lemma find_descendant (p : node -> bool) (root x : node) :
  find p root = Some x -> In x (descendants root) /\ p x = true.
Proof. apply List.find_some. Qed.

Lemma first_complete_source (soup : node) (cands : list (option node)) (s : str) :
  Forall (fun c => forall x, c = Some x -> In x (descendants soup)) cands ->
  first_complete L cfg cands = Some s ->
  exists element, In element (descendants soup) /\ s = to_html L element
                  /\ is_content_complete s (MIN_CONTENT_LENGTH cfg) = true.
Proof.
  induction 1 as [|c cands Hc _ IH]; simpl; [discriminate|].
  destruct c as [element|]; [|exact IH].
  destruct (is_content_complete (to_html L element) (MIN_CONTENT_LENGTH cfg)) eqn:E;
    [|exact IH].
  intros [= <-]. exists element. split; [apply Hc; reflexivity|]. split; [reflexivity|exact E].
Qed.

Lemma strategies_in_document (soup : node) :
  Forall (fun c => forall x, c = Some x -> In x (descendants soup)) (strategies L soup).
Proof.
  unfold strategies.
  repeat apply List.Forall_cons; try apply List.Forall_nil;
    intros x Hx; apply find_descendant in Hx as [Hx _]; exact Hx.
Qed.

End ContentFacts.

(** X20.  What [extract_article_content] returns for a non-empty page is
    the page itself, or the HTML of one element of the parsed page; that
    element is the [body], or its HTML has passed the length test with
    the configured minimum. *)
Theorem article_content_is_an_element_or_the_page (L : PyLib) (cfg : Config)
    (html : str) :
  truthy html = true ->
  Extractors.extract_article_content L cfg html = html
  \/ exists soup element,
       BeautifulSoup L html = Some soup
       /\ In element (Soup.descendants soup)
       /\ Extractors.extract_article_content L cfg html = to_html L element
       /\ (Utils.is_content_complete (to_html L element) (MIN_CONTENT_LENGTH cfg) = true
           \/ Soup.is_tag (py "body") element = true).
Proof.
  intros Hhtml. unfold Extractors.extract_article_content. rewrite Hhtml.
  cbn [negb orb]. destruct (BS4_AVAILABLE cfg); cbn [negb]; [|left; reflexivity].
  destruct (BeautifulSoup L html) as [soup|]; [|left; reflexivity].
  destruct (Extractors.first_complete L cfg (Extractors.strategies L soup)) as [s|] eqn:E.
  - apply (first_complete_source L cfg soup) in E as (element & Hin & -> & Hc);
      [|apply strategies_in_document].
    right. exists soup, element. auto.
  - destruct (Soup.find (Soup.is_tag (py "body")) soup) as [body|] eqn:Eb;
      [|left; reflexivity].
    apply find_descendant in Eb as [Hin Hb].
    right. exists soup, body. auto.
Qed.

Lemma article_content_is_an_element_or_the_page_witness :
  Extractors.extract_article_content Sample2.lib default_config Sample2.page_article
  = Sample2.page_article
  \/ exists soup element,
       BeautifulSoup Sample2.lib Sample2.page_article = Some soup
       /\ In element (Soup.descendants soup)
       /\ Extractors.extract_article_content Sample2.lib default_config
            Sample2.page_article
          = to_html Sample2.lib element
       /\ (Utils.is_content_complete (to_html Sample2.lib element)
             (MIN_CONTENT_LENGTH default_config) = true
           \/ Soup.is_tag (py "body") element = true).
Proof.
  apply (article_content_is_an_element_or_the_page Sample2.lib default_config
           Sample2.page_article).
  reflexivity.
Defined.
